(** * Retry, back-off, cost ledger, circuit breaker and cache eligibility

    A shallow embedding of [utils/enhanced-retry.ts], of
    [utils/cost-optimization.ts] and of the synchronous part of
    [utils/prompt-cache-optimizer.ts].

    Conventions of the embedding.
    - A JavaScript [number] is [NaN] or an exact rational ([Q]); the
      rounding of IEEE doubles is outside the model.  [Infinity] is
      modelled where the program produces it, at [Math.pow(2, attempt)]
      in the back-off, which computes with [wide] numbers.
    - A value of type [any] is a [JsValue]: [undefined], [null], a
      boolean, a number, a string or a plain record of such values;
      functions, arrays and other exotic objects are outside the model.
    - Strings are byte strings; [toLowerCase] folds the ASCII letters,
      as the source does on strings of ASCII characters.
    - [Date.now()] and [Math.random()] are passed in by the caller of
      each operation ([now], in milliseconds, and [random]); the clock
      does not advance within one call.
    - A thrown exception is the [Throw] completion. *)

From Stdlib Require Import ZArith QArith Qminmax Qpower Qround.
From Stdlib Require Import Bool List String Ascii DecimalString Lia Lqa.
Import ListNotations.

Local Open Scope string_scope.
Set Warnings "-register-all".

(** ** The JavaScript layer *)

Module Js.

Inductive number : Type :=
| NaN
| Num (q : Q).

Inductive JsValue : Type :=
| JUndefined
| JNull
| JBool (b : bool)
| JNum (n : number)
| JStr (s : string)
| JObj (fields : list (string * JsValue)).

Inductive JsError : Type :=
| TypeError.

(** Completion of an expression that may throw. *)
Inductive Completion (A : Type) : Type :=
| Normal (a : A)
| Throw (e : JsError).
Arguments Normal {A} a.
Arguments Throw {A} e.

Definition bind {A B} (c : Completion A) (k : A -> Completion B) : Completion B :=
  match c with
  | Normal a => k a
  | Throw e => Throw e
  end.

Declare Scope js_scope.
Delimit Scope js_scope with js.
Notation "x <- c ;; k" := (bind c (fun x => k))
  (at level 61, c at next level, right associativity) : js_scope.
Local Open Scope js_scope.

(** [a && b] where evaluating either side may throw. *)
Definition andThen (a b : Completion bool) : Completion bool :=
  ok <- a ;; if ok then b else Normal false.

(** The two conversions between strings and numbers that the host
    provides ([Number::toString] and [StringToNumber]). *)
Class JsRuntime : Type := {
  numberToString : Q -> string;
  stringToNumber : string -> number
}.

(** *** Numbers *)

Definition Qgtb (a b : Q) : bool := negb (Qle_bool a b).
Definition Qltb (a b : Q) : bool := negb (Qle_bool b a).

Definition nlift2 (f : Q -> Q -> Q) (a b : number) : number :=
  match a, b with
  | Num x, Num y => Num (f x y)
  | _, _ => NaN
  end.
Definition ncmp (f : Q -> Q -> bool) (a b : number) : bool :=
  match a, b with
  | Num x, Num y => f x y
  | _, _ => false
  end.

Definition nadd := nlift2 Qplus.
Definition nsub := nlift2 Qminus.
Definition nmul := nlift2 Qmult.
(** Division by a literal other than zero. *)
Definition ndiv (a : number) (d : Q) : number :=
  match a with
  | Num x => Num (x / d)
  | NaN => NaN
  end.
Definition ngt := ncmp Qgtb.
Definition nlt := ncmp Qltb.
Definition nge := ncmp (fun x y => Qle_bool y x).

(** [Math.max] and [Math.ceil]. *)
Definition Math_max := nlift2 Qmax.
Definition Math_ceil (a : number) : number :=
  match a with
  | Num x => Num (inject_Z (Qceiling x))
  | NaN => NaN
  end.

(** *** Beyond the finite range

    Finite arithmetic is exact in this model.  [Math.pow(2, n)] on an
    integer [n] leaves the range of the doubles at both ends: a double
    holds [2^n] for [-1074 <= n <= 1023]; from [n = 1024] on the
    result is [Infinity], and below [n = -1074] it is 0.  The
    operations that receive [Infinity] follow IEEE 754:
    [0 * Infinity] and [Infinity - Infinity] are [NaN]. *)
Inductive wide : Type :=
| Fin (a : number)
| Inf (negative : bool).

Definition Math_pow2 (n : Z) : wide :=
  if (1024 <=? n)%Z then Inf false
  else if (n <? -1074)%Z then Fin (Num 0)
  else Fin (Num (2 ^ n)).

Definition wmul (a b : wide) : wide :=
  match a, b with
  | Fin x, Fin y => Fin (nmul x y)
  | Fin NaN, Inf _ | Inf _, Fin NaN => Fin NaN
  | Fin (Num x), Inf s | Inf s, Fin (Num x) =>
      if Qeq_bool x 0 then Fin NaN else Inf (xorb s (Qltb x 0))
  | Inf s, Inf t => Inf (xorb s t)
  end.

Definition wadd (a b : wide) : wide :=
  match a, b with
  | Fin x, Fin y => Fin (nadd x y)
  | Fin NaN, Inf _ | Inf _, Fin NaN => Fin NaN
  | Fin (Num _), Inf s | Inf s, Fin (Num _) => Inf s
  | Inf s, Inf t => if Bool.eqb s t then Inf s else Fin NaN
  end.

(** [Math.min(a, b)]. *)
Definition Math_min (a b : wide) : wide :=
  match a, b with
  | Fin NaN, _ | _, Fin NaN => Fin NaN
  | Inf true, _ | _, Inf true => Inf true
  | Inf false, x | x, Inf false => x
  | Fin (Num x), Fin (Num y) => Fin (Num (Qmin x y))
  end.

(** [Math.max(0, x)] as a [number].  [Math.max(0, Infinity)] is
    [Infinity], the one value that [number] does not hold; the program
    never asks for it: its one call is on the [delay + jitter] of
    [calculateRetryDelay], which is never [Infinity] (lemma
    [jitteredDelay_below_infinity]). *)
Definition Math_max0 (x : wide) : number :=
  match x with
  | Fin a => Math_max (Num 0) a
  | Inf true => Num 0
  | Inf false => NaN
  end.

(** *** Values *)

(** ToBoolean. *)
Definition truthy (v : JsValue) : bool :=
  match v with
  | JUndefined | JNull => false
  | JBool b => b
  | JNum NaN => false
  | JNum (Num q) => negb (Qeq_bool q 0)
  | JStr s => negb (String.eqb s "")
  | JObj _ => true
  end.

(** [a || b] on values. *)
Definition or_else (a b : JsValue) : JsValue :=
  if truthy a then a else b.

Definition nullish (v : JsValue) : bool :=
  match v with
  | JUndefined | JNull => true
  | _ => false
  end.

Fixpoint lookup (k : string) (fields : list (string * JsValue)) : JsValue :=
  match fields with
  | [] => JUndefined
  | (k', v) :: rest => if String.eqb k k' then v else lookup k rest
  end.

(** A property of a value that is neither [null] nor [undefined]:
    of the names this program reads, a string has [length] and the
    other primitives have none. *)
Definition property (v : JsValue) (k : string) : JsValue :=
  match v with
  | JObj fields => lookup k fields
  | JStr s =>
      if String.eqb k "length"
      then JNum (Num (inject_Z (Z.of_nat (String.length s))))
      else JUndefined
  | _ => JUndefined
  end.

(** [v.k]: a property read throws on [null] and [undefined]. *)
Definition get (v : JsValue) (k : string) : Completion JsValue :=
  if nullish v then Throw TypeError else Normal (property v k).

(** [v?.k]. *)
Definition get_opt (v : JsValue) (k : string) : JsValue :=
  if nullish v then JUndefined else property v k.

(** [v === n] for a number literal [n]. *)
Definition strict_eq_num (v : JsValue) (n : Q) : bool :=
  match v with
  | JNum (Num q) => Qeq_bool q n
  | _ => false
  end.

(** [v === s] for a string literal [s]. *)
Definition strict_eq_str (v : JsValue) (s : string) : bool :=
  match v with
  | JStr s' => String.eqb s' s
  | _ => false
  end.

Section Conversions.
Context {rt : JsRuntime}.

Definition hasOwn (k : string) (fields : list (string * JsValue)) : bool :=
  existsb (fun kv => String.eqb k (fst kv)) fields.

(** ToPrimitive on a record.  The inherited [valueOf] returns the
    record itself and the inherited [toString] returns
    ["[object Object]"]; an own property named [toString] (never a
    function here) hides the latter, and the conversion throws. *)
Definition ToPrimitive (fields : list (string * JsValue)) : Completion string :=
  if hasOwn "toString" fields then Throw TypeError else Normal "[object Object]".

(** ToNumber; ["[object Object]"] reads as [NaN]. *)
Definition ToNumber (v : JsValue) : Completion number :=
  match v with
  | JUndefined => Normal NaN
  | JNull => Normal (Num 0)
  | JBool b => Normal (Num (if b then 1 else 0))
  | JNum n => Normal n
  | JStr s => Normal (stringToNumber s)
  | JObj fields => _ <- ToPrimitive fields ;; Normal NaN
  end.

(** ToString. *)
Definition ToString (v : JsValue) : Completion string :=
  match v with
  | JUndefined => Normal "undefined"
  | JNull => Normal "null"
  | JBool b => Normal (if b then "true" else "false")
  | JNum NaN => Normal "NaN"
  | JNum (Num q) => Normal (numberToString q)
  | JStr s => Normal s
  | JObj fields => ToPrimitive fields
  end.

(** The text of a number in a template literal. *)
Definition showNumber (n : number) : string :=
  match n with
  | NaN => "NaN"
  | Num q => numberToString q
  end.

(** [v >= n] and [v < n] for a number literal [n]. *)
Definition ge_num (v : JsValue) (n : Q) : Completion bool :=
  x <- ToNumber v ;; Normal (nge x (Num n)).
Definition lt_num (v : JsValue) (n : Q) : Completion bool :=
  x <- ToNumber v ;; Normal (nlt x (Num n)).
End Conversions.

(** *** Strings *)

(** [s.toLowerCase()] on ASCII text: the letters A-Z are folded and
    every other character stays.  Beyond ASCII the method of the host
    folds more letters and can change the length of the string; the
    model follows the source on the strings of ASCII characters
    ([isAscii]). *)
Definition lowerAscii (c : ascii) : ascii :=
  let n := nat_of_ascii c in
  if ((65 <=? n) && (n <=? 90))%nat then ascii_of_nat (n + 32) else c.

Fixpoint toLowerCase (s : string) : string :=
  match s with
  | EmptyString => EmptyString
  | String c s' => String (lowerAscii c) (toLowerCase s')
  end.

Fixpoint isAscii (s : string) : bool :=
  match s with
  | EmptyString => true
  | String c s' => (nat_of_ascii c <? 128)%nat && isAscii s'
  end.

(** [s.includes(needle)]. *)
Fixpoint includes (s needle : string) : bool :=
  String.prefix needle s
  || match s with
     | EmptyString => false
     | String _ s' => includes s' needle
     end.

(** [v.toLowerCase()] on a value that is not nullish: only strings
    have the method. *)
Definition call_toLowerCase (v : JsValue) : Completion JsValue :=
  match v with
  | JStr s => Normal (JStr (toLowerCase s))
  | _ => Throw TypeError
  end.

(** *** parseInt(s, 10)

    Leading white space (here the ASCII white space), an optional sign,
    then the longest run of decimal digits; [NaN] when there is none. *)

Definition isWhiteSpace (c : ascii) : bool :=
  let n := nat_of_ascii c in
  ((9 <=? n) && (n <=? 13) || (n =? 32))%nat.

Definition digitOf (c : ascii) : option Z :=
  let n := nat_of_ascii c in
  if ((48 <=? n) && (n <=? 57))%nat then Some (Z.of_nat (n - 48)) else None.

Fixpoint skipWhiteSpace (s : string) : string :=
  match s with
  | String c s' => if isWhiteSpace c then skipWhiteSpace s' else s
  | EmptyString => s
  end.

(** The longest prefix of decimal digits, read into an accumulator;
    [None] when no digit has been read. *)
Fixpoint readDigits (acc : option Z) (s : string) : option Z :=
  match s with
  | String c s' =>
      match digitOf c with
      | Some d =>
          readDigits (Some (10 * match acc with Some a => a | None => 0 end + d)%Z) s'
      | None => acc
      end
  | EmptyString => acc
  end.

Definition parseInt (s : string) : number :=
  let s := skipWhiteSpace s in
  let '(sign, s) :=
    match s with
    | String "-" s' => ((-1)%Z, s')
    | String "+" s' => (1%Z, s')
    | _ => (1%Z, s)
    end in
  match readDigits None s with
  | Some z => Num (inject_Z (sign * z))
  | None => NaN
  end.

End Js.
Import Js.

Infix "||" := or_else : js_scope.
Local Open Scope js_scope.

(** ** enhanced-retry.ts *)

(** [enum ErrorType]. *)
Inductive ErrorType : Type :=
| RATE_LIMIT
| SERVER_ERROR
| NETWORK_ERROR
| AUTH_ERROR
| CONTEXT_LENGTH_ERROR
| UNKNOWN_ERROR.

(** The string value of each member of the enum. *)
Definition ErrorType_value (t : ErrorType) : string :=
  match t with
  | RATE_LIMIT => "rate_limit"
  | SERVER_ERROR => "server_error"
  | NETWORK_ERROR => "network_error"
  | AUTH_ERROR => "auth_error"
  | CONTEXT_LENGTH_ERROR => "context_length_error"
  | UNKNOWN_ERROR => "unknown_error"
  end.

Section Classify.
Context {rt : JsRuntime}.

(** [error?.message?.toLowerCase() || ""]. *)
Definition messageOf (error : JsValue) : Completion string :=
  let m := get_opt error "message" in
  lowered <- (if nullish m then Normal JUndefined else call_toLowerCase m) ;;
  match (lowered || JStr "")%js with
  | JStr s => Normal s
  | _ => Normal ""
  end.

(** [error?.status || error?.response?.status]. *)
Definition statusOf (error : JsValue) : JsValue :=
  (get_opt error "status" || get_opt (get_opt error "response") "status")%js.

Definition classifyError (error : JsValue) : Completion ErrorType :=
  let status := statusOf error in
  message <- messageOf error ;;
  if (strict_eq_num status 429 || includes message "rate limit"
      || includes message "too many requests")%bool
  then Normal RATE_LIMIT
  else
    serverError <- andThen (ge_num status 500) (lt_num status 600) ;;
    if serverError
    then Normal SERVER_ERROR
    else if (strict_eq_num status 401 || strict_eq_num status 403)%bool
  then Normal AUTH_ERROR
  else if (includes message "context length" || includes message "token limit"
           || includes message "maximum context" || strict_eq_num status 413)%bool
  then Normal CONTEXT_LENGTH_ERROR
  else if (includes message "network" || includes message "timeout"
           || includes message "connection")%bool
  then Normal NETWORK_ERROR
  else
    code <- get error "code" ;;
    if strict_eq_str code "ECONNRESET"
    then Normal NETWORK_ERROR
    else
      code' <- get error "code" ;;
      if strict_eq_str code' "ETIMEDOUT"
      then Normal NETWORK_ERROR
      else Normal UNKNOWN_ERROR.

End Classify.

(** [interface ModelInfo], the two price fields (dollars per million
    tokens). *)
Module ModelInfo.
Record t : Type := {
  inputPrice : option Q;
  outputPrice : option Q
}.
End ModelInfo.

(** [interface EnhancedRetryOptions]: every field is optional. *)
Module EnhancedRetryOptions.
Record t : Type := {
  maxRetries : option Z;
  baseDelay : option Q;
  maxDelay : option Q;
  retryAllErrors : option bool;
  costAwareRetry : option bool;
  modelInfo : option ModelInfo.t;
  maxCostThreshold : option Q;
  customRetryCondition : option (JsValue -> Z -> bool);
  jitterFactor : option Q
}.

(** The object literal [{}]. *)
Definition empty : t :=
  {| maxRetries := None; baseDelay := None; maxDelay := None;
     retryAllErrors := None; costAwareRetry := None; modelInfo := None;
     maxCostThreshold := None; customRetryCondition := None;
     jitterFactor := None |}.
End EnhancedRetryOptions.

(** The type of [EnhancedRetryStrategy.options]: the options with the
    defaults filled in; [modelInfo] and [customRetryCondition] stay
    optional. *)
Module ResolvedOptions.
Record t : Type := {
  maxRetries : Z;
  baseDelay : Q;
  maxDelay : Q;
  retryAllErrors : bool;
  costAwareRetry : bool;
  modelInfo : option ModelInfo.t;
  maxCostThreshold : Q;
  customRetryCondition : option (JsValue -> Z -> bool);
  jitterFactor : Q
}.

(** A resolved record read at the interface type. *)
Definition widen (o : t) : EnhancedRetryOptions.t :=
  {| EnhancedRetryOptions.maxRetries := Some (maxRetries o);
     EnhancedRetryOptions.baseDelay := Some (baseDelay o);
     EnhancedRetryOptions.maxDelay := Some (maxDelay o);
     EnhancedRetryOptions.retryAllErrors := Some (retryAllErrors o);
     EnhancedRetryOptions.costAwareRetry := Some (costAwareRetry o);
     EnhancedRetryOptions.modelInfo := modelInfo o;
     EnhancedRetryOptions.maxCostThreshold := Some (maxCostThreshold o);
     EnhancedRetryOptions.customRetryCondition := customRetryCondition o;
     EnhancedRetryOptions.jitterFactor := Some (jitterFactor o) |}.
End ResolvedOptions.

Definition orDefault {A} (o : option A) (d : A) : A :=
  match o with
  | Some a => a
  | None => d
  end.

Definition DEFAULT_ENHANCED_OPTIONS : ResolvedOptions.t :=
  {| ResolvedOptions.maxRetries := 5;
     ResolvedOptions.baseDelay := 1000;
     ResolvedOptions.maxDelay := 30000;
     ResolvedOptions.retryAllErrors := false;
     ResolvedOptions.costAwareRetry := true;
     ResolvedOptions.modelInfo := None;
     ResolvedOptions.maxCostThreshold := 1;
     ResolvedOptions.customRetryCondition := None;
     ResolvedOptions.jitterFactor := 1 # 10 |}.

(** [{ ...DEFAULT_ENHANCED_OPTIONS, ...options }]: a field that
    [options] gives replaces the default. *)
Definition withDefaults (options : EnhancedRetryOptions.t) : ResolvedOptions.t :=
  let d := DEFAULT_ENHANCED_OPTIONS in
  {| ResolvedOptions.maxRetries :=
       orDefault (EnhancedRetryOptions.maxRetries options) (ResolvedOptions.maxRetries d);
     ResolvedOptions.baseDelay :=
       orDefault (EnhancedRetryOptions.baseDelay options) (ResolvedOptions.baseDelay d);
     ResolvedOptions.maxDelay :=
       orDefault (EnhancedRetryOptions.maxDelay options) (ResolvedOptions.maxDelay d);
     ResolvedOptions.retryAllErrors :=
       orDefault (EnhancedRetryOptions.retryAllErrors options)
         (ResolvedOptions.retryAllErrors d);
     ResolvedOptions.costAwareRetry :=
       orDefault (EnhancedRetryOptions.costAwareRetry options)
         (ResolvedOptions.costAwareRetry d);
     ResolvedOptions.modelInfo := EnhancedRetryOptions.modelInfo options;
     ResolvedOptions.maxCostThreshold :=
       orDefault (EnhancedRetryOptions.maxCostThreshold options)
         (ResolvedOptions.maxCostThreshold d);
     ResolvedOptions.customRetryCondition :=
       EnhancedRetryOptions.customRetryCondition options;
     ResolvedOptions.jitterFactor :=
       orDefault (EnhancedRetryOptions.jitterFactor options)
         (ResolvedOptions.jitterFactor d) |}.

(** [options.retryAllErrors || false] in the last line. *)
Definition shouldRetryError (errorType : ErrorType) (attempt maxRetries : Z)
    (options : EnhancedRetryOptions.t) : bool :=
  if (attempt >=? maxRetries)%Z then false
  else
    match errorType with
    | AUTH_ERROR | CONTEXT_LENGTH_ERROR => false
    | RATE_LIMIT | SERVER_ERROR => true
    | NETWORK_ERROR => (attempt <? Z.min maxRetries 3)%Z
    | UNKNOWN_ERROR => orDefault (EnhancedRetryOptions.retryAllErrors options) false
    end.

Section Delay.
Context {rt : JsRuntime}.

(** [calculateRetryDelay] up to its last line: the value of
    [delay + jitter]. *)
Definition jitteredDelay (attempt : Z) (baseDelay maxDelay : Q)
    (errorType : ErrorType) (retryAfterHeader : JsValue)
    (jitterFactor : option Q) (now : Z) (random : Q) : Completion wide :=
  let jitterFactor := orDefault jitterFactor (1 # 10) in
  delay <-
    (if truthy retryAfterHeader then
       text <- ToString retryAfterHeader ;;
       let retryValue := parseInt text in
       if ngt retryValue (Num (inject_Z now / 1000))
       then Normal (Fin (nsub (nmul retryValue (Num 1000)) (Num (inject_Z now))))
       else Normal (Fin (nmul retryValue (Num 1000)))
     else
       let multiplier :=
         match errorType with
         | RATE_LIMIT => 2
         | SERVER_ERROR => 3 # 2
         | NETWORK_ERROR => 6 # 5
         | _ => 1
         end in
       Normal (Math_min (Fin (Num maxDelay))
                 (wmul (wmul (Fin (Num baseDelay)) (Math_pow2 attempt))
                    (Fin (Num multiplier))))) ;;
  let jitter :=
    wmul (wmul delay (Fin (Num jitterFactor))) (Fin (Num (random * 2 - 1))) in
  Normal (wadd delay jitter).

(** The last line, [return Math.max(0, delay + jitter)]. *)
Definition calculateRetryDelay (attempt : Z) (baseDelay maxDelay : Q)
    (errorType : ErrorType) (retryAfterHeader : JsValue)
    (jitterFactor : option Q) (now : Z) (random : Q) : Completion number :=
  sum <- jitteredDelay attempt baseDelay maxDelay errorType retryAfterHeader
           jitterFactor now random ;;
  Normal (Math_max0 sum).

End Delay.

Definition estimateRetryCost (modelInfo : ModelInfo.t) (estimatedInputTokens : Q)
    (estimatedOutputTokens : option Q) : Q :=
  let estimatedOutputTokens := orDefault estimatedOutputTokens 0 in
  let inputCost :=
    (estimatedInputTokens / 1000000) * orDefault (ModelInfo.inputPrice modelInfo) 0 in
  let outputCost :=
    (estimatedOutputTokens / 1000000) * orDefault (ModelInfo.outputPrice modelInfo) 0 in
  inputCost + outputCost.

(** The object returned by [shouldRetry]. *)
Module Decision.
Record t : Type := {
  shouldRetry : bool;
  delay : number;
  reason : string
}.
End Decision.

Module EnhancedRetryStrategy.
Record t : Type := {
  options : ResolvedOptions.t;
  totalRetryCost : Q
}.

Definition new (options : EnhancedRetryOptions.t) : t :=
  {| options := withDefaults options; totalRetryCost := 0 |}.

Definition deny (why : string) : Decision.t :=
  {| Decision.shouldRetry := false; Decision.delay := Num 0; Decision.reason := why |}.

(** An optional argument of type [number] used as a condition. *)
Definition given (n : option Q) : bool :=
  match n with
  | Some q => negb (Qeq_bool q 0)
  | None => false
  end.

Section Methods.
Context {rt : JsRuntime}.

(** [error?.headers?.["retry-after"] || error?.headers?.["x-ratelimit-reset"]
    || error?.headers?.["ratelimit-reset"]]. *)
Definition retryAfterOf (error : JsValue) : JsValue :=
  let headers := get_opt error "headers" in
  (get_opt headers "retry-after" || get_opt headers "x-ratelimit-reset"
   || get_opt headers "ratelimit-reset")%js.

(** The method returns the strategy as the call leaves it, also when
    it throws, and the completion of the call. *)
Definition shouldRetry (self : t) (error : JsValue) (attempt : Z)
    (estimatedTokens : option Q) (now : Z) (random : Q)
    : t * Completion Decision.t :=
  let o := options self in
  match classifyError error with
  | Throw e => (self, Throw e)
  | Normal errorType =>
      if match ResolvedOptions.customRetryCondition o with
         | Some condition => negb (condition error attempt)
         | None => false
         end
      then (self, Normal (deny "Custom retry condition failed"))
      else if negb (shouldRetryError errorType attempt (ResolvedOptions.maxRetries o)
                      (ResolvedOptions.widen o))
      then (self, Normal (deny ("Error type " ++ ErrorType_value errorType
                                  ++ " not retryable or max attempts reached")))
      else
        (* the cost check: [None] when it denies, the charged strategy otherwise *)
        let checked : option t :=
          match ResolvedOptions.modelInfo o with
          | Some modelInfo =>
              if (ResolvedOptions.costAwareRetry o && given estimatedTokens)%bool then
                let retryCost :=
                  estimateRetryCost modelInfo (orDefault estimatedTokens 0) None in
                if Qgtb (totalRetryCost self + retryCost)
                        (ResolvedOptions.maxCostThreshold o)
                then None
                else Some {| options := o;
                             totalRetryCost := totalRetryCost self + retryCost |}
              else Some self
          | None => Some self
          end in
        match checked with
        | None =>
            (self, Normal (deny ("Retry cost threshold exceeded ($"
                                   ++ showNumber (Num (ResolvedOptions.maxCostThreshold o))
                                   ++ ")")))
        | Some self' =>
            let retryAfter := retryAfterOf error in
            (self',
             delay <-
               calculateRetryDelay attempt (ResolvedOptions.baseDelay o)
                 (ResolvedOptions.maxDelay o) errorType retryAfter
                 (Some (ResolvedOptions.jitterFactor o)) now random ;;
             Normal {| Decision.shouldRetry := true;
                       Decision.delay := delay;
                       Decision.reason :=
                         "Retrying " ++ ErrorType_value errorType ++ " error with "
                           ++ showNumber delay ++ "ms delay" |})
        end
  end.
End Methods.


Definition getTotalRetryCost (self : t) : Q := totalRetryCost self.
End EnhancedRetryStrategy.

(** [class CircuitBreaker]. *)
Module CircuitBreaker.
Inductive State : Type :=
| closed
| open
| half_open.

Record t : Type := {
  failures : Z;
  lastFailureTime : Z;
  state : State;
  failureThreshold : Z;
  recoveryTimeout : Z
}.

(** [new CircuitBreaker(failureThreshold = 5, recoveryTimeout = 60000)]. *)
Definition new (failureThreshold recoveryTimeout : option Z) : t :=
  {| failures := 0; lastFailureTime := 0; state := closed;
     failureThreshold := orDefault failureThreshold 5%Z;
     recoveryTimeout := orDefault recoveryTimeout 60000%Z |}.

Definition set_state (self : t) (s : State) : t :=
  {| failures := failures self; lastFailureTime := lastFailureTime self;
     state := s; failureThreshold := failureThreshold self;
     recoveryTimeout := recoveryTimeout self |}.

Definition allowRequest (self : t) (now : Z) : bool * t :=
  match state self with
  | closed => (true, self)
  | open =>
      if (now - lastFailureTime self >=? recoveryTimeout self)%Z
      then (true, set_state self half_open)
      else (false, self)
  | half_open => (true, self)
  end.

Definition recordSuccess (self : t) : t :=
  {| failures := 0; lastFailureTime := lastFailureTime self;
     state := closed; failureThreshold := failureThreshold self;
     recoveryTimeout := recoveryTimeout self |}.

Definition recordFailure (self : t) (now : Z) : t :=
  let failures' := (failures self + 1)%Z in
  {| failures := failures'; lastFailureTime := now;
     state := if (failures' >=? failureThreshold self)%Z then open else state self;
     failureThreshold := failureThreshold self;
     recoveryTimeout := recoveryTimeout self |}.

Definition getState (self : t) : State := state self.

(** [recordFailure()] called once at each of the instants [times],
    in order. *)
Fixpoint recordFailures (self : t) (times : list Z) : t :=
  match times with
  | [] => self
  | now :: rest => recordFailures (recordFailure self now) rest
  end.
End CircuitBreaker.

(** ** prompt-cache-optimizer.ts *)

Module CacheOptimizationConfig.
Record Ttl : Type := {
  systemPrompt : Z;
  userMessages : Z;
  longContent : Z
}.
Record t : Type := {
  minTokensForCaching : Z;
  aggressiveCaching : bool;
  cacheTtl : Ttl
}.
End CacheOptimizationConfig.

Definition DEFAULT_CACHE_CONFIG : CacheOptimizationConfig.t :=
  {| CacheOptimizationConfig.minTokensForCaching := 1024;
     CacheOptimizationConfig.aggressiveCaching := false;
     CacheOptimizationConfig.cacheTtl :=
       {| CacheOptimizationConfig.systemPrompt := 3600;
          CacheOptimizationConfig.userMessages := 1800;
          CacheOptimizationConfig.longContent := 900 |} |}.

(** [CACHING_STRATEGIES]. *)
Module CACHING_STRATEGIES.
Definition conservative : CacheOptimizationConfig.t :=
  {| CacheOptimizationConfig.minTokensForCaching := 2048;
     CacheOptimizationConfig.aggressiveCaching := false;
     CacheOptimizationConfig.cacheTtl :=
       {| CacheOptimizationConfig.systemPrompt := 1800;
          CacheOptimizationConfig.userMessages := 900;
          CacheOptimizationConfig.longContent := 600 |} |}.
Definition aggressive : CacheOptimizationConfig.t :=
  {| CacheOptimizationConfig.minTokensForCaching := 1024;
     CacheOptimizationConfig.aggressiveCaching := true;
     CacheOptimizationConfig.cacheTtl :=
       {| CacheOptimizationConfig.systemPrompt := 3600;
          CacheOptimizationConfig.userMessages := 1800;
          CacheOptimizationConfig.longContent := 900 |} |}.
Definition maximum : CacheOptimizationConfig.t :=
  {| CacheOptimizationConfig.minTokensForCaching := 512;
     CacheOptimizationConfig.aggressiveCaching := true;
     CacheOptimizationConfig.cacheTtl :=
       {| CacheOptimizationConfig.systemPrompt := 7200;
          CacheOptimizationConfig.userMessages := 3600;
          CacheOptimizationConfig.longContent := 1800 |} |}.
End CACHING_STRATEGIES.

Section Cache.
Context {rt : JsRuntime}.

(** [Math.ceil(text.length / 4)]. *)
Definition estimateTokenCount (text : JsValue) : Completion number :=
  len <- get text "length" ;;
  n <- ToNumber len ;;
  Normal (Math_ceil (ndiv n 4)).

Definition shouldCacheContent (content : JsValue)
    (config : option CacheOptimizationConfig.t) : Completion bool :=
  let config := orDefault config DEFAULT_CACHE_CONFIG in
  tokenCount <- estimateTokenCount content ;;
  Normal (nge tokenCount
            (Num (inject_Z (CacheOptimizationConfig.minTokensForCaching config)))).
End Cache.

(** ** The reference tables of the specification *)

(** The failure as the precedence table of the error classifier reads
    it: a numeric status when there is one, the message text in lower
    case, the code of the network library when there is one. *)
Module FailureView.
Record t : Type := {
  status : option Q;
  message : string;
  code : option string
}.

Definition status_is (f : t) (n : Q) : bool :=
  match status f with
  | Some q => Qeq_bool q n
  | None => false
  end.

(** [lo <= status < hi]. *)
Definition status_in (f : t) (lo hi : Q) : bool :=
  match status f with
  | Some q => Qle_bool lo q && Qltb q hi
  | None => false
  end.

Definition mentions (f : t) (phrase : string) : bool :=
  includes (message f) phrase.

Definition code_is (f : t) (c : string) : bool :=
  match code f with
  | Some c' => String.eqb c' c
  | None => false
  end.
End FailureView.

(** The rules of the classifier, in precedence order. *)
Definition classify_rules : list ((FailureView.t -> bool) * ErrorType) :=
  [ (fun f => FailureView.status_is f 429
              || FailureView.mentions f "rate limit"
              || FailureView.mentions f "too many requests", RATE_LIMIT);
    (fun f => FailureView.status_in f 500 600, SERVER_ERROR);
    (fun f => FailureView.status_is f 401 || FailureView.status_is f 403, AUTH_ERROR);
    (fun f => FailureView.mentions f "context length"
              || FailureView.mentions f "token limit"
              || FailureView.mentions f "maximum context"
              || FailureView.status_is f 413, CONTEXT_LENGTH_ERROR);
    (fun f => FailureView.mentions f "network"
              || FailureView.mentions f "timeout"
              || FailureView.mentions f "connection"
              || FailureView.code_is f "ECONNRESET"
              || FailureView.code_is f "ETIMEDOUT", NETWORK_ERROR) ]%bool.

(** First match wins; no match is [UNKNOWN_ERROR]. *)
Fixpoint first_match (rules : list ((FailureView.t -> bool) * ErrorType))
    (f : FailureView.t) : ErrorType :=
  match rules with
  | [] => UNKNOWN_ERROR
  | (applies, kind) :: rest => if applies f then kind else first_match rest f
  end.

Definition classify_spec (f : FailureView.t) : ErrorType :=
  first_match classify_rules f.

(** The view of a failure value. *)
Definition viewOf (error : JsValue) : FailureView.t :=
  {| FailureView.status :=
       match statusOf error with
       | JNum (Num q) => Some q
       | _ => None
       end;
     FailureView.message :=
       match get_opt error "message" with
       | JStr s => toLowerCase s
       | _ => ""
       end;
     FailureView.code :=
       match property error "code" with
       | JStr s => Some s
       | _ => None
       end |}.

(** A failure that is neither [null] nor [undefined], with an optional
    string message and an optional numeric status. *)
Definition wellFormedFailure (error : JsValue) : bool :=
  (negb (nullish error)
   && match get_opt error "message" with
      | JUndefined | JNull | JStr _ => true
      | _ => false
      end
   && match statusOf error with
      | JUndefined | JNull | JNum _ => true
      | _ => false
      end)%bool.

(** The eligibility table of the specification:
    [isRetryable(errorKind, attempt, maxRetries, policy)]. *)
Definition isRetryable_spec (errorKind : ErrorType) (attempt maxRetries : Z)
    (retryAllErrors : bool) : bool :=
  if (maxRetries <=? attempt)%Z then false
  else
    match errorKind with
    | AUTH_ERROR | CONTEXT_LENGTH_ERROR => false
    | RATE_LIMIT | SERVER_ERROR => true
    | NETWORK_ERROR => (attempt <? Z.min maxRetries 3)%Z
    | UNKNOWN_ERROR => retryAllErrors
    end.

(** The steps of [shouldRetry] that the specification names: the
    custom predicate accepts (or there is none), and the projected
    spend crosses the threshold (cost-aware mode, price metadata and a
    token estimate all present). *)
Definition customAccepts (o : ResolvedOptions.t) (error : JsValue) (attempt : Z) : bool :=
  match ResolvedOptions.customRetryCondition o with
  | Some condition => condition error attempt
  | None => true
  end.

Definition overBudget (self : EnhancedRetryStrategy.t) (estimatedTokens : option Q) : bool :=
  match ResolvedOptions.modelInfo (EnhancedRetryStrategy.options self), estimatedTokens with
  | Some priceInfo, Some tokens =>
      (ResolvedOptions.costAwareRetry (EnhancedRetryStrategy.options self)
       && negb (Qeq_bool tokens 0)
       && Qgtb (EnhancedRetryStrategy.totalRetryCost self
                + estimateRetryCost priceInfo tokens None)
               (ResolvedOptions.maxCostThreshold (EnhancedRetryStrategy.options self)))%bool
  | _, _ => false
  end.

(** The strategy after the cost check has let the attempt through. *)
Definition charged (self : EnhancedRetryStrategy.t) (estimatedTokens : option Q)
    : EnhancedRetryStrategy.t :=
  match ResolvedOptions.modelInfo (EnhancedRetryStrategy.options self) with
  | Some priceInfo =>
      if (ResolvedOptions.costAwareRetry (EnhancedRetryStrategy.options self)
          && EnhancedRetryStrategy.given estimatedTokens)%bool
      then {| EnhancedRetryStrategy.options := EnhancedRetryStrategy.options self;
              EnhancedRetryStrategy.totalRetryCost :=
                EnhancedRetryStrategy.totalRetryCost self
                + estimateRetryCost priceInfo (orDefault estimatedTokens 0) None |}
      else self
  | None => self
  end.

(** The value granted to the caller: the decision of a call that
    returned one. *)
Definition granted (outcome : Completion Decision.t) : Prop :=
  exists d, outcome = Normal d /\ Decision.shouldRetry d = true.

(** The denial of the cost check. *)
Definition deniedForCost (outcome : Completion Decision.t) : Prop :=
  exists d,
    outcome = Normal d
    /\ Decision.shouldRetry d = false
    /\ includes (Decision.reason d) "cost threshold exceeded" = true.

(** An otherwise-retryable failure, one that only the cost check can
    deny: it classifies as [kind], the custom predicate accepts it, the
    eligibility policy allows the attempt, and its retry hint, if it
    has one, converts to text (every hint does but a record that owns
    a [toString] property). *)
Definition otherwiseRetryable {rt : JsRuntime} (self : EnhancedRetryStrategy.t)
    (error : JsValue) (attempt : Z) (kind : ErrorType) : Prop :=
  classifyError error = Normal kind
  /\ customAccepts (EnhancedRetryStrategy.options self) error attempt = true
  /\ shouldRetryError kind attempt
       (ResolvedOptions.maxRetries (EnhancedRetryStrategy.options self))
       (ResolvedOptions.widen (EnhancedRetryStrategy.options self)) = true
  /\ exists text, ToString (EnhancedRetryStrategy.retryAfterOf error) = Normal text.

(** ** A host for the closed examples

    [decimalHost] prints a number as its decimal expansion, cut after
    17 fractional digits, and reads an unsigned decimal integer literal
    (the empty string reads as 0, as in JavaScript; every other string
    is outside its domain and reads as [NaN]). *)

Fixpoint fractionDigits (fuel : nat) (n d : Z) : string :=
  match fuel with
  | O => ""
  | S fuel' =>
      if (n =? 0)%Z then ""
      else NilZero.string_of_int (Z.to_int (10 * n / d))
             ++ fractionDigits fuel' ((10 * n) mod d)%Z d
  end.

Definition decimalString (q : Q) : string :=
  let n := Z.abs (Qnum q) in
  let d := Z.pos (Qden q) in
  (if (Qnum q <? 0)%Z then "-" else "")
    ++ NilZero.string_of_int (Z.to_int (n / d))
    ++ (if (n mod d =? 0)%Z then "" else "." ++ fractionDigits 17 (n mod d) d).

Definition decimalLiteral (s : string) : number :=
  match s with
  | EmptyString => Num 0
  | String c _ =>
      match digitOf c, readDigits None s with
      | Some _, Some z => if String.eqb (NilZero.string_of_int (Z.to_int z)) s
                          then Num (inject_Z z) else NaN
      | _, _ => NaN
      end
  end.

Definition decimalHost : JsRuntime :=
  {| numberToString := decimalString; stringToNumber := decimalLiteral |}.

(** ** Inputs of the closed examples *)

(** The failure of the closed examples of the classifier: an upstream
    503 whose body reports a rate limit. *)
Definition overloaded503 : JsValue :=
  JObj [("status", JNum (Num 503)); ("message", JStr "rate limit exceeded")].

Definition rateLimited429 : JsValue :=
  JObj [("status", JNum (Num 429)); ("message", JStr "Rate limit exceeded")].

(** A breaker with the default settings after five failures at instant 0. *)
Definition trippedBreaker : CircuitBreaker.t :=
  CircuitBreaker.recordFailures (CircuitBreaker.new None None) [0; 0; 0; 0; 0]%Z.

(** The strategy of the repository's tests: threshold $0.10, input
    price $3 and output price $15 per million tokens. *)
Definition testedOptions : EnhancedRetryOptions.t :=
  {| EnhancedRetryOptions.maxRetries := Some 3%Z;
     EnhancedRetryOptions.baseDelay := Some 1000;
     EnhancedRetryOptions.maxDelay := Some 10000;
     EnhancedRetryOptions.retryAllErrors := None;
     EnhancedRetryOptions.costAwareRetry := Some true;
     EnhancedRetryOptions.modelInfo :=
       Some {| ModelInfo.inputPrice := Some 3; ModelInfo.outputPrice := Some 15 |};
     EnhancedRetryOptions.maxCostThreshold := Some (1 # 10);
     EnhancedRetryOptions.customRetryCondition := None;
     EnhancedRetryOptions.jitterFactor := None |}.

(** The same strategy with $5 already on its ledger. *)
Definition overspentStrategy : EnhancedRetryStrategy.t :=
  {| EnhancedRetryStrategy.options := withDefaults testedOptions;
     EnhancedRetryStrategy.totalRetryCost := 5 |}.

(** A caching configuration with no minimum size. *)
Definition zeroThresholdConfig : CacheOptimizationConfig.t :=
  {| CacheOptimizationConfig.minTokensForCaching := 0;
     CacheOptimizationConfig.aggressiveCaching := true;
     CacheOptimizationConfig.cacheTtl :=
       CacheOptimizationConfig.cacheTtl DEFAULT_CACHE_CONFIG |}.

(** [PROVIDER_RETRY_CONFIGS]. *)
Module PROVIDER_RETRY_CONFIGS.
Definition profile (maxRetries : Z) (baseDelay maxDelay : Q) (retryAllErrors : bool)
    (jitterFactor : Q) : EnhancedRetryOptions.t :=
  {| EnhancedRetryOptions.maxRetries := Some maxRetries;
     EnhancedRetryOptions.baseDelay := Some baseDelay;
     EnhancedRetryOptions.maxDelay := Some maxDelay;
     EnhancedRetryOptions.retryAllErrors := Some retryAllErrors;
     EnhancedRetryOptions.costAwareRetry := Some true;
     EnhancedRetryOptions.modelInfo := None;
     EnhancedRetryOptions.maxCostThreshold := None;
     EnhancedRetryOptions.customRetryCondition := None;
     EnhancedRetryOptions.jitterFactor := Some jitterFactor |}.

Definition anthropicDirect := profile 4 1000 16000 false (1 # 10).
Definition openrouter := profile 5 500 10000 true (15 # 100).
Definition gemini := profile 4 2000 15000 false (1 # 10).
Definition vertex := profile 3 1500 12000 false (1 # 10).
Definition openai := profile 4 1000 20000 false (1 # 10).

Definition all : list EnhancedRetryOptions.t :=
  [anthropicDirect; openrouter; gemini; vertex; openai].
End PROVIDER_RETRY_CONFIGS.

(** ** cost-optimization.ts *)

Inductive TaskComplexity : Type :=
| high
| medium
| budget.

(** [COST_EFFECTIVE_FALLBACKS[tier]]. *)
Definition COST_EFFECTIVE_FALLBACKS (tier : TaskComplexity) : list string :=
  match tier with
  | high =>
      ["anthropic/claude-3.5-sonnet"; "openai/gpt-4o"; "google/gemini-pro-1.5";
       "anthropic/claude-3-opus"]
  | medium =>
      ["anthropic/claude-3.5-haiku"; "openai/gpt-4o-mini"; "google/gemini-flash-1.5";
       "anthropic/claude-3-haiku"]
  | budget =>
      ["meta-llama/llama-3.1-8b-instruct:free"; "mistralai/mistral-7b-instruct:free";
       "huggingfaceh4/zephyr-7b-beta:free"]
  end.

(** [(model) => model !== primaryModel]. *)
Definition isNot (primaryModel model : string) : bool :=
  negb (String.eqb model primaryModel).

Definition generateFallbackModels (primaryModel : string)
    (taskComplexity : option TaskComplexity) : list string :=
  let taskComplexity := orDefault taskComplexity medium in
  let fallbacks := COST_EFFECTIVE_FALLBACKS taskComplexity in
  let filteredFallbacks := filter (isNot primaryModel) fallbacks in
  match taskComplexity with
  | high =>
      filteredFallbacks ++ filter (isNot primaryModel) (COST_EFFECTIVE_FALLBACKS medium)
  | medium => filteredFallbacks ++ firstn 2 (COST_EFFECTIVE_FALLBACKS budget)
  | budget => filteredFallbacks
  end.

(** [words.some((word) => systemPrompt.toLowerCase().includes(word))]. *)
Definition mentionsAny (systemPrompt : string) (words : list string) : bool :=
  existsb (fun word => includes (toLowerCase systemPrompt) word) words.

Definition shouldUseAutoRouter (systemPrompt : string) (messageCount : Z)
    (hasImages : option bool) : bool :=
  let hasImages := orDefault hasImages false in
  if hasImages then false
  else if ((messageCount <=? 3)%Z
           && (Z.of_nat (String.length systemPrompt) <? 1000)%Z)%bool
  then true
  else
    let simpleTasks := ["summarize"; "explain"; "translate"; "format"; "convert"] in
    let isSimpleTask := mentionsAny systemPrompt simpleTasks in
    isSimpleTask.

(** The object returned by [getCostOptimizationConfig]. *)
Module CostOptimizationConfig.
Record t : Type := {
  fallbackModels : list string;
  useAutoRouter : bool;
  providerSorting : string;
  taskComplexity : TaskComplexity
}.
End CostOptimizationConfig.

Definition getCostOptimizationConfig (primaryModel systemPrompt : string)
    (messageCount : Z) (hasImages : option bool) : CostOptimizationConfig.t :=
  let hasImages := orDefault hasImages false in
  let complexKeywords :=
    ["code"; "programming"; "debug"; "analyze"; "complex"; "detailed"] in
  let simpleKeywords := ["summarize"; "translate"; "format"; "simple"; "quick"] in
  let taskComplexity :=
    if mentionsAny systemPrompt complexKeywords then high
    else if mentionsAny systemPrompt simpleKeywords then budget
    else medium in
  let taskComplexity := if (messageCount >? 10)%Z then high else taskComplexity in
  {| CostOptimizationConfig.fallbackModels :=
       generateFallbackModels primaryModel (Some taskComplexity);
     CostOptimizationConfig.useAutoRouter :=
       shouldUseAutoRouter systemPrompt messageCount (Some hasImages);
     CostOptimizationConfig.providerSorting := "price";
     CostOptimizationConfig.taskComplexity := taskComplexity |}.

Definition estimateCostSavings (primaryModelPrice : Q)
    (optimizationConfig : CostOptimizationConfig.t) : Z :=
  let savings := 15%Z in
  let savings :=
    if CostOptimizationConfig.useAutoRouter optimizationConfig
    then (savings + 30)%Z else savings in
  let savings :=
    if (0 <? Z.of_nat (List.length (CostOptimizationConfig.fallbackModels
                                      optimizationConfig)))%Z
    then
      match CostOptimizationConfig.taskComplexity optimizationConfig with
      | budget => (savings + 25)%Z
      | medium => (savings + 15)%Z
      | high => (savings + 10)%Z
      end
    else savings in
  Z.min savings 70.

(** ** Sequences of calls

    The callers of the breaker and of the strategy issue their
    operations one after the other on one object; a history is the list
    of the calls made. *)

Inductive BreakerCall : Type :=
| AllowRequest (now : Z)
| RecordSuccess
| RecordFailure (now : Z).

Definition breakerStep (self : CircuitBreaker.t) (call : BreakerCall) : CircuitBreaker.t :=
  match call with
  | AllowRequest now => snd (CircuitBreaker.allowRequest self now)
  | RecordSuccess => CircuitBreaker.recordSuccess self
  | RecordFailure now => CircuitBreaker.recordFailure self now
  end.

Definition breakerAfter (self : CircuitBreaker.t) (history : list BreakerCall)
    : CircuitBreaker.t :=
  fold_left breakerStep history self.

(** The arguments of one call of [shouldRetry], with the clock and the
    random draw of that call. *)
Record RetryCall : Type := {
  call_error : JsValue;
  call_attempt : Z;
  call_estimatedTokens : option Q;
  call_now : Z;
  call_random : Q
}.

Definition strategyStep {rt : JsRuntime} (self : EnhancedRetryStrategy.t)
    (call : RetryCall) : EnhancedRetryStrategy.t :=
  fst (EnhancedRetryStrategy.shouldRetry self (call_error call) (call_attempt call)
         (call_estimatedTokens call) (call_now call) (call_random call)).

Definition strategyAfter {rt : JsRuntime} (self : EnhancedRetryStrategy.t)
    (history : list RetryCall) : EnhancedRetryStrategy.t :=
  fold_left strategyStep history self.

(** Prices and token estimates that are not negative. *)
Definition pricesNonNegative (o : ResolvedOptions.t) : Prop :=
  forall priceInfo, ResolvedOptions.modelInfo o = Some priceInfo ->
    0 <= orDefault (ModelInfo.inputPrice priceInfo) 0.

Definition tokensNonNegative (call : RetryCall) : Prop :=
  0 <= orDefault (call_estimatedTokens call) 0.

(** Two calls for a rate-limited failure, each with an estimate of ten
    thousand tokens. *)
Definition twoRetries : list RetryCall :=
  [ {| call_error := rateLimited429; call_attempt := 1;
       call_estimatedTokens := Some 10000; call_now := 0; call_random := 1 # 2 |};
    {| call_error := rateLimited429; call_attempt := 2;
       call_estimatedTokens := Some 10000; call_now := 5000; call_random := 1 # 4 |} ].

(** ** prompt-cache-optimizer.ts: model support and the typed callers *)

Definition supportsPromptCaching (modelId : string) : bool :=
  let anthropicCachingModels :=
    ["claude-sonnet-4"; "claude-opus-4"; "claude-3.7-sonnet"; "claude-3-7-sonnet";
     "claude-3.5-sonnet"; "claude-3-5-sonnet"; "claude-3-5-haiku"; "claude-3-haiku";
     "claude-3-opus"] in
  let geminiCachingModels :=
    ["gemini-2.5-pro"; "gemini-2.5-flash"; "gemini-1.5-pro"; "gemini-1.5-flash"] in
  (existsb (fun model => includes modelId model) anthropicCachingModels
   || existsb (fun model => includes modelId model) geminiCachingModels)%bool.

(** [estimateTokenCount] and [shouldCacheContent] at their declared
    argument type, [string]: there nothing throws and the count is an
    integer. *)
Definition estimateTokenCount_string (text : string) : Z :=
  Qceiling (inject_Z (Z.of_nat (String.length text)) / 4).

Definition shouldCacheContent_string (content : string)
    (config : option CacheOptimizationConfig.t) : bool :=
  let config := orDefault config DEFAULT_CACHE_CONFIG in
  let tokenCount := estimateTokenCount_string content in
  (CacheOptimizationConfig.minTokensForCaching config <=? tokenCount)%Z.

(** The message types of the Anthropic SDK that the optimizer reads. *)
Module Anthropic.
Inductive Role : Type :=
| user
| assistant.

Inductive CacheControl : Type :=
| ephemeral.

(** A content block: its [type], the [text] of a text block, its other
    fields, and [cache_control] when it has one. *)
Record ContentBlock : Type := {
  type : string;
  text : string;
  fields : list (string * JsValue);
  cache_control : option CacheControl
}.

(** [content: string | Array<ContentBlockParam>]. *)
Inductive Content : Type :=
| Text (s : string)
| Blocks (parts : list ContentBlock).

Record MessageParam : Type := {
  role : Role;
  content : Content
}.

Definition isUser (message : MessageParam) : bool :=
  match role message with
  | user => true
  | assistant => false
  end.

Definition isText (part : ContentBlock) : bool := String.eqb (type part) "text".

(** [{ ...part, cache_control: { type: "ephemeral" } }]. *)
Definition withCacheControl (part : ContentBlock) : ContentBlock :=
  {| type := type part; text := text part; fields := fields part;
     cache_control := Some ephemeral |}.
End Anthropic.

(** Arrays: the elements with their indices, [array[array.length - k]],
    [array.map((x, i) => ...)] and [array.pop()] on a fresh copy. *)
Definition indexed {A} (l : list A) : list (nat * A) :=
  combine (seq 0 (List.length l)) l.

Definition fromEnd {A} (l : list A) (k : nat) : option A :=
  if (List.length l <? k)%nat then None else nth_error l (List.length l - k).

Definition mapIndexed {A B} (f : A -> nat -> B) (l : list A) : list B :=
  map (fun entry => f (snd entry) (fst entry)) (indexed l).

Definition lastOf {A} (l : list A) : option A := fromEnd l 1.

(** [index === indices[...]] where the right side may be [undefined]. *)
Definition isIndex (index : nat) (found : option nat) : bool :=
  match found with
  | Some i => (index =? i)%nat
  | None => false
  end.

Module CacheStats.
Record t : Type := {
  systemCached : bool;
  messagesCached : Z;
  estimatedSavings : Z
}.

(** [messagesCached++; estimatedSavings += tokens]. *)
Definition count (cacheStats : t) (tokens : Z) : t :=
  {| systemCached := systemCached cacheStats;
     messagesCached := messagesCached cacheStats + 1;
     estimatedSavings := estimatedSavings cacheStats + tokens |}.
End CacheStats.

(** The object returned by [enhanceAnthropicCaching]. *)
Module EnhancedCaching.
Record t : Type := {
  enhancedSystemPrompt : list Anthropic.ContentBlock;
  enhancedMessages : list Anthropic.MessageParam;
  cacheStats : CacheStats.t
}.
End EnhancedCaching.

(** [messages.reduce((acc, msg, index) =>
      msg.role === "user" ? [...acc, index] : acc, [])]. *)
Definition userMsgIndices (messages : list Anthropic.MessageParam) : list nat :=
  fold_left
    (fun acc entry => if Anthropic.isUser (snd entry) then (acc ++ [fst entry])%list else acc)
    (indexed messages) [].

(** The callback of [messages.map]; it updates [cacheStats]. *)
Definition enhanceMessage (config : CacheOptimizationConfig.t)
    (lastUser secondLastUser : option nat) (cacheStats : CacheStats.t)
    (message : Anthropic.MessageParam) (index : nat)
    : CacheStats.t * Anthropic.MessageParam :=
  let isLastUserMsg := isIndex index lastUser in
  let isSecondLastUserMsg := isIndex index secondLastUser in
  let shouldCache :=
    ((isLastUserMsg || isSecondLastUserMsg) && Anthropic.isUser message)%bool in
  match Anthropic.content message with
  | Anthropic.Text s =>
      if (shouldCache && shouldCacheContent_string s (Some config))%bool
      then
        (CacheStats.count cacheStats (estimateTokenCount_string s),
         {| Anthropic.role := Anthropic.role message;
            Anthropic.content :=
              Anthropic.Blocks
                [ {| Anthropic.type := "text"; Anthropic.text := s;
                     Anthropic.fields := [];
                     Anthropic.cache_control := Some Anthropic.ephemeral |} ] |})
      else (cacheStats, message)
  | Anthropic.Blocks parts =>
      if shouldCache then
        match lastOf (filter Anthropic.isText parts) with
        | Some lastTextPart =>
            if shouldCacheContent_string (Anthropic.text lastTextPart) (Some config)
            then
              (CacheStats.count cacheStats
                 (estimateTokenCount_string (Anthropic.text lastTextPart)),
               {| Anthropic.role := Anthropic.role message;
                  Anthropic.content :=
                    Anthropic.Blocks
                      (mapIndexed
                         (fun content contentIndex =>
                            if (contentIndex =? List.length parts - 1)%nat
                            then Anthropic.withCacheControl content
                            else content)
                         parts) |})
            else (cacheStats, message)
        | None => (cacheStats, message)
        end
      else (cacheStats, message)
  end.

(** [messages.map(callback)] with the statistics threaded through the
    calls of the callback, in order. *)
Fixpoint mapWithStats
    (callback : CacheStats.t -> Anthropic.MessageParam -> nat
                -> CacheStats.t * Anthropic.MessageParam)
    (cacheStats : CacheStats.t) (index : nat) (messages : list Anthropic.MessageParam)
    : CacheStats.t * list Anthropic.MessageParam :=
  match messages with
  | [] => (cacheStats, [])
  | message :: rest =>
      let (cacheStats1, message') := callback cacheStats message index in
      let (cacheStats2, rest') := mapWithStats callback cacheStats1 (S index) rest in
      (cacheStats2, message' :: rest')
  end.

Definition enhanceAnthropicCaching (messages : list Anthropic.MessageParam)
    (systemPrompt : string) (config : option CacheOptimizationConfig.t)
    : EnhancedCaching.t :=
  let config := orDefault config DEFAULT_CACHE_CONFIG in
  let cacheStats :=
    {| CacheStats.systemCached := false; CacheStats.messagesCached := 0;
       CacheStats.estimatedSavings := 0 |} in
  let (cacheStats, enhancedSystemPrompt) :=
    if shouldCacheContent_string systemPrompt (Some config)
    then
      ({| CacheStats.systemCached := true;
          CacheStats.messagesCached := CacheStats.messagesCached cacheStats;
          CacheStats.estimatedSavings :=
            CacheStats.estimatedSavings cacheStats
            + estimateTokenCount_string systemPrompt |},
       [ {| Anthropic.type := "text"; Anthropic.text := systemPrompt;
            Anthropic.fields := [];
            Anthropic.cache_control := Some Anthropic.ephemeral |} ])
    else
      (cacheStats,
       [ {| Anthropic.type := "text"; Anthropic.text := systemPrompt;
            Anthropic.fields := []; Anthropic.cache_control := None |} ]) in
  let indices := userMsgIndices messages in
  let (cacheStats, enhancedMessages) :=
    mapWithStats (enhanceMessage config (fromEnd indices 1) (fromEnd indices 2))
      cacheStats 0 messages in
  {| EnhancedCaching.enhancedSystemPrompt := enhancedSystemPrompt;
     EnhancedCaching.enhancedMessages := enhancedMessages;
     EnhancedCaching.cacheStats := cacheStats |}.

(** The text a message carries: the string, or the texts of its text
    blocks, joined. *)
Definition textOf (message : Anthropic.MessageParam) : string :=
  match Anthropic.content message with
  | Anthropic.Text s => s
  | Anthropic.Blocks parts =>
      String.concat ""
        (map (fun part => if Anthropic.isText part then Anthropic.text part else "")
           parts)
  end.

Inductive CachingStrategy : Type :=
| strategy_aggressive
| strategy_conservative
| strategy_none.

(** The object returned by [analyzeCachingOpportunities]. *)
Module CachingAnalysis.
Record t : Type := {
  recommendations : list string;
  potentialSavings : Q;
  optimalStrategy : CachingStrategy
}.
End CachingAnalysis.

Section Analysis.
Context {rt : JsRuntime}.

(** [modelInfo.supportsPromptCache] is the one field of [modelInfo]
    that the function reads. *)
Definition analyzeCachingOpportunities (systemPrompt : string)
    (messages : list Anthropic.MessageParam) (supportsPromptCache : bool)
    : CachingAnalysis.t :=
  let systemTokens := estimateTokenCount_string systemPrompt in
  let totalUserTokens :=
    fold_left (fun total msg => (total + estimateTokenCount_string (textOf msg))%Z)
      (filter Anthropic.isUser messages) 0%Z in
  let recommendations : list string := [] in
  let potentialSavings : Q := 0 in
  let optimalStrategy := strategy_none in
  let '(recommendations, potentialSavings, optimalStrategy) :=
    if (1024 <=? systemTokens)%Z
    then ((recommendations
             ++ [("System prompt (" ++ showNumber (Num (inject_Z systemTokens))
                    ++ " tokens) is suitable for caching")%string])%list,
          potentialSavings + inject_Z systemTokens * (75 # 100),
          strategy_conservative)
    else (recommendations, potentialSavings, optimalStrategy) in
  let '(recommendations, potentialSavings, optimalStrategy) :=
    if (2048 <=? totalUserTokens)%Z
    then ((recommendations
             ++ [("User messages (" ++ showNumber (Num (inject_Z totalUserTokens))
                    ++ " tokens) could benefit from caching")%string])%list,
          potentialSavings + inject_Z totalUserTokens * (1 # 2),
          strategy_aggressive)
    else (recommendations, potentialSavings, optimalStrategy) in
  let '(recommendations, optimalStrategy) :=
    if supportsPromptCache
    then ((recommendations
             ++ ["Model supports prompt caching - enable for cost optimization"])%list,
          optimalStrategy)
    else ((recommendations
             ++ ["Model does not support prompt caching - consider switching to a caching-enabled model"])%list,
          strategy_none) in
  {| CachingAnalysis.recommendations := recommendations;
     CachingAnalysis.potentialSavings := potentialSavings;
     CachingAnalysis.optimalStrategy := optimalStrategy |}.
End Analysis.

(** ** Reading a conversation *)

(** The indices of the user messages of a conversation whose first
    message has index [start], in increasing order. *)
Fixpoint userIndicesFrom (start : nat) (messages : list Anthropic.MessageParam)
    : list nat :=
  match messages with
  | [] => []
  | message :: rest =>
      if Anthropic.isUser message
      then start :: userIndicesFrom (S start) rest
      else userIndicesFrom (S start) rest
  end.

(** How many user messages come after the message at [index]. *)
Definition usersAfter (messages : list Anthropic.MessageParam) (index : nat) : nat :=
  List.length (filter Anthropic.isUser (skipn (S index) messages)).

(** 1 when the index [found] is still to come at [start], else 0. *)
Definition pending (start : nat) (found : option nat) : Z :=
  match found with
  | Some i => if (start <=? i)%nat then 1%Z else 0%Z
  | None => 0%Z
  end.

(** Every text of a message is too short to be cached. *)
Definition belowThreshold (config : option CacheOptimizationConfig.t)
    (message : Anthropic.MessageParam) : Prop :=
  match Anthropic.content message with
  | Anthropic.Text s => shouldCacheContent_string s config = false
  | Anthropic.Blocks parts =>
      forall part, In part parts -> Anthropic.isText part = true ->
                   shouldCacheContent_string (Anthropic.text part) config = false
  end.

Definition textBlock (s : string) : Anthropic.ContentBlock :=
  {| Anthropic.type := "text"; Anthropic.text := s; Anthropic.fields := [];
     Anthropic.cache_control := None |}.

Definition imageBlock (data : string) : Anthropic.ContentBlock :=
  {| Anthropic.type := "image"; Anthropic.text := "";
     Anthropic.fields := [("source", JStr data)];
     Anthropic.cache_control := None |}.

Definition says (role : Anthropic.Role) (content : Anthropic.Content)
    : Anthropic.MessageParam :=
  {| Anthropic.role := role; Anthropic.content := content |}.

(** A conversation with three user messages, one of them a screenshot
    with its caption before it. *)
Definition exampleConversation : list Anthropic.MessageParam :=
  [ says Anthropic.user (Anthropic.Text "why does the build fail?");
    says Anthropic.assistant (Anthropic.Text "which step fails?");
    says Anthropic.user
      (Anthropic.Blocks [textBlock "the link step, see the log"; imageBlock "log.png"]);
    says Anthropic.assistant (Anthropic.Text "a library is missing");
    says Anthropic.user (Anthropic.Text "thanks") ].
(** * Properties *)

(** ** Helpers on rationals *)

Lemma Qgtb_lt (a b : Q) : Qgtb a b = true <-> b < a.
Proof.
  unfold Qgtb. rewrite negb_true_iff.
  split; intro H.
  - apply Qnot_le_lt. intro Hle. apply Qle_bool_iff in Hle. congruence.
  - destruct (Qle_bool a b) eqn:E; [|reflexivity].
    apply Qle_bool_iff in E. apply Qlt_not_le in H. contradiction.
Qed.

Lemma Qgtb_le (a b : Q) : Qgtb a b = false <-> a <= b.
Proof.
  unfold Qgtb. rewrite negb_false_iff. apply Qle_bool_iff.
Qed.

Lemma Qltb_lt (a b : Q) : Qltb a b = true <-> a < b.
Proof. apply Qgtb_lt. Qed.

(** Turns the boolean tests on rationals found in the context into
    propositions and closes the goal by linear arithmetic. *)
Ltac qbool :=
  repeat match goal with
    | H : Qeq_bool _ _ = true |- _ => apply Qeq_bool_iff in H
    | H : Qeq_bool _ _ = false |- _ => apply Qeq_bool_neq in H
    | H : Qle_bool _ _ = true |- _ => apply Qle_bool_iff in H
    | H : Qle_bool ?a ?b = false |- _ =>
        assert (b < a) by (apply Qgtb_lt; unfold Qgtb; rewrite H; reflexivity);
        clear H
    | H : Qltb _ _ = true |- _ => apply Qltb_lt in H
    | H : Qltb _ _ = false |- _ => apply Qgtb_le in H
    | H : Qgtb _ _ = true |- _ => apply Qgtb_lt in H
    | H : Qgtb _ _ = false |- _ => apply Qgtb_le in H
    end;
  try lra.

(** ** The error classifier *)

Section ClassifierFacts.
Context {rt : JsRuntime}.

Lemma messageOf_wellFormed (error : JsValue) :
  wellFormedFailure error = true ->
  messageOf error = Normal (FailureView.message (viewOf error)).
Proof.
  unfold wellFormedFailure, messageOf, viewOf. simpl.
  destruct (get_opt error "message") as [| |b|n|s|fs]; simpl;
    rewrite ?andb_false_r; try discriminate; intros _; try reflexivity.
  unfold or_else. simpl.
  destruct (toLowerCase s); reflexivity.
Qed.

Lemma classifyError_table (error : JsValue) :
  wellFormedFailure error = true ->
  classifyError error = Normal (classify_spec (viewOf error)).
Proof.
  intro WF.
  pose proof (messageOf_wellFormed _ WF) as Hmsg.
  unfold wellFormedFailure in WF.
  apply andb_true_iff in WF as [WF Hstatus].
  apply andb_true_iff in WF as [Hnull _].
  apply negb_true_iff in Hnull.
  unfold classify_spec, classify_rules, first_match.
  unfold FailureView.status_is, FailureView.status_in, FailureView.mentions,
    FailureView.code_is.
  change (FailureView.status (viewOf error))
    with (match statusOf error with JNum (Num q) => Some q | _ => None end).
  change (FailureView.code (viewOf error))
    with (match property error "code" with JStr s => Some s | _ => None end).
  unfold classifyError, get.
  rewrite Hmsg, Hnull. cbn [bind].
  generalize (FailureView.message (viewOf error)). intro msg.
  generalize (includes msg "rate limit"), (includes msg "too many requests"),
    (includes msg "context length"), (includes msg "token limit"),
    (includes msg "maximum context"), (includes msg "network"),
    (includes msg "timeout"), (includes msg "connection").
  intros m1 m2 m3 m4 m5 m6 m7 m8.
  assert (Hcode : forall c,
             strict_eq_str (property error "code") c
             = match match property error "code" with
                     | JStr s => Some s
                     | _ => None
                     end with
               | Some c' => String.eqb c' c
               | None => false
               end)
    by (intro c; destruct (property error "code"); reflexivity).
  rewrite !Hcode.
  generalize (match property error "code" with JStr s => Some s | _ => None end).
  intros [c|]; [generalize (String.eqb c "ECONNRESET"), (String.eqb c "ETIMEDOUT");
                intros c1 c2|].
all: destruct (statusOf error) as [| |b|[|q]|s|fs]; try discriminate;
  unfold strict_eq_num, andThen, ge_num, lt_num, ToNumber, nge, nlt, ncmp;
  cbn [bind]; cbv beta;
  try (generalize (Qeq_bool q 429), (Qeq_bool q 401), (Qeq_bool q 403),
         (Qeq_bool q 413), (Qle_bool 500 q), (Qltb q 600);
       intros s1 s2 s3 s4 s5 s6);
  repeat first
    [ reflexivity
    | match goal with
      | |- context [orb ?x _] => is_var x; destruct x; cbn [orb andb bind]
      | |- context [andb ?x _] => is_var x; destruct x; cbn [orb andb bind]
      | |- context [if ?x then _ else _] => is_var x; destruct x; cbn [orb andb bind]
      end ].
Qed.
End ClassifierFacts.

(** Decides the tests on a rational status that occur in the goal,
    discarding the combinations that arithmetic excludes. *)
Ltac split_status_tests :=
  repeat match goal with
    | |- context [Qeq_bool ?a ?b] => destruct (Qeq_bool a b) eqn:?
    | |- context [Qle_bool ?a ?b] => destruct (Qle_bool a b) eqn:?
    | |- context [Qltb ?a ?b] => destruct (Qltb a b) eqn:?
    end;
  cbn [orb andb];
  first [ reflexivity | exfalso; qbool; fail ].

(** C5 (as amended). For every well-formed failure (not null or
    undefined, message absent or a string, status not a string)
    [classifyError] returns the kind chosen by the six-rule precedence
    table, first match wins, read on the effective status, the
    lower-cased message and the code.  In particular status 429 yields
    RateLimit, and, when the message mentions neither "rate limit" nor
    "too many requests", every status in [500,600) yields ServerError,
    401 and 403 yield AuthError and 413 yields ContextLengthError. *)
Theorem classifyError_precedence_table :
  forall (rt : JsRuntime) (error : JsValue),
    wellFormedFailure error = true ->
    classifyError error = Normal (classify_spec (viewOf error))
    /\ (forall q, statusOf error = JNum (Num q) -> q == 429 ->
        classifyError error = Normal RATE_LIMIT)
    /\ (FailureView.mentions (viewOf error) "rate limit" = false ->
        FailureView.mentions (viewOf error) "too many requests" = false ->
        forall q, statusOf error = JNum (Num q) ->
          (500 <= q < 600 -> classifyError error = Normal SERVER_ERROR)
          /\ (q == 401 \/ q == 403 -> classifyError error = Normal AUTH_ERROR)
          /\ (q == 413 -> classifyError error = Normal CONTEXT_LENGTH_ERROR)).
Proof.
  intros rt error WF.
  pose proof (classifyError_table error WF) as Htable.
  split; [exact Htable|].
  rewrite Htable.
  unfold classify_spec, classify_rules, first_match.
  unfold FailureView.status_is, FailureView.status_in.
  change (FailureView.status (viewOf error))
    with (match statusOf error with JNum (Num q) => Some q | _ => None end).
  split.
  - intros q Hq H429. rewrite Hq.
    rewrite (Qeq_eq_bool _ _ H429). reflexivity.
  - intros Hm1 Hm2 q Hq. rewrite Hq, Hm1, Hm2.
    repeat split.
    + intros [Hlo Hhi]. split_status_tests.
    + intros [H|H]; split_status_tests.
    + intros H.
      generalize (FailureView.mentions (viewOf error) "context length"),
        (FailureView.mentions (viewOf error) "token limit"),
        (FailureView.mentions (viewOf error) "maximum context").
      intros [] [] []; split_status_tests.
Qed.

Lemma classifyError_precedence_table_witness :
  wellFormedFailure overloaded503 = true
  /\ classifyError (rt := decimalHost) overloaded503
     = Normal (classify_spec (viewOf overloaded503)).
Proof.
  split; [reflexivity|].
  apply (classifyError_precedence_table decimalHost overloaded503).
  reflexivity.
Defined.

(** C5 (as stated) fails: a status in [500,599] does not yield
    ServerError when the message mentions a rate limit; rule 1 wins. *)
Lemma classifyError_503_rate_limit :
  statusOf overloaded503 = JNum (Num 503)
  /\ classifyError (rt := decimalHost) overloaded503 = Normal RATE_LIMIT.
Proof. split; reflexivity. Qed.

(** C2. [classifyError] raises on [null] and on [undefined] (the read
    of [error.code] is not guarded), and on a failure whose message is
    not a string. *)
Theorem classifyError_throws_on_null :
  forall rt : JsRuntime,
    classifyError JNull = Throw TypeError
    /\ classifyError JUndefined = Throw TypeError
    /\ classifyError (JObj [("message", JNum (Num 42))]) = Throw TypeError.
Proof. intro rt. repeat split; reflexivity. Qed.

(** ** Retry eligibility *)

(** C6. [shouldRetryError] is the eligibility table of the
    specification: false once [attempt >= maxRetries]; always false for
    AuthError and ContextLengthError; for RateLimit and ServerError
    equal to [attempt < maxRetries]; for NetworkError equal to
    [attempt < min(maxRetries, 3)]; for Unknown, under the attempt cap,
    true exactly when [retryAllErrors] is set. *)
Theorem shouldRetryError_table :
  forall (errorKind : ErrorType) (attempt maxRetries : Z)
         (policy : EnhancedRetryOptions.t),
    shouldRetryError errorKind attempt maxRetries policy
    = isRetryable_spec errorKind attempt maxRetries
        (orDefault (EnhancedRetryOptions.retryAllErrors policy) false)
    /\ ((maxRetries <= attempt)%Z ->
        shouldRetryError errorKind attempt maxRetries policy = false)
    /\ shouldRetryError AUTH_ERROR attempt maxRetries policy = false
    /\ shouldRetryError CONTEXT_LENGTH_ERROR attempt maxRetries policy = false
    /\ shouldRetryError RATE_LIMIT attempt maxRetries policy
       = (attempt <? maxRetries)%Z
    /\ shouldRetryError SERVER_ERROR attempt maxRetries policy
       = (attempt <? maxRetries)%Z
    /\ shouldRetryError NETWORK_ERROR attempt maxRetries policy
       = (attempt <? Z.min maxRetries 3)%Z
    /\ shouldRetryError UNKNOWN_ERROR attempt maxRetries policy
       = ((attempt <? maxRetries)%Z
          && orDefault (EnhancedRetryOptions.retryAllErrors policy) false)%bool.
Proof.
  intros errorKind attempt maxRetries policy.
  unfold shouldRetryError, isRetryable_spec.
  rewrite Z.geb_leb.
  destruct (Z.leb_spec maxRetries attempt) as [Hcap|Hcap];
    destruct (Z.ltb_spec attempt maxRetries) as [Hlt|Hge]; try lia;
    repeat split; try reflexivity; try (intro; lia);
    try (destruct errorKind; reflexivity).
Qed.

Lemma shouldRetryError_table_witness :
  (5 <= 5)%Z /\ shouldRetryError RATE_LIMIT 5 5 EnhancedRetryOptions.empty = false.
Proof.
  split; [lia|].
  apply (proj1 (proj2 (shouldRetryError_table RATE_LIMIT 5 5 EnhancedRetryOptions.empty))).
  lia.
Defined.

(** ** The back-off calculator *)


Lemma without_jitter (d r : Q) :
  0 <= d -> Qmax 0 (d + d * 0 * r) == d.
Proof.
  intro Hd.
  assert (E : d + d * 0 * r == d) by ring.
  destruct (Q.max_spec 0 (d + d * 0 * r)) as [[_ ->]|[H ->]]; [exact E|].
  rewrite E in H. apply Qle_antisym; assumption.
Qed.

(** *** [Infinity] in the back-off

    A value capped by a finite [maxDelay] is below [Infinity], and so
    is such a value with its jitter added. *)
Lemma Math_min_below_infinity (maxDelay : Q) (x : wide) :
  Math_min (Fin (Num maxDelay)) x <> Inf false.
Proof.
  destruct x as [[|q]|[|]]; cbn; discriminate.
Qed.

Lemma jittered_below_infinity (delay : wide) (jitterFactor r : Q) :
  delay <> Inf false ->
  wadd delay (wmul (wmul delay (Fin (Num jitterFactor))) (Fin (Num r))) <> Inf false.
Proof.
  intro H. destruct delay as [[|d]|[|]]; [cbn; discriminate..| |congruence].
  cbn. destruct (Qeq_bool jitterFactor 0); cbn; [discriminate|].
  destruct (Qeq_bool r 0); cbn; [discriminate|].
  destruct (Qltb jitterFactor 0), (Qltb r 0); cbn; discriminate.
Qed.

(** The finite values of [Math.pow(2, n)]. *)
Lemma Math_pow2_finite (n : Z) :
  (n < 1024)%Z ->
  Math_pow2 n = Fin (Num (if (n <? -1074)%Z then 0 else 2 ^ n)).
Proof.
  intro H. unfold Math_pow2. destruct (Z.leb_spec 1024 n); [lia|].
  destruct (n <? -1074)%Z; reflexivity.
Qed.

Lemma Math_pow2_exact (n : Z) :
  (-1074 <= n < 1024)%Z -> Math_pow2 n = Fin (Num (2 ^ n)).
Proof.
  intro H. rewrite Math_pow2_finite by lia.
  destruct (Z.ltb_spec n (-1074)); [lia|reflexivity].
Qed.

Lemma Math_pow2_overflow (n : Z) :
  (1024 <= n)%Z -> Math_pow2 n = Inf false.
Proof.
  intro H. unfold Math_pow2. destruct (Z.leb_spec 1024 n); [reflexivity|lia].
Qed.

(** The finite values never decrease with [n]. *)
Lemma Math_pow2_monotone (n n' : Z) :
  (n <= n')%Z ->
  (if (n <? -1074)%Z then 0 else 2 ^ n) <= (if (n' <? -1074)%Z then 0 else 2 ^ n').
Proof.
  intro H.
  assert (Hpos : forall k : Z, 0 <= 2 ^ k) by (intro k; apply Qpower_pos; lra).
  destruct (Z.ltb_spec n (-1074)), (Z.ltb_spec n' (-1074)); try lia.
  - apply Qle_refl.
  - apply Hpos.
  - apply Qpower_le_compat_l; [exact H|lra].
Qed.

Section DelayFacts.
Context {rt : JsRuntime}.

(** [delay + jitter] is never [Infinity]: [Math.max(0, delay + jitter)]
    is a [number]. *)
Lemma jitteredDelay_below_infinity attempt baseDelay maxDelay errorType
    retryAfterHeader jitterFactor now random :
  jitteredDelay attempt baseDelay maxDelay errorType retryAfterHeader
    jitterFactor now random <> Normal (Inf false).
Proof.
  assert (Hsum : forall delay jf r,
             delay <> Inf false ->
             Normal (wadd delay (wmul (wmul delay (Fin (Num jf))) (Fin (Num r))))
             <> Normal (Inf false)).
  { intros delay jf r Hdelay H.
    apply (jittered_below_infinity delay jf r Hdelay). congruence. }
  unfold jitteredDelay. cbv zeta.
  destruct (truthy retryAfterHeader).
  - destruct (ToString retryAfterHeader) as [text|e]; cbn [bind]; [|discriminate].
    destruct (ngt (parseInt text) (Num (inject_Z now / 1000))); cbn [bind];
      apply Hsum; discriminate.
  - cbn [bind]. apply Hsum, Math_min_below_infinity.
Qed.


(** Without a retry hint, and while [Math.pow(2, attempt)] is finite,
    the delay is the jittered, capped back-off. *)
Lemma calculateRetryDelay_finite_power attempt baseDelay maxDelay errorType
    retryAfterHeader jitterFactor now random :
  truthy retryAfterHeader = false ->
  (attempt < 1024)%Z ->
  calculateRetryDelay attempt baseDelay maxDelay errorType retryAfterHeader
    (Some jitterFactor) now random
  = Normal
      (Num (Qmax 0
              (Qmin maxDelay
                 (baseDelay * (if (attempt <? -1074)%Z then 0 else 2 ^ attempt)
                  * match errorType with
                    | RATE_LIMIT => 2
                    | SERVER_ERROR => 3 # 2
                    | NETWORK_ERROR => 6 # 5
                    | _ => 1
                    end)
               + Qmin maxDelay
                   (baseDelay * (if (attempt <? -1074)%Z then 0 else 2 ^ attempt)
                    * match errorType with
                      | RATE_LIMIT => 2
                      | SERVER_ERROR => 3 # 2
                      | NETWORK_ERROR => 6 # 5
                      | _ => 1
                      end)
                 * jitterFactor * (random * 2 - 1)))).
Proof.
  intros Hnone Hfinite. unfold calculateRetryDelay, jitteredDelay.
  rewrite Hnone, (Math_pow2_finite attempt Hfinite). reflexivity.
Qed.

(** The same where a double holds [2^attempt]. *)
Lemma calculateRetryDelay_without_hint attempt baseDelay maxDelay errorType
    retryAfterHeader jitterFactor now random :
  truthy retryAfterHeader = false ->
  (-1074 <= attempt < 1024)%Z ->
  calculateRetryDelay attempt baseDelay maxDelay errorType retryAfterHeader
    (Some jitterFactor) now random
  = Normal
      (Num (Qmax 0
              (Qmin maxDelay
                 (baseDelay * 2 ^ attempt
                  * match errorType with
                    | RATE_LIMIT => 2
                    | SERVER_ERROR => 3 # 2
                    | NETWORK_ERROR => 6 # 5
                    | _ => 1
                    end)
               + Qmin maxDelay
                   (baseDelay * 2 ^ attempt
                    * match errorType with
                      | RATE_LIMIT => 2
                      | SERVER_ERROR => 3 # 2
                      | NETWORK_ERROR => 6 # 5
                      | _ => 1
                      end)
                 * jitterFactor * (random * 2 - 1)))).
Proof.
  intros Hnone Hexact. unfold calculateRetryDelay, jitteredDelay.
  rewrite Hnone, (Math_pow2_exact attempt Hexact). reflexivity.
Qed.

(** Without a retry hint, once [Math.pow(2, attempt)] is [Infinity]:
    a positive [baseDelay] gives the jittered [maxDelay], and
    [baseDelay] 0 gives [NaN] ([0 * Infinity]). *)
Lemma calculateRetryDelay_overflow attempt baseDelay maxDelay errorType
    retryAfterHeader jitterFactor now random :
  truthy retryAfterHeader = false ->
  (1024 <= attempt)%Z ->
  (0 < baseDelay ->
   calculateRetryDelay attempt baseDelay maxDelay errorType retryAfterHeader
     (Some jitterFactor) now random
   = Normal (Num (Qmax 0 (maxDelay + maxDelay * jitterFactor * (random * 2 - 1)))))
  /\ (baseDelay == 0 ->
      calculateRetryDelay attempt baseDelay maxDelay errorType retryAfterHeader
        (Some jitterFactor) now random
      = Normal NaN).
Proof.
  intros Hnone Hover. unfold calculateRetryDelay, jitteredDelay.
  rewrite Hnone, (Math_pow2_overflow attempt Hover). cbn [wmul orDefault].
  split; intro Hbase.
  - assert (E0 : Qeq_bool baseDelay 0 = false).
    { destruct (Qeq_bool baseDelay 0) eqn:E; [|reflexivity].
      apply Qeq_bool_iff in E. lra. }
    assert (E1 : Qltb baseDelay 0 = false).
    { unfold Qltb. destruct (Qle_bool 0 baseDelay) eqn:E; [reflexivity|].
      assert (0 <= baseDelay) by lra. apply Qle_bool_iff in H. congruence. }
    rewrite E0, E1.
    destruct errorType; reflexivity.
  - assert (E0 : Qeq_bool baseDelay 0 = true) by (apply Qeq_bool_iff; exact Hbase).
    rewrite E0. destruct errorType; reflexivity.
Qed.

End DelayFacts.




(** C9. With baseDelay 1000, maxDelay 30000, jitterFactor 0, no retry
    hint and kind RateLimit the delay is 2000 for attempt 0, 16000 for
    attempt 3 and 30000 for attempt 10. *)
Theorem calculateRetryDelay_rate_limit_scenario :
  forall (rt : JsRuntime) (now : Z) (random : Q),
    (exists d,
        calculateRetryDelay 0 1000 30000 RATE_LIMIT JUndefined (Some 0) now random
        = Normal (Num d) /\ d == 2000)
    /\ (exists d,
           calculateRetryDelay 3 1000 30000 RATE_LIMIT JUndefined (Some 0) now random
           = Normal (Num d) /\ d == 16000)
    /\ (exists d,
           calculateRetryDelay 10 1000 30000 RATE_LIMIT JUndefined (Some 0) now random
           = Normal (Num d) /\ d == 30000).
Proof.
  intros rt now random.
  rewrite !calculateRetryDelay_without_hint by first [reflexivity | lia].
  repeat split; eexists; (split; [reflexivity|]).
  - assert (E : Qmin 30000 (1000 * 2 ^ 0 * 2) == 2000) by (vm_compute; reflexivity).
    rewrite without_jitter; [exact E | rewrite E; lra].
  - assert (E : Qmin 30000 (1000 * 2 ^ 3 * 2) == 16000) by (vm_compute; reflexivity).
    rewrite without_jitter; [exact E | rewrite E; lra].
  - assert (E : Qmin 30000 (1000 * 2 ^ 10 * 2) == 30000) by (vm_compute; reflexivity).
    rewrite without_jitter; [exact E | rewrite E; lra].
Qed.

(** ** The retry strategy *)

Section StrategyFacts.
Context {rt : JsRuntime}.

Lemma calculateRetryDelay_returns attempt baseDelay maxDelay errorType
    retryAfterHeader jitterFactor now random :
  (exists text, ToString retryAfterHeader = Normal text) ->
  exists delay,
    calculateRetryDelay attempt baseDelay maxDelay errorType retryAfterHeader
      jitterFactor now random = Normal delay.
Proof.
  intros [text Htext]. unfold calculateRetryDelay, jitteredDelay. rewrite Htext.
  destruct (truthy retryAfterHeader); cbn [bind];
    [destruct (ngt (parseInt text) (Num (inject_Z now / 1000)))|];
    cbn [bind]; eexists; reflexivity.
Qed.

(** Past the custom predicate and the eligibility policy only the cost
    check decides: over budget the call denies and keeps the strategy;
    otherwise it charges the ledger and computes the delay. *)
Lemma shouldRetry_eligible self error attempt estimatedTokens now random kind :
  classifyError error = Normal kind ->
  customAccepts (EnhancedRetryStrategy.options self) error attempt = true ->
  shouldRetryError kind attempt
    (ResolvedOptions.maxRetries (EnhancedRetryStrategy.options self))
    (ResolvedOptions.widen (EnhancedRetryStrategy.options self)) = true ->
  exists outcome,
    EnhancedRetryStrategy.shouldRetry self error attempt estimatedTokens now random
    = (if overBudget self estimatedTokens then self else charged self estimatedTokens,
       outcome)
    /\ (overBudget self estimatedTokens = true -> deniedForCost outcome)
    /\ (overBudget self estimatedTokens = false ->
        (forall d, outcome = Normal d -> Decision.shouldRetry d = true)
        /\ ((exists text,
                ToString (EnhancedRetryStrategy.retryAfterOf error) = Normal text) <->
            exists d, outcome = Normal d)).
Proof.
  intros Hkind Hcustom Heligible.
  unfold EnhancedRetryStrategy.shouldRetry, overBudget, charged, customAccepts in *.
  rewrite Hkind, Heligible. cbn [negb].
  replace (match ResolvedOptions.customRetryCondition (EnhancedRetryStrategy.options self)
           with
           | Some condition => negb (condition error attempt)
           | None => false
           end) with false
    by (destruct (ResolvedOptions.customRetryCondition (EnhancedRetryStrategy.options self));
        [rewrite Hcustom|]; reflexivity).
  assert (Hgrant :
            forall self' : EnhancedRetryStrategy.t,
            exists outcome,
              (self',
               delay <-
                 calculateRetryDelay attempt
                   (ResolvedOptions.baseDelay (EnhancedRetryStrategy.options self))
                   (ResolvedOptions.maxDelay (EnhancedRetryStrategy.options self))
                   kind (EnhancedRetryStrategy.retryAfterOf error)
                   (Some (ResolvedOptions.jitterFactor (EnhancedRetryStrategy.options self)))
                   now random ;;
               Normal {| Decision.shouldRetry := true;
                         Decision.delay := delay;
                         Decision.reason :=
                           "Retrying " ++ ErrorType_value kind ++ " error with "
                             ++ showNumber delay ++ "ms delay" |})
              = (self', outcome)
              /\ (false = true -> deniedForCost outcome)
              /\ (false = false ->
                  (forall d, outcome = Normal d -> Decision.shouldRetry d = true)
                  /\ ((exists text,
                          ToString (EnhancedRetryStrategy.retryAfterOf error)
                          = Normal text) <->
                      exists d, outcome = Normal d))).
  { intro self'. eexists. split; [reflexivity|]. split; [discriminate|].
    intros _. split.
    - intros d.
      destruct (calculateRetryDelay _ _ _ _ _ _ _ _); cbn [bind]; [|discriminate].
      intro H. injection H as <-. reflexivity.
    - split.
      + intro Hhint.
        destruct (calculateRetryDelay_returns attempt
                    (ResolvedOptions.baseDelay (EnhancedRetryStrategy.options self))
                    (ResolvedOptions.maxDelay (EnhancedRetryStrategy.options self))
                    kind (EnhancedRetryStrategy.retryAfterOf error)
                    (Some (ResolvedOptions.jitterFactor
                             (EnhancedRetryStrategy.options self)))
                    now random Hhint) as [delay ->].
        cbn [bind]. eexists. reflexivity.
      + intros [d Hd]. unfold calculateRetryDelay, jitteredDelay in Hd. revert Hd.
        destruct (EnhancedRetryStrategy.retryAfterOf error) as [| |b|[|q]|s|fs];
          try (intros _; eexists; reflexivity).
        cbn [truthy ToString]. unfold ToPrimitive.
        destruct (hasOwn "toString" fs); cbn [bind];
          [discriminate|intros _; eexists; reflexivity]. }
  destruct estimatedTokens as [tokens|];
    destruct (ResolvedOptions.modelInfo (EnhancedRetryStrategy.options self))
      as [priceInfo|];
    destruct (ResolvedOptions.costAwareRetry (EnhancedRetryStrategy.options self));
    cbn [EnhancedRetryStrategy.given orDefault andb];
    try (destruct (Qeq_bool tokens 0); cbn [negb andb]);
    try match goal with
      | |- context [Qgtb ?a ?b] => destruct (Qgtb a b)
      end;
    try apply Hgrant.
  destruct self as [o total].
  eexists. split; [reflexivity|]. split; [|discriminate].
  intros _. eexists. repeat split.
Qed.
End StrategyFacts.






(** C10. When the token estimate is 0 or omitted, [shouldRetry] skips
    the cost check in every mode, cost-aware with price metadata
    included: an otherwise-retryable failure is granted a retry however
    the ledger compares with [maxCostThreshold], and the strategy, with
    its total retry cost, is unchanged. *)
Theorem shouldRetry_skips_cost_check_without_tokens :
  forall (rt : JsRuntime) (self : EnhancedRetryStrategy.t) (error : JsValue)
         (attempt : Z) (estimatedTokens : option Q) (now : Z) (random : Q)
         (kind : ErrorType),
    (forall tokens, estimatedTokens = Some tokens -> tokens == 0) ->
    otherwiseRetryable self error attempt kind ->
    exists self' outcome,
      EnhancedRetryStrategy.shouldRetry self error attempt estimatedTokens now random
      = (self', outcome)
      /\ granted outcome
      /\ self' = self
      /\ EnhancedRetryStrategy.getTotalRetryCost self'
         = EnhancedRetryStrategy.getTotalRetryCost self.
Proof.
  intros rt self error attempt estimatedTokens now random kind Hnone
         (Hkind & Hcustom & Heligible & Hhint).
  destruct (shouldRetry_eligible self error attempt estimatedTokens now random kind
              Hkind Hcustom Heligible) as (outcome & Hcall & _ & Hunder).
  assert (Hgiven : EnhancedRetryStrategy.given estimatedTokens = false).
  { destruct estimatedTokens as [tokens|]; [|reflexivity].
    cbn. rewrite (Qeq_eq_bool _ _ (Hnone tokens eq_refl)). reflexivity. }
  assert (Hbudget : overBudget self estimatedTokens = false).
  { unfold overBudget.
    destruct (ResolvedOptions.modelInfo (EnhancedRetryStrategy.options self));
      [|reflexivity].
    destruct estimatedTokens as [tokens|]; [|reflexivity].
    cbn in Hgiven. rewrite Hgiven, andb_false_r. reflexivity. }
  assert (Hsame : charged self estimatedTokens = self).
  { unfold charged. rewrite Hgiven, andb_false_r.
    destruct (ResolvedOptions.modelInfo (EnhancedRetryStrategy.options self));
      reflexivity. }
  rewrite Hbudget, Hsame in Hcall.
  destruct (Hunder Hbudget) as [Hgrant Hreturns].
  destruct (proj1 Hreturns Hhint) as [d ->].
  exists self, (Normal d). split; [exact Hcall|].
  split; [exists d; split; [reflexivity|apply Hgrant; reflexivity]|].
  split; reflexivity.
Qed.

Lemma shouldRetry_skips_cost_check_without_tokens_witness :
  ResolvedOptions.costAwareRetry (EnhancedRetryStrategy.options overspentStrategy) = true
  /\ ResolvedOptions.maxCostThreshold (EnhancedRetryStrategy.options overspentStrategy)
     < EnhancedRetryStrategy.getTotalRetryCost overspentStrategy
  /\ (forall tokens, Some 0 = Some tokens -> tokens == 0)
  /\ otherwiseRetryable (rt := decimalHost) overspentStrategy rateLimited429 1 RATE_LIMIT
  /\ exists self' outcome,
      EnhancedRetryStrategy.shouldRetry (rt := decimalHost) overspentStrategy
        rateLimited429 1 (Some 0) 0 (1 # 2) = (self', outcome)
      /\ granted outcome
      /\ self' = overspentStrategy
      /\ EnhancedRetryStrategy.getTotalRetryCost self'
         = EnhancedRetryStrategy.getTotalRetryCost overspentStrategy.
Proof.
  assert (H1 : forall tokens, Some 0 = Some tokens -> tokens == 0)
    by (intros tokens H; injection H as <-; reflexivity).
  assert (H2 : otherwiseRetryable (rt := decimalHost) overspentStrategy
                 rateLimited429 1 RATE_LIMIT)
    by (repeat split; eexists; reflexivity).
  split; [reflexivity|]. split; [reflexivity|]. split; [exact H1|]. split; [exact H2|].
  exact (shouldRetry_skips_cost_check_without_tokens decimalHost overspentStrategy
           rateLimited429 1 (Some 0) 0 (1 # 2) RATE_LIMIT H1 H2).
Defined.

(** ** The circuit breaker *)

Module BreakerFacts.
Import CircuitBreaker.

Lemma recordFailures_config (b : t) (times : list Z) :
  failureThreshold (recordFailures b times) = failureThreshold b
  /\ recoveryTimeout (recordFailures b times) = recoveryTimeout b.
Proof.
  revert b. induction times as [|now rest IH]; intro b; cbn [recordFailures].
  - split; reflexivity.
  - destruct (IH (recordFailure b now)) as [-> ->]. split; reflexivity.
Qed.

Lemma recordFailures_failures (b : t) (times : list Z) :
  failures (recordFailures b times) = (failures b + Z.of_nat (List.length times))%Z.
Proof.
  revert b. induction times as [|now rest IH]; intro b; cbn [recordFailures List.length].
  - lia.
  - rewrite IH. cbn [recordFailure failures]. lia.
Qed.

Lemma last_cons_default (l : list Z) (a d : Z) :
  last (a :: l) d = last l a.
Proof.
  revert a d. induction l as [|x l IH]; intros a d; [reflexivity|].
  change (last (a :: x :: l) d) with (last (x :: l) d).
  rewrite (IH x d), (IH x a). reflexivity.
Qed.

Lemma recordFailures_lastFailureTime (b : t) (times : list Z) :
  lastFailureTime (recordFailures b times) = last times (lastFailureTime b).
Proof.
  revert b. induction times as [|now rest IH]; intro b; cbn [recordFailures].
  - reflexivity.
  - rewrite IH. cbn [recordFailure lastFailureTime].
    symmetry. apply last_cons_default.
Qed.

(** Below the threshold the state is the one the breaker had. *)
Lemma recordFailures_below (b : t) (times : list Z) :
  (failures b + Z.of_nat (List.length times) < failureThreshold b)%Z ->
  state (recordFailures b times) = state b.
Proof.
  revert b. induction times as [|now rest IH]; intros b Hlt; cbn [recordFailures].
  - reflexivity.
  - cbn [List.length] in Hlt. rewrite IH.
    + cbn [recordFailure state].
      destruct (Z.geb_spec (failures b + 1) (failureThreshold b)); [lia|reflexivity].
    + cbn [recordFailure failures failureThreshold]. lia.
Qed.

(** A failure that reaches the threshold opens the breaker. *)
Lemma recordFailures_reached (b : t) (times : list Z) :
  times <> [] ->
  (failureThreshold b <= failures b + Z.of_nat (List.length times))%Z ->
  state (recordFailures b times) = open.
Proof.
  revert b. induction times as [|now rest IH]; intros b Hne Hge; [contradiction|].
  cbn [recordFailures]. destruct rest as [|next rest'].
  - cbn [recordFailures recordFailure state]. cbn [List.length] in Hge.
    destruct (Z.geb_spec (failures b + 1) (failureThreshold b)); [reflexivity|lia].
  - apply IH; [discriminate|].
    cbn [recordFailure failures failureThreshold]. cbn [List.length] in Hge |- *. lia.
Qed.

End BreakerFacts.

(** C8. From the initial Closed state, [failureThreshold] consecutive
    failures (and no fewer) open the breaker, with that many failures
    counted; while less than [recoveryTimeout] has passed since the
    last failure [allowRequest] returns false and changes nothing; once
    [recoveryTimeout] has passed [allowRequest] returns true and the
    state is HalfOpen; a [recordSuccess] then closes the breaker with
    zero failures. *)
Theorem breaker_trips_and_recovers :
  forall (failureThreshold recoveryTimeout : Z) (times : list Z)
         (breaker : CircuitBreaker.t),
    (0 < failureThreshold)%Z ->
    Z.of_nat (List.length times) = failureThreshold ->
    breaker = CircuitBreaker.recordFailures
                (CircuitBreaker.new (Some failureThreshold) (Some recoveryTimeout))
                times ->
    CircuitBreaker.getState breaker = CircuitBreaker.open
    /\ CircuitBreaker.failures breaker = failureThreshold
    /\ CircuitBreaker.lastFailureTime breaker = last times 0%Z
    /\ (forall k, (k < List.length times)%nat ->
        CircuitBreaker.getState
          (CircuitBreaker.recordFailures
             (CircuitBreaker.new (Some failureThreshold) (Some recoveryTimeout))
             (firstn k times))
        = CircuitBreaker.closed)
    /\ (forall now,
        (now - CircuitBreaker.lastFailureTime breaker < recoveryTimeout)%Z ->
        CircuitBreaker.allowRequest breaker now = (false, breaker))
    /\ (forall now,
        (recoveryTimeout <= now - CircuitBreaker.lastFailureTime breaker)%Z ->
        exists trial,
          CircuitBreaker.allowRequest breaker now = (true, trial)
          /\ CircuitBreaker.getState trial = CircuitBreaker.half_open
          /\ CircuitBreaker.getState (CircuitBreaker.recordSuccess trial)
             = CircuitBreaker.closed
          /\ CircuitBreaker.failures (CircuitBreaker.recordSuccess trial) = 0%Z).
Proof.
  intros threshold timeout times breaker Hpos Hlen ->.
  set (fresh := CircuitBreaker.new (Some threshold) (Some timeout)).
  assert (Hopen : CircuitBreaker.state (CircuitBreaker.recordFailures fresh times)
                  = CircuitBreaker.open).
  { apply BreakerFacts.recordFailures_reached.
    - destruct times; [cbn in Hlen; lia|discriminate].
    - cbn. lia. }
  destruct (BreakerFacts.recordFailures_config fresh times) as [_ Htimeout].
  cbn in Htimeout.
  unfold CircuitBreaker.getState, CircuitBreaker.allowRequest.
  rewrite Hopen, Htimeout.
  split; [reflexivity|].
  split; [rewrite BreakerFacts.recordFailures_failures; cbn; lia|].
  split; [apply BreakerFacts.recordFailures_lastFailureTime|].
  split; [|split].
  - intros k Hk. rewrite BreakerFacts.recordFailures_below; [reflexivity|].
    cbn. rewrite length_firstn. lia.
  - intros now Hearly.
    destruct (Z.geb_spec
                (now - CircuitBreaker.lastFailureTime
                         (CircuitBreaker.recordFailures fresh times)) timeout);
      [lia|reflexivity].
  - intros now Hlate.
    destruct (Z.geb_spec
                (now - CircuitBreaker.lastFailureTime
                         (CircuitBreaker.recordFailures fresh times)) timeout);
      [|lia].
    eexists. repeat split.
Qed.

Lemma breaker_trips_and_recovers_witness :
  (0 < 3)%Z
  /\ Z.of_nat (List.length [10; 20; 30]%Z) = 3%Z
  /\ CircuitBreaker.getState
       (CircuitBreaker.recordFailures (CircuitBreaker.new (Some 3%Z) (Some 1000%Z))
          [10; 20; 30]%Z)
     = CircuitBreaker.open.
Proof.
  split; [lia|]. split; [reflexivity|].
  refine (proj1 (breaker_trips_and_recovers 3 1000 [10; 20; 30]%Z _ _ eq_refl eq_refl));
    lia.
Defined.

(** ** Cache eligibility *)

(** C3 (as amended). For every caching configuration whose
    [minTokensForCaching] is positive, [shouldCacheContent] applied to
    the empty string returns false without raising. *)
Theorem shouldCacheContent_empty_string :
  forall (rt : JsRuntime) (config : option CacheOptimizationConfig.t),
    (0 < CacheOptimizationConfig.minTokensForCaching
           (orDefault config DEFAULT_CACHE_CONFIG))%Z ->
    shouldCacheContent (JStr "") config = Normal false.
Proof.
  intros rt config Hpos.
  unfold shouldCacheContent, estimateTokenCount. cbn.
  f_equal.
  destruct (Qle_bool _ _) eqn:E; [|reflexivity].
  apply Qle_bool_iff in E. rewrite <- Zle_Qle in E. lia.
Qed.

Lemma shouldCacheContent_empty_string_witness :
  (0 < CacheOptimizationConfig.minTokensForCaching
         (orDefault None DEFAULT_CACHE_CONFIG))%Z
  /\ shouldCacheContent (rt := decimalHost) (JStr "") None = Normal false.
Proof.
  split; [reflexivity|].
  apply (shouldCacheContent_empty_string decimalHost None). reflexivity.
Defined.

(** The default configuration and the three presets refuse the empty
    string. *)
Lemma shouldCacheContent_empty_string_presets (rt : JsRuntime) :
  Forall (fun config => shouldCacheContent (JStr "") config = Normal false)
    [None; Some CACHING_STRATEGIES.conservative; Some CACHING_STRATEGIES.aggressive;
     Some CACHING_STRATEGIES.maximum].
Proof. repeat constructor. Qed.

(** C3 (as stated) fails: with a threshold of zero the empty string,
    of zero tokens, is cacheable. *)
Lemma shouldCacheContent_empty_string_zero_threshold :
  shouldCacheContent (rt := decimalHost) (JStr "") (Some zeroThresholdConfig)
  = Normal true.
Proof. reflexivity. Qed.

(** [shouldCacheContent] raises on [null] and on [undefined]: the read
    of [text.length] in [estimateTokenCount] is not guarded. *)
Theorem shouldCacheContent_throws_on_null :
  forall (rt : JsRuntime) (config : option CacheOptimizationConfig.t),
    shouldCacheContent JNull config = Throw TypeError
    /\ shouldCacheContent JUndefined config = Throw TypeError.
Proof. intros rt config. split; reflexivity. Qed.

(** * Further properties *)

(** ** Fallback models and savings estimate *)

Lemma isNot_refl (primaryModel : string) : isNot primaryModel primaryModel = false.
Proof. unfold isNot. rewrite String.eqb_refl. reflexivity. Qed.

Lemma not_In_filter_isNot (primaryModel : string) (models : list string) :
  ~ In primaryModel (filter (isNot primaryModel) models).
Proof.
  intro H. apply filter_In in H as [_ H]. rewrite isNot_refl in H. discriminate.
Qed.

Lemma filter_isNot_absent (primaryModel : string) (models : list string) :
  ~ In primaryModel models -> filter (isNot primaryModel) models = models.
Proof.
  induction models as [|m rest IH]; intro Hnot; [reflexivity|].
  cbn [filter]. unfold isNot at 1.
  destruct (String.eqb_spec m primaryModel) as [->|_].
  - exfalso. apply Hnot. left. reflexivity.
  - cbn [negb]. rewrite IH; [reflexivity|]. intro H. apply Hnot. right. exact H.
Qed.

(** Removing one model from a list without repetitions removes at most
    one entry. *)
Lemma filter_isNot_length (primaryModel : string) (models : list string) :
  NoDup models ->
  (List.length models <= S (List.length (filter (isNot primaryModel) models)))%nat.
Proof.
  induction 1 as [|m rest Hm _ IH]; [cbn; lia|].
  cbn [filter]. unfold isNot at 1.
  destruct (String.eqb_spec m primaryModel) as [->|_]; cbn [negb List.length].
  - rewrite (filter_isNot_absent _ _ Hm). lia.
  - lia.
Qed.

Lemma NoDup_filter_app_l (keep : string -> bool) (l1 l2 : list string) :
  NoDup (l1 ++ l2) -> NoDup (filter keep l1 ++ l2).
Proof.
  induction l1 as [|a l1 IH]; cbn [app filter]; intro H; [exact H|].
  inversion H as [|? ? Hnotin Hrest]; subst.
  destruct (keep a); [|exact (IH Hrest)].
  cbn [app]. constructor; [|exact (IH Hrest)].
  intro Hin. apply Hnotin. apply in_app_or in Hin as [Hin|Hin]; apply in_or_app.
  - left. apply filter_In in Hin as [Hin _]. exact Hin.
  - right. exact Hin.
Qed.

Lemma tiers_distinct :
  NoDup (COST_EFFECTIVE_FALLBACKS high ++ COST_EFFECTIVE_FALLBACKS medium)
  /\ NoDup (COST_EFFECTIVE_FALLBACKS medium ++ firstn 2 (COST_EFFECTIVE_FALLBACKS budget))
  /\ NoDup (COST_EFFECTIVE_FALLBACKS budget).
Proof.
  repeat split; cbn;
    repeat (constructor; [cbn; intuition discriminate|]); constructor.
Qed.

(** X2. [generateFallbackModels] never lists a model twice, whatever
    the primary model and the tier. *)
Theorem generateFallbackModels_NoDup :
  forall (primaryModel : string) (taskComplexity : option TaskComplexity),
    NoDup (generateFallbackModels primaryModel taskComplexity).
Proof.
  intros primaryModel taskComplexity.
  destruct tiers_distinct as (Hhm & Hmb & Hb).
  unfold generateFallbackModels.
  destruct (orDefault taskComplexity medium).
  - rewrite <- filter_app. apply NoDup_filter. exact Hhm.
  - apply NoDup_filter_app_l. exact Hmb.
  - apply NoDup_filter. exact Hb.
Qed.

(** X3. For the high and the budget tier the primary model is never
    among the fallbacks.  For the medium tier, the default, the two
    budget models are appended unfiltered: the primary model is among
    the fallbacks exactly when it is one of them. *)
Theorem generateFallbackModels_primary :
  forall (primaryModel : string) (taskComplexity : option TaskComplexity),
    match orDefault taskComplexity medium with
    | medium =>
        In primaryModel (generateFallbackModels primaryModel taskComplexity)
        <-> primaryModel = "meta-llama/llama-3.1-8b-instruct:free"
            \/ primaryModel = "mistralai/mistral-7b-instruct:free"
    | _ => ~ In primaryModel (generateFallbackModels primaryModel taskComplexity)
    end.
Proof.
  intros primaryModel taskComplexity. unfold generateFallbackModels.
  destruct (orDefault taskComplexity medium).
  - intro H. apply in_app_or in H as [H|H]; exact (not_In_filter_isNot _ _ H).
  - split.
    + intro H. apply in_app_or in H as [H|H].
      * exfalso. exact (not_In_filter_isNot _ _ H).
      * cbn in H. intuition.
    + intro H. apply in_or_app. right. cbn. intuition.
  - apply not_In_filter_isNot.
Qed.

Lemma fallbacks_count (primaryModel : string) (taskComplexity : option TaskComplexity) :
  (2 <= List.length (generateFallbackModels primaryModel taskComplexity) <= 8)%nat.
Proof.
  destruct tiers_distinct as (Hhm & Hmb & Hb).
  pose proof (filter_isNot_length primaryModel _ Hb) as Lb.
  pose proof (filter_isNot_length primaryModel _ (NoDup_app_remove_r _ _ Hhm)) as Lh.
  pose proof (filter_isNot_length primaryModel _ (NoDup_app_remove_r _ _ Hmb)) as Lm.
  pose proof (filter_length_le (isNot primaryModel) (COST_EFFECTIVE_FALLBACKS high)) as Uh.
  pose proof (filter_length_le (isNot primaryModel) (COST_EFFECTIVE_FALLBACKS medium)) as Um.
  pose proof (filter_length_le (isNot primaryModel) (COST_EFFECTIVE_FALLBACKS budget)) as Ub.
  unfold generateFallbackModels.
  destruct (orDefault taskComplexity medium); rewrite ?length_app; cbn in *; lia.
Qed.

(** X4. [generateFallbackModels] always offers at least two fallbacks,
    and never more than eight. *)
Theorem generateFallbackModels_length :
  forall (primaryModel : string) (taskComplexity : option TaskComplexity),
    (2 <= List.length (generateFallbackModels primaryModel taskComplexity) <= 8)%nat.
Proof.
  intros primaryModel taskComplexity. apply fallbacks_count.
Qed.

Lemma savings_sum (primaryModelPrice : Q)
    (optimizationConfig : CostOptimizationConfig.t) :
  estimateCostSavings primaryModelPrice optimizationConfig
  = (15
     + (if CostOptimizationConfig.useAutoRouter optimizationConfig then 30 else 0)
     + match CostOptimizationConfig.fallbackModels optimizationConfig with
       | [] => 0
       | _ :: _ =>
           match CostOptimizationConfig.taskComplexity optimizationConfig with
           | budget => 25
           | medium => 15
           | high => 10
           end
       end)%Z.
Proof.
  destruct optimizationConfig as [models auto sorting tier]. unfold estimateCostSavings.
  cbn [CostOptimizationConfig.useAutoRouter CostOptimizationConfig.fallbackModels
         CostOptimizationConfig.taskComplexity].
  destruct auto, models as [|m rest], tier; cbn; lia.
Qed.

(** X5. The savings estimate ignores the price, lies between 15 and
    70, and the cap of 70 never cuts: the estimate is 15, plus 30 with
    the auto router, plus the bonus of the tier (25, 15 or 10) when
    there is a fallback model. *)
Theorem estimateCostSavings_range :
  forall (primaryModelPrice : Q) (optimizationConfig : CostOptimizationConfig.t),
    (15 <= estimateCostSavings primaryModelPrice optimizationConfig <= 70)%Z
    /\ estimateCostSavings primaryModelPrice optimizationConfig
       = (15
          + (if CostOptimizationConfig.useAutoRouter optimizationConfig then 30 else 0)
          + match CostOptimizationConfig.fallbackModels optimizationConfig with
            | [] => 0
            | _ :: _ =>
                match CostOptimizationConfig.taskComplexity optimizationConfig with
                | budget => 25
                | medium => 15
                | high => 10
                end
            end)%Z.
Proof.
  intros price optimizationConfig. split; [|apply savings_sum].
  rewrite savings_sum.
  destruct (CostOptimizationConfig.useAutoRouter optimizationConfig),
    (CostOptimizationConfig.fallbackModels optimizationConfig),
    (CostOptimizationConfig.taskComplexity optimizationConfig); lia.
Qed.

(** X6. For every request, the configuration computed by
    [getCostOptimizationConfig] sorts providers by price and has at
    least two fallback models, so its savings estimate is between 25
    and 70; with images the auto router is off and the estimate is at
    most 40. *)
Theorem getCostOptimizationConfig_savings :
  forall (primaryModel systemPrompt : string) (messageCount : Z)
         (hasImages : option bool) (primaryModelPrice : Q),
    CostOptimizationConfig.providerSorting
      (getCostOptimizationConfig primaryModel systemPrompt messageCount hasImages)
    = "price"
    /\ (2 <= List.length
               (CostOptimizationConfig.fallbackModels
                  (getCostOptimizationConfig primaryModel systemPrompt messageCount
                     hasImages)))%nat
    /\ (25 <= estimateCostSavings primaryModelPrice
                (getCostOptimizationConfig primaryModel systemPrompt messageCount
                   hasImages) <= 70)%Z
    /\ (hasImages = Some true ->
        CostOptimizationConfig.useAutoRouter
          (getCostOptimizationConfig primaryModel systemPrompt messageCount hasImages)
        = false
        /\ (estimateCostSavings primaryModelPrice
              (getCostOptimizationConfig primaryModel systemPrompt messageCount
                 hasImages) <= 40)%Z).
Proof.
  intros primaryModel systemPrompt messageCount hasImages price.
  set (config := getCostOptimizationConfig primaryModel systemPrompt messageCount
                   hasImages).
  assert (Hlen : (2 <= List.length (CostOptimizationConfig.fallbackModels config))%nat).
  { apply fallbacks_count. }
  pose proof (savings_sum price config) as Hsum.
  split; [reflexivity|]. split; [exact Hlen|]. split.
  - rewrite Hsum.
    destruct (CostOptimizationConfig.fallbackModels config); [cbn in Hlen; lia|].
    destruct (CostOptimizationConfig.useAutoRouter config),
      (CostOptimizationConfig.taskComplexity config); lia.
  - intros ->.
    assert (Hauto : CostOptimizationConfig.useAutoRouter config = false) by reflexivity.
    split; [exact Hauto|]. rewrite Hsum, Hauto.
    destruct (CostOptimizationConfig.fallbackModels config),
      (CostOptimizationConfig.taskComplexity config); lia.
Qed.

Lemma getCostOptimizationConfig_savings_witness :
  Some true = Some true
  /\ (estimateCostSavings 3
        (getCostOptimizationConfig "openai/gpt-4o" "Describe this image" 2 (Some true))
      <= 40)%Z.
Proof.
  split; [reflexivity|].
  exact (proj2 (proj2 (proj2 (proj2 (getCostOptimizationConfig_savings
                                       "openai/gpt-4o" "Describe this image" 2
                                       (Some true) 3))) eq_refl)).
Defined.

(** ** The circuit breaker over a history of calls *)

Lemma breakerStep_invariant (threshold timeout : Z) (b : CircuitBreaker.t)
    (call : BreakerCall) :
  (0 < threshold)%Z ->
  (CircuitBreaker.failureThreshold b = threshold
   /\ CircuitBreaker.recoveryTimeout b = timeout
   /\ (0 <= CircuitBreaker.failures b)%Z
   /\ (CircuitBreaker.state b = CircuitBreaker.closed
       <-> (CircuitBreaker.failures b < threshold)%Z)) ->
  CircuitBreaker.failureThreshold (breakerStep b call) = threshold
  /\ CircuitBreaker.recoveryTimeout (breakerStep b call) = timeout
  /\ (0 <= CircuitBreaker.failures (breakerStep b call))%Z
  /\ (CircuitBreaker.state (breakerStep b call) = CircuitBreaker.closed
      <-> (CircuitBreaker.failures (breakerStep b call) < threshold)%Z).
Proof.
  intros Hpos (Hth & Hto & Hnonneg & Hclosed).
  destruct b as [f last st th to]. cbn in *. subst th to.
  destruct call as [now| |now]; cbn.
  - unfold CircuitBreaker.allowRequest. cbn.
    destruct st; cbn; try (repeat split; tauto).
    destruct (now - last >=? timeout)%Z; cbn; repeat split; try tauto;
      try (intro Hx; discriminate Hx); intro Hx; apply Hclosed in Hx; discriminate Hx.
  - repeat split; try lia; intros _; reflexivity.
  - repeat split; try lia.
    + destruct (Z.geb_spec (f + 1) threshold); [intro Hx; discriminate Hx|intros _; lia].
    + intro Hlt. destruct (Z.geb_spec (f + 1) threshold); [lia|].
      apply Hclosed. lia.
Qed.

Lemma breakerAfter_invariant (threshold timeout : Z) (history : list BreakerCall)
    (breaker : CircuitBreaker.t) :
  (0 < threshold)%Z ->
  breaker = breakerAfter (CircuitBreaker.new (Some threshold) (Some timeout)) history ->
  CircuitBreaker.failureThreshold breaker = threshold
  /\ CircuitBreaker.recoveryTimeout breaker = timeout
  /\ (0 <= CircuitBreaker.failures breaker)%Z
  /\ (CircuitBreaker.state breaker = CircuitBreaker.closed
      <-> (CircuitBreaker.failures breaker < threshold)%Z).
Proof.
  intros Hpos ->. unfold breakerAfter.
  assert (Hinit :
            CircuitBreaker.failureThreshold
              (CircuitBreaker.new (Some threshold) (Some timeout)) = threshold
            /\ CircuitBreaker.recoveryTimeout
                 (CircuitBreaker.new (Some threshold) (Some timeout)) = timeout
            /\ (0 <= CircuitBreaker.failures
                       (CircuitBreaker.new (Some threshold) (Some timeout)))%Z
            /\ (CircuitBreaker.state
                  (CircuitBreaker.new (Some threshold) (Some timeout))
                = CircuitBreaker.closed
                <-> (CircuitBreaker.failures
                       (CircuitBreaker.new (Some threshold) (Some timeout))
                     < threshold)%Z)).
  { cbn. repeat split; try lia. }
  revert Hinit. generalize (CircuitBreaker.new (Some threshold) (Some timeout)).
  induction history as [|call rest IH]; intros b Hb; [exact Hb|].
  cbn [fold_left]. apply IH. apply breakerStep_invariant; assumption.
Qed.

(** X7. Whatever calls are made on a breaker with a positive
    threshold, its settings never change, its failure count is never
    negative, and it is Closed exactly when the count is below the
    threshold (Open and HalfOpen only at or above it). *)
Theorem breaker_invariant :
  forall (failureThreshold recoveryTimeout : Z) (history : list BreakerCall)
         (breaker : CircuitBreaker.t),
    (0 < failureThreshold)%Z ->
    breaker = breakerAfter
                (CircuitBreaker.new (Some failureThreshold) (Some recoveryTimeout))
                history ->
    CircuitBreaker.failureThreshold breaker = failureThreshold
    /\ CircuitBreaker.recoveryTimeout breaker = recoveryTimeout
    /\ (0 <= CircuitBreaker.failures breaker)%Z
    /\ (CircuitBreaker.getState breaker = CircuitBreaker.closed
        <-> (CircuitBreaker.failures breaker < failureThreshold)%Z).
Proof.
  intros threshold timeout history breaker Hpos Hb.
  exact (breakerAfter_invariant threshold timeout history breaker Hpos Hb).
Qed.

Lemma breaker_invariant_witness :
  (0 < 2)%Z
  /\ CircuitBreaker.getState
       (breakerAfter (CircuitBreaker.new (Some 2%Z) (Some 1000%Z))
          [RecordFailure 5; AllowRequest 6; RecordFailure 7; AllowRequest 2000])
     <> CircuitBreaker.closed.
Proof.
  split; [lia|].
  intro H.
  apply (proj2 (proj2 (proj2 (breaker_invariant 2 1000
                                [RecordFailure 5; AllowRequest 6; RecordFailure 7;
                                 AllowRequest 2000] _ ltac:(lia) eq_refl)))) in H.
  cbn in H. lia.
Defined.

(** X8. A failure reported while the breaker is HalfOpen (or Open)
    re-opens it, after any history: the count kept since the last
    success is still at the threshold.  The breaker then refuses
    requests until [recoveryTimeout] has passed since that failure. *)
Theorem breaker_failed_trial_reopens :
  forall (failureThreshold recoveryTimeout : Z) (history : list BreakerCall)
         (breaker : CircuitBreaker.t) (failedAt : Z),
    (0 < failureThreshold)%Z ->
    breaker = breakerAfter
                (CircuitBreaker.new (Some failureThreshold) (Some recoveryTimeout))
                history ->
    CircuitBreaker.getState breaker <> CircuitBreaker.closed ->
    CircuitBreaker.getState (CircuitBreaker.recordFailure breaker failedAt)
    = CircuitBreaker.open
    /\ forall now,
        (now - failedAt < recoveryTimeout)%Z ->
        fst (CircuitBreaker.allowRequest
               (CircuitBreaker.recordFailure breaker failedAt) now) = false.
Proof.
  intros threshold timeout history breaker failedAt Hpos Hb Hstate.
  destruct (breakerAfter_invariant threshold timeout history breaker Hpos Hb)
    as (Hth & Hto & Hnonneg & Hclosed).
  assert (Hfull : (threshold <= CircuitBreaker.failures breaker)%Z).
  { destruct (Z.lt_ge_cases (CircuitBreaker.failures breaker) threshold) as [Hlt|Hge];
      [|exact Hge].
    exfalso. apply Hstate. apply Hclosed. exact Hlt. }
  assert (Hopen : CircuitBreaker.state (CircuitBreaker.recordFailure breaker failedAt)
                  = CircuitBreaker.open).
  { cbn. rewrite Hth.
    destruct (Z.geb_spec (CircuitBreaker.failures breaker + 1) threshold);
      [reflexivity|lia]. }
  split; [exact Hopen|].
  intros now Hearly. unfold CircuitBreaker.allowRequest. rewrite Hopen.
  cbn [CircuitBreaker.recordFailure CircuitBreaker.lastFailureTime
         CircuitBreaker.recoveryTimeout]. rewrite Hto.
  destruct (Z.geb_spec (now - failedAt) timeout); [lia|reflexivity].
Qed.

Lemma breaker_failed_trial_reopens_witness :
  (0 < 1)%Z
  /\ CircuitBreaker.getState
       (breakerAfter (CircuitBreaker.new (Some 1%Z) (Some 100%Z))
          [RecordFailure 0; AllowRequest 150])
     = CircuitBreaker.half_open
  /\ CircuitBreaker.getState
       (CircuitBreaker.recordFailure
          (breakerAfter (CircuitBreaker.new (Some 1%Z) (Some 100%Z))
             [RecordFailure 0; AllowRequest 150]) 160)
     = CircuitBreaker.open.
Proof.
  split; [lia|]. split; [reflexivity|].
  refine (proj1 (breaker_failed_trial_reopens 1 100
                   [RecordFailure 0; AllowRequest 150] _ 160 _ eq_refl _)).
  - lia.
  - discriminate.
Defined.

(** X9. The gate check touches nothing but the state: the failure
    count, the time of the last failure and the settings are as before.
    A refusal leaves the breaker as it was, and once a request has been
    admitted every further gate check admits, at any time, until a
    success or a failure is recorded. *)
Theorem allowRequest_effects :
  forall (breaker : CircuitBreaker.t) (now : Z),
    CircuitBreaker.failures (snd (CircuitBreaker.allowRequest breaker now))
    = CircuitBreaker.failures breaker
    /\ CircuitBreaker.lastFailureTime (snd (CircuitBreaker.allowRequest breaker now))
       = CircuitBreaker.lastFailureTime breaker
    /\ CircuitBreaker.failureThreshold (snd (CircuitBreaker.allowRequest breaker now))
       = CircuitBreaker.failureThreshold breaker
    /\ CircuitBreaker.recoveryTimeout (snd (CircuitBreaker.allowRequest breaker now))
       = CircuitBreaker.recoveryTimeout breaker
    /\ (fst (CircuitBreaker.allowRequest breaker now) = false ->
        snd (CircuitBreaker.allowRequest breaker now) = breaker
        /\ CircuitBreaker.getState breaker = CircuitBreaker.open)
    /\ (fst (CircuitBreaker.allowRequest breaker now) = true ->
        forall later,
          CircuitBreaker.allowRequest
            (snd (CircuitBreaker.allowRequest breaker now)) later
          = (true, snd (CircuitBreaker.allowRequest breaker now))).
Proof.
  intros [f last st th to] now. unfold CircuitBreaker.allowRequest, CircuitBreaker.getState.
  cbn. destruct st; [| destruct (now - last >=? to)%Z |]; cbn;
    repeat split; try reflexivity; intros; try congruence; repeat split; reflexivity.
Qed.

Lemma allowRequest_effects_witness :
  fst (CircuitBreaker.allowRequest trippedBreaker 60000) = true
  /\ CircuitBreaker.allowRequest
       (snd (CircuitBreaker.allowRequest trippedBreaker 60000)) 0
     = (true, snd (CircuitBreaker.allowRequest trippedBreaker 60000)).
Proof.
  split; [reflexivity|].
  exact (proj2 (proj2 (proj2 (proj2 (proj2 (allowRequest_effects trippedBreaker 60000)))))
           eq_refl 0%Z).
Defined.

(** X10. A recorded success forgets the failures before it: from any
    breaker with a positive threshold, after [recordSuccess] it takes
    [failureThreshold] consecutive failures, and no fewer, to open. *)
Theorem recordSuccess_resets :
  forall (breaker : CircuitBreaker.t) (times : list Z),
    (0 < CircuitBreaker.failureThreshold breaker)%Z ->
    Z.of_nat (List.length times) = CircuitBreaker.failureThreshold breaker ->
    CircuitBreaker.getState
      (CircuitBreaker.recordFailures (CircuitBreaker.recordSuccess breaker) times)
    = CircuitBreaker.open
    /\ forall k, (k < List.length times)%nat ->
        CircuitBreaker.getState
          (CircuitBreaker.recordFailures (CircuitBreaker.recordSuccess breaker)
             (firstn k times))
        = CircuitBreaker.closed.
Proof.
  intros breaker times Hpos Hlen. unfold CircuitBreaker.getState. split.
  - apply BreakerFacts.recordFailures_reached.
    + destruct times; [cbn in Hlen; lia|discriminate].
    + cbn. lia.
  - intros k Hk. rewrite BreakerFacts.recordFailures_below; [reflexivity|].
    cbn. rewrite length_firstn. lia.
Qed.

Lemma recordSuccess_resets_witness :
  (0 < CircuitBreaker.failureThreshold trippedBreaker)%Z
  /\ Z.of_nat (List.length [1; 2; 3; 4; 5]%Z) = CircuitBreaker.failureThreshold trippedBreaker
  /\ CircuitBreaker.getState
       (CircuitBreaker.recordFailures (CircuitBreaker.recordSuccess trippedBreaker)
          (firstn 4 [1; 2; 3; 4; 5]%Z))
     = CircuitBreaker.closed.
Proof.
  split; [reflexivity|]. split; [reflexivity|].
  refine (proj2 (recordSuccess_resets trippedBreaker [1; 2; 3; 4; 5]%Z _ eq_refl) 4%nat _).
  - reflexivity.
  - cbn. lia.
Defined.

(** ** The retry strategy: what a call can and cannot do *)

Section StrategySteps.
Context {rt : JsRuntime}.

Lemma shouldRetry_classification_throws self error attempt estimatedTokens now random e :
  classifyError error = Throw e ->
  EnhancedRetryStrategy.shouldRetry self error attempt estimatedTokens now random
  = (self, Throw e).
Proof.
  intro H. unfold EnhancedRetryStrategy.shouldRetry. rewrite H. reflexivity.
Qed.

Lemma shouldRetry_ineligible self error attempt estimatedTokens now random kind :
  classifyError error = Normal kind ->
  (customAccepts (EnhancedRetryStrategy.options self) error attempt
   && shouldRetryError kind attempt
        (ResolvedOptions.maxRetries (EnhancedRetryStrategy.options self))
        (ResolvedOptions.widen (EnhancedRetryStrategy.options self)))%bool = false ->
  exists why,
    EnhancedRetryStrategy.shouldRetry self error attempt estimatedTokens now random
    = (self, Normal (EnhancedRetryStrategy.deny why)).
Proof.
  intros Hkind Hno. unfold EnhancedRetryStrategy.shouldRetry, customAccepts in *.
  rewrite Hkind.
  destruct (ResolvedOptions.customRetryCondition (EnhancedRetryStrategy.options self))
    as [condition|]; [destruct (condition error attempt)|]; cbn [negb andb] in *;
    try (eexists; reflexivity);
    rewrite Hno; cbn [negb]; eexists; reflexivity.
Qed.

Lemma shouldRetry_eligible_exact self error attempt estimatedTokens now random kind :
  classifyError error = Normal kind ->
  customAccepts (EnhancedRetryStrategy.options self) error attempt = true ->
  shouldRetryError kind attempt
    (ResolvedOptions.maxRetries (EnhancedRetryStrategy.options self))
    (ResolvedOptions.widen (EnhancedRetryStrategy.options self)) = true ->
  EnhancedRetryStrategy.shouldRetry self error attempt estimatedTokens now random
  = if overBudget self estimatedTokens
    then (self,
          Normal (EnhancedRetryStrategy.deny
                    ("Retry cost threshold exceeded ($"
                       ++ showNumber
                            (Num (ResolvedOptions.maxCostThreshold
                                    (EnhancedRetryStrategy.options self)))
                       ++ ")")))
    else (charged self estimatedTokens,
          delay <-
            calculateRetryDelay attempt
              (ResolvedOptions.baseDelay (EnhancedRetryStrategy.options self))
              (ResolvedOptions.maxDelay (EnhancedRetryStrategy.options self))
              kind (EnhancedRetryStrategy.retryAfterOf error)
              (Some (ResolvedOptions.jitterFactor (EnhancedRetryStrategy.options self)))
              now random ;;
          Normal {| Decision.shouldRetry := true;
                    Decision.delay := delay;
                    Decision.reason :=
                      "Retrying " ++ ErrorType_value kind ++ " error with "
                        ++ showNumber delay ++ "ms delay" |}).
Proof.
  intros Hkind Hcustom Heligible.
  unfold EnhancedRetryStrategy.shouldRetry, overBudget, charged, customAccepts in *.
  rewrite Hkind, Heligible. cbn [negb].
  replace (match ResolvedOptions.customRetryCondition (EnhancedRetryStrategy.options self)
           with
           | Some condition => negb (condition error attempt)
           | None => false
           end) with false
    by (destruct (ResolvedOptions.customRetryCondition (EnhancedRetryStrategy.options self));
        [rewrite Hcustom|]; reflexivity).
  destruct self as [o total]. cbn [EnhancedRetryStrategy.options
                                     EnhancedRetryStrategy.totalRetryCost].
  destruct estimatedTokens as [tokens|];
    destruct (ResolvedOptions.modelInfo o) as [priceInfo|];
    destruct (ResolvedOptions.costAwareRetry o);
    cbn [EnhancedRetryStrategy.given orDefault andb];
    try (destruct (Qeq_bool tokens 0); cbn [negb andb]);
    try match goal with
      | |- context [Qgtb ?a ?b] => destruct (Qgtb a b)
      end;
    reflexivity.
Qed.

(** A call keeps the strategy, or it is on the granting path and
    charges the ledger within the threshold. *)
Lemma shouldRetry_state self error attempt estimatedTokens now random :
  fst (EnhancedRetryStrategy.shouldRetry self error attempt estimatedTokens now random)
  = self
  \/ (overBudget self estimatedTokens = false
      /\ fst (EnhancedRetryStrategy.shouldRetry self error attempt estimatedTokens
                now random)
         = charged self estimatedTokens).
Proof.
  destruct (classifyError error) as [kind|e] eqn:Hkind.
  - destruct (customAccepts (EnhancedRetryStrategy.options self) error attempt
              && shouldRetryError kind attempt
                   (ResolvedOptions.maxRetries (EnhancedRetryStrategy.options self))
                   (ResolvedOptions.widen (EnhancedRetryStrategy.options self)))%bool
      eqn:Hok.
    + apply andb_true_iff in Hok as [Hcustom Heligible].
      rewrite (shouldRetry_eligible_exact _ _ _ _ _ _ _ Hkind Hcustom Heligible).
      destruct (overBudget self estimatedTokens); [left|right; split]; reflexivity.
    + destruct (shouldRetry_ineligible self error attempt estimatedTokens now random
                  kind Hkind Hok) as [why ->]. left. reflexivity.
  - rewrite (shouldRetry_classification_throws _ _ _ _ _ _ _ Hkind). left. reflexivity.
Qed.

Lemma charged_options self estimatedTokens :
  EnhancedRetryStrategy.options (charged self estimatedTokens)
  = EnhancedRetryStrategy.options self.
Proof.
  unfold charged.
  destruct (ResolvedOptions.modelInfo (EnhancedRetryStrategy.options self));
    [destruct (_ && _)%bool|]; reflexivity.
Qed.

(** Charging keeps the ledger within the threshold when the cost check
    has let the attempt through. *)
Lemma charged_within self estimatedTokens :
  overBudget self estimatedTokens = false ->
  EnhancedRetryStrategy.totalRetryCost self
  <= ResolvedOptions.maxCostThreshold (EnhancedRetryStrategy.options self) ->
  EnhancedRetryStrategy.totalRetryCost (charged self estimatedTokens)
  <= ResolvedOptions.maxCostThreshold (EnhancedRetryStrategy.options self).
Proof.
  unfold overBudget, charged. intros Hunder Hle.
  destruct (ResolvedOptions.modelInfo (EnhancedRetryStrategy.options self))
    as [priceInfo|]; [|exact Hle].
  destruct estimatedTokens as [tokens|];
    cbn [EnhancedRetryStrategy.given orDefault];
    [|rewrite andb_false_r; exact Hle].
  destruct (ResolvedOptions.costAwareRetry (EnhancedRetryStrategy.options self));
    cbn [andb] in *; [|exact Hle].
  destruct (Qeq_bool tokens 0); cbn [negb andb] in *; [exact Hle|].
  cbn [EnhancedRetryStrategy.totalRetryCost]. apply Qgtb_le. exact Hunder.
Qed.

Lemma estimateRetryCost_nonneg priceInfo tokens :
  0 <= orDefault (ModelInfo.inputPrice priceInfo) 0 ->
  0 <= tokens ->
  0 <= estimateRetryCost priceInfo tokens None.
Proof.
  intros Hprice Htokens. unfold estimateRetryCost. cbn [orDefault].
  assert (H1 : 0 <= tokens / 1000000) by (apply Qle_shift_div_l; lra).
  assert (H2 : 0 / 1000000 * orDefault (ModelInfo.outputPrice priceInfo) 0 == 0) by field.
  rewrite H2. nra.
Qed.

Lemma charged_grows self estimatedTokens :
  pricesNonNegative (EnhancedRetryStrategy.options self) ->
  0 <= orDefault estimatedTokens 0 ->
  EnhancedRetryStrategy.totalRetryCost self
  <= EnhancedRetryStrategy.totalRetryCost (charged self estimatedTokens).
Proof.
  unfold pricesNonNegative, charged. intros Hprice Htokens.
  destruct (ResolvedOptions.modelInfo (EnhancedRetryStrategy.options self))
    as [priceInfo|]; [|apply Qle_refl].
  destruct (_ && _)%bool; [|apply Qle_refl].
  cbn [EnhancedRetryStrategy.totalRetryCost].
  pose proof (estimateRetryCost_nonneg priceInfo (orDefault estimatedTokens 0)
                (Hprice priceInfo eq_refl) Htokens).
  lra.
Qed.
End StrategySteps.

Section StrategyInversions.
Context {rt : JsRuntime}.

(** What a granted retry tells about the call. *)
Lemma shouldRetry_granted_inv self error attempt estimatedTokens now random d :
  snd (EnhancedRetryStrategy.shouldRetry self error attempt estimatedTokens now random)
  = Normal d ->
  Decision.shouldRetry d = true ->
  exists kind,
    classifyError error = Normal kind
    /\ customAccepts (EnhancedRetryStrategy.options self) error attempt = true
    /\ shouldRetryError kind attempt
         (ResolvedOptions.maxRetries (EnhancedRetryStrategy.options self))
         (ResolvedOptions.widen (EnhancedRetryStrategy.options self)) = true
    /\ overBudget self estimatedTokens = false
    /\ fst (EnhancedRetryStrategy.shouldRetry self error attempt estimatedTokens
              now random) = charged self estimatedTokens
    /\ calculateRetryDelay attempt
         (ResolvedOptions.baseDelay (EnhancedRetryStrategy.options self))
         (ResolvedOptions.maxDelay (EnhancedRetryStrategy.options self))
         kind (EnhancedRetryStrategy.retryAfterOf error)
         (Some (ResolvedOptions.jitterFactor (EnhancedRetryStrategy.options self)))
         now random = Normal (Decision.delay d).
Proof.
  intros Hout Hgrant.
  destruct (classifyError error) as [kind|e] eqn:Hkind.
  - destruct (customAccepts (EnhancedRetryStrategy.options self) error attempt
              && shouldRetryError kind attempt
                   (ResolvedOptions.maxRetries (EnhancedRetryStrategy.options self))
                   (ResolvedOptions.widen (EnhancedRetryStrategy.options self)))%bool
      eqn:Hok.
    + apply andb_true_iff in Hok as [Hcustom Heligible].
      rewrite (shouldRetry_eligible_exact _ _ _ _ _ _ _ Hkind Hcustom Heligible) in Hout |- *.
      destruct (overBudget self estimatedTokens).
      * cbn in Hout. injection Hout as <-. discriminate Hgrant.
      * cbn [snd fst] in *. exists kind.
        destruct (calculateRetryDelay _ _ _ _ _ _ _ _) as [delay|e];
          cbn [bind] in Hout; [|discriminate Hout].
        injection Hout as <-. repeat split; try assumption; reflexivity.
    + destruct (shouldRetry_ineligible self error attempt estimatedTokens now random
                  kind Hkind Hok) as [why Hcall].
      rewrite Hcall in Hout. cbn in Hout. injection Hout as <-. discriminate Hgrant.
  - rewrite (shouldRetry_classification_throws _ _ _ _ _ _ _ Hkind) in Hout.
    discriminate Hout.
Qed.

(** What a denial tells about the call. *)
Lemma shouldRetry_denied_inv self error attempt estimatedTokens now random d :
  snd (EnhancedRetryStrategy.shouldRetry self error attempt estimatedTokens now random)
  = Normal d ->
  Decision.shouldRetry d = false ->
  fst (EnhancedRetryStrategy.shouldRetry self error attempt estimatedTokens now random)
  = self
  /\ Decision.delay d = Num 0.
Proof.
  intros Hout Hdeny.
  destruct (classifyError error) as [kind|e] eqn:Hkind.
  - destruct (customAccepts (EnhancedRetryStrategy.options self) error attempt
              && shouldRetryError kind attempt
                   (ResolvedOptions.maxRetries (EnhancedRetryStrategy.options self))
                   (ResolvedOptions.widen (EnhancedRetryStrategy.options self)))%bool
      eqn:Hok.
    + apply andb_true_iff in Hok as [Hcustom Heligible].
      rewrite (shouldRetry_eligible_exact _ _ _ _ _ _ _ Hkind Hcustom Heligible) in Hout |- *.
      destruct (overBudget self estimatedTokens).
      * cbn in Hout. injection Hout as <-. split; reflexivity.
      * cbn [snd] in Hout.
        destruct (calculateRetryDelay _ _ _ _ _ _ _ _) as [delay|e];
          cbn [bind] in Hout; [|discriminate Hout].
        injection Hout as <-. discriminate Hdeny.
    + destruct (shouldRetry_ineligible self error attempt estimatedTokens now random
                  kind Hkind Hok) as [why Hcall].
      rewrite Hcall in Hout |- *. cbn in Hout. injection Hout as <-.
      split; reflexivity.
  - rewrite (shouldRetry_classification_throws _ _ _ _ _ _ _ Hkind) in Hout.
    discriminate Hout.
Qed.
End StrategyInversions.

(** X11. A call of [shouldRetry] never changes the options, and a call
    that denies (for whatever reason) leaves the whole strategy, ledger
    included, as it was and reports a delay of 0. *)
Theorem shouldRetry_denial_keeps_strategy :
  forall (rt : JsRuntime) (self : EnhancedRetryStrategy.t) (error : JsValue)
         (attempt : Z) (estimatedTokens : option Q) (now : Z) (random : Q),
    EnhancedRetryStrategy.options
      (fst (EnhancedRetryStrategy.shouldRetry self error attempt estimatedTokens
              now random))
    = EnhancedRetryStrategy.options self
    /\ forall d,
        snd (EnhancedRetryStrategy.shouldRetry self error attempt estimatedTokens
               now random) = Normal d ->
        Decision.shouldRetry d = false ->
        fst (EnhancedRetryStrategy.shouldRetry self error attempt estimatedTokens
               now random) = self
        /\ Decision.delay d = Num 0.
Proof.
  intros rt self error attempt estimatedTokens now random. split.
  - destruct (shouldRetry_state self error attempt estimatedTokens now random)
      as [->|[_ ->]]; [reflexivity|apply charged_options].
  - intros d. apply shouldRetry_denied_inv.
Qed.

Lemma shouldRetry_denial_keeps_strategy_witness :
  exists d,
    snd (EnhancedRetryStrategy.shouldRetry (rt := decimalHost) overspentStrategy
           rateLimited429 1 (Some 1000) 0 (1 # 2)) = Normal d
    /\ Decision.shouldRetry d = false
    /\ fst (EnhancedRetryStrategy.shouldRetry (rt := decimalHost) overspentStrategy
              rateLimited429 1 (Some 1000) 0 (1 # 2)) = overspentStrategy
    /\ Decision.delay d = Num 0.
Proof.
  eexists. split; [reflexivity|]. split; [reflexivity|].
  exact (proj2 (shouldRetry_denial_keeps_strategy decimalHost overspentStrategy
                  rateLimited429 1 (Some 1000) 0 (1 # 2)) _ eq_refl eq_refl).
Defined.

(** X12. A retry is never granted at or past [maxRetries], never for an
    AuthError or a ContextLengthError, for a NetworkError only on the
    first three attempts, and for an Unknown error only when
    [retryAllErrors] is set. *)
Theorem shouldRetry_grant_requirements :
  forall (rt : JsRuntime) (self : EnhancedRetryStrategy.t) (error : JsValue)
         (attempt : Z) (estimatedTokens : option Q) (now : Z) (random : Q)
         (d : Decision.t),
    snd (EnhancedRetryStrategy.shouldRetry self error attempt estimatedTokens
           now random) = Normal d ->
    Decision.shouldRetry d = true ->
    exists kind,
      classifyError error = Normal kind
      /\ (attempt < ResolvedOptions.maxRetries (EnhancedRetryStrategy.options self))%Z
      /\ kind <> AUTH_ERROR
      /\ kind <> CONTEXT_LENGTH_ERROR
      /\ (kind = NETWORK_ERROR -> (attempt < 3)%Z)
      /\ (kind = UNKNOWN_ERROR ->
          ResolvedOptions.retryAllErrors (EnhancedRetryStrategy.options self) = true).
Proof.
  intros rt self error attempt estimatedTokens now random d Hout Hgrant.
  destruct (shouldRetry_granted_inv self error attempt estimatedTokens now random d
              Hout Hgrant) as (kind & Hkind & _ & Heligible & _).
  exists kind. split; [exact Hkind|].
  unfold shouldRetryError in Heligible.
  destruct (Z.geb_spec attempt
              (ResolvedOptions.maxRetries (EnhancedRetryStrategy.options self)));
    [discriminate Heligible|].
  split; [lia|].
  destruct kind; try discriminate Heligible;
    repeat split; try discriminate; intros _.
  - apply Z.ltb_lt in Heligible. lia.
  - exact Heligible.
Qed.

Lemma shouldRetry_grant_requirements_witness :
  exists d,
    snd (EnhancedRetryStrategy.shouldRetry (rt := decimalHost) overspentStrategy
           rateLimited429 1 None 0 (1 # 2)) = Normal d
    /\ Decision.shouldRetry d = true
    /\ (1 < ResolvedOptions.maxRetries (EnhancedRetryStrategy.options overspentStrategy))%Z.
Proof.
  eexists. split; [reflexivity|]. split; [reflexivity|].
  destruct (shouldRetry_grant_requirements decimalHost overspentStrategy rateLimited429
              1 None 0 (1 # 2) _ eq_refl eq_refl) as (kind & _ & Hcap & _).
  exact Hcap.
Defined.

(** X13. Over any history of calls on one strategy the options stay
    the same; a ledger that starts within [maxCostThreshold] stays
    within it; and with prices and token estimates that are not
    negative the ledger never decreases. *)
Theorem ledger_over_history :
  forall (rt : JsRuntime) (self : EnhancedRetryStrategy.t) (history : list RetryCall),
    EnhancedRetryStrategy.options (strategyAfter self history)
    = EnhancedRetryStrategy.options self
    /\ (EnhancedRetryStrategy.getTotalRetryCost self
        <= ResolvedOptions.maxCostThreshold (EnhancedRetryStrategy.options self) ->
        EnhancedRetryStrategy.getTotalRetryCost (strategyAfter self history)
        <= ResolvedOptions.maxCostThreshold (EnhancedRetryStrategy.options self))
    /\ (pricesNonNegative (EnhancedRetryStrategy.options self) ->
        Forall tokensNonNegative history ->
        EnhancedRetryStrategy.getTotalRetryCost self
        <= EnhancedRetryStrategy.getTotalRetryCost (strategyAfter self history)).
Proof.
  intros rt self history. unfold strategyAfter, EnhancedRetryStrategy.getTotalRetryCost.
  revert self. induction history as [|call rest IH]; intro self; cbn [fold_left].
  - repeat split; try reflexivity; intros; try assumption; apply Qle_refl.
  - destruct (IH (strategyStep self call)) as (Hopts & Hwithin & Hgrows).
    assert (Hstep : EnhancedRetryStrategy.options (strategyStep self call)
                    = EnhancedRetryStrategy.options self).
    { unfold strategyStep.
      destruct (shouldRetry_state self (call_error call) (call_attempt call)
                  (call_estimatedTokens call) (call_now call) (call_random call))
        as [->|[_ ->]]; [reflexivity|apply charged_options]. }
    rewrite Hstep in Hopts, Hwithin, Hgrows.
    split; [exact Hopts|]. split.
    + intro Hle. apply Hwithin. unfold strategyStep.
      destruct (shouldRetry_state self (call_error call) (call_attempt call)
                  (call_estimatedTokens call) (call_now call) (call_random call))
        as [->|[Hunder ->]]; [exact Hle|].
      apply charged_within; assumption.
    + intros Hprices Hall. inversion Hall as [|? ? Hcall Hrest]; subst.
      eapply Qle_trans; [|apply Hgrows; assumption].
      unfold strategyStep.
      destruct (shouldRetry_state self (call_error call) (call_attempt call)
                  (call_estimatedTokens call) (call_now call) (call_random call))
        as [->|[_ ->]]; [apply Qle_refl|].
      apply charged_grows; assumption.
Qed.

Lemma ledger_over_history_witness :
  EnhancedRetryStrategy.getTotalRetryCost (EnhancedRetryStrategy.new testedOptions)
  <= ResolvedOptions.maxCostThreshold
       (EnhancedRetryStrategy.options (EnhancedRetryStrategy.new testedOptions))
  /\ EnhancedRetryStrategy.getTotalRetryCost
       (strategyAfter (rt := decimalHost) (EnhancedRetryStrategy.new testedOptions)
          twoRetries)
     <= ResolvedOptions.maxCostThreshold
          (EnhancedRetryStrategy.options (EnhancedRetryStrategy.new testedOptions))
  /\ EnhancedRetryStrategy.getTotalRetryCost
       (strategyAfter (rt := decimalHost) (EnhancedRetryStrategy.new testedOptions)
          twoRetries) == 6 # 100.
Proof.
  assert (H : EnhancedRetryStrategy.getTotalRetryCost
                (EnhancedRetryStrategy.new testedOptions)
              <= ResolvedOptions.maxCostThreshold
                   (EnhancedRetryStrategy.options
                      (EnhancedRetryStrategy.new testedOptions)))
    by (cbn; lra).
  split; [exact H|]. split; [|vm_compute; reflexivity].
  exact (proj1 (proj2 (ledger_over_history decimalHost
                         (EnhancedRetryStrategy.new testedOptions) twoRetries)) H).
Defined.


Lemma provider_profiles_well_formed :
  Forall (fun profile =>
            0 < ResolvedOptions.baseDelay (withDefaults profile)
            /\ ResolvedOptions.baseDelay (withDefaults profile)
               < ResolvedOptions.maxDelay (withDefaults profile)
            /\ 0 <= ResolvedOptions.jitterFactor (withDefaults profile) <= 1
            /\ (0 < ResolvedOptions.maxRetries (withDefaults profile))%Z)
    PROVIDER_RETRY_CONFIGS.all.
Proof. repeat constructor; cbn; try lra; try lia. Qed.




(** ** The back-off calculator: growth and retry hints *)

Lemma backoff_term_monotone (baseDelay multiplier p p' : Q) :
  0 <= baseDelay -> 0 <= multiplier -> p <= p' ->
  baseDelay * p * multiplier <= baseDelay * p' * multiplier.
Proof.
  intros Hbase Hmult Hpow.
  assert (H1 : baseDelay * p <= baseDelay * p') by nra.
  apply Qmult_le_compat_r; assumption.
Qed.

Lemma without_jitter_le (D D' r r' : Q) :
  D <= D' -> Qmax 0 (D + D * 0 * r) <= Qmax 0 (D' + D' * 0 * r').
Proof.
  intro HD.
  assert (E : D + D * 0 * r == D) by ring.
  assert (E' : D' + D' * 0 * r' == D') by ring.
  apply Q.max_lub.
  - apply Q.le_max_l.
  - eapply Qle_trans; [|apply Q.le_max_r]. rewrite E, E'. exact HD.
Qed.

(** X16. Without a retry hint and without jitter the delay never
    decreases from one attempt to a later one (for [baseDelay > 0];
    the other arguments, the clock and the random draws are free).
    Once [Math.pow(2, attempt)] is [Infinity] the delay is the clamp at
    0 of [maxDelay]. *)
Theorem calculateRetryDelay_monotone :
  forall (rt : JsRuntime) (attempt attempt' : Z) (baseDelay maxDelay : Q)
         (errorType : ErrorType) (now now' : Z) (random random' : Q),
    0 < baseDelay ->
    (attempt <= attempt')%Z ->
    exists d d',
      calculateRetryDelay attempt baseDelay maxDelay errorType JUndefined (Some 0)
        now random = Normal (Num d)
      /\ calculateRetryDelay attempt' baseDelay maxDelay errorType JUndefined (Some 0)
           now' random' = Normal (Num d')
      /\ d <= d'
      /\ ((1024 <= attempt')%Z -> d' == Qmax 0 maxDelay).
Proof.
  intros rt attempt attempt' baseDelay maxDelay errorType now now' random random'
         Hbase Hle.
  set (m := match errorType with
            | RATE_LIMIT => 2
            | SERVER_ERROR => 3 # 2
            | NETWORK_ERROR => 6 # 5
            | _ => 1
            end).
  assert (Hm : 0 <= m) by (unfold m; destruct errorType; lra).
  assert (Hcap : forall r, Qmax 0 (maxDelay + maxDelay * 0 * r) == Qmax 0 maxDelay).
  { intro r. assert (E : maxDelay + maxDelay * 0 * r == maxDelay) by ring.
    rewrite E. reflexivity. }
  destruct (Z.lt_ge_cases attempt' 1024) as [Hfinite'|Hover'].
  - rewrite !calculateRetryDelay_finite_power by first [reflexivity | lia].
    do 2 eexists. split; [reflexivity|]. split; [reflexivity|]. split; [|lia].
    apply without_jitter_le, Q.min_le_compat_l.
    apply backoff_term_monotone; [lra|exact Hm|apply Math_pow2_monotone; exact Hle].
  - rewrite (proj1 (calculateRetryDelay_overflow attempt' baseDelay maxDelay errorType
                      JUndefined 0 now' random' eq_refl Hover') Hbase).
    destruct (Z.lt_ge_cases attempt 1024) as [Hfinite|Hover].
    + rewrite calculateRetryDelay_finite_power by first [reflexivity | lia].
      do 2 eexists. split; [reflexivity|]. split; [reflexivity|].
      split; [|intros _; apply Hcap].
      apply without_jitter_le, Q.le_min_l.
    + rewrite (proj1 (calculateRetryDelay_overflow attempt baseDelay maxDelay errorType
                        JUndefined 0 now random eq_refl Hover) Hbase).
      do 2 eexists. split; [reflexivity|]. split; [reflexivity|].
      split; [|intros _; apply Hcap].
      apply without_jitter_le, Qle_refl.
Qed.

Lemma calculateRetryDelay_monotone_witness :
  0 < 1000 /\ (1 <= 4)%Z
  /\ exists d d',
      calculateRetryDelay (rt := decimalHost) 1 1000 30000 SERVER_ERROR JUndefined
        (Some 0) 0 (1 # 2) = Normal (Num d)
      /\ calculateRetryDelay (rt := decimalHost) 4 1000 30000 SERVER_ERROR JUndefined
           (Some 0) 9 (1 # 3) = Normal (Num d')
      /\ d <= d'.
Proof.
  assert (H1 : 0 < 1000) by lra.
  assert (H2 : (1 <= 4)%Z) by lia.
  split; [exact H1|]. split; [exact H2|].
  destruct (calculateRetryDelay_monotone decimalHost 1 4 1000 30000 SERVER_ERROR 0 9
              (1 # 2) (1 # 3) H1 H2) as (d & d' & Hd & Hd' & Hle & _).
  exists d, d'. split; [exact Hd|]. split; [exact Hd'|exact Hle].
Defined.

(** X17. A retry hint that is a non-empty string without a leading
    number makes the delay [NaN], whatever the other arguments. *)
Theorem calculateRetryDelay_unreadable_hint :
  forall (rt : JsRuntime) (attempt : Z) (baseDelay maxDelay : Q)
         (errorType : ErrorType) (hint : string) (jitterFactor : option Q)
         (now : Z) (random : Q),
    hint <> "" ->
    parseInt hint = NaN ->
    calculateRetryDelay attempt baseDelay maxDelay errorType (JStr hint)
      jitterFactor now random = Normal NaN.
Proof.
  intros rt attempt baseDelay maxDelay errorType hint jitterFactor now random Hne Hnan.
  unfold calculateRetryDelay, jitteredDelay. cbn [truthy ToString].
  destruct (String.eqb_spec hint ""); [contradiction|].
  cbn [negb bind]. rewrite Hnan. reflexivity.
Qed.

Lemma calculateRetryDelay_unreadable_hint_witness :
  "Wed, 21 Oct 2026 07:28:00 GMT" <> ""
  /\ parseInt "Wed, 21 Oct 2026 07:28:00 GMT" = NaN
  /\ calculateRetryDelay (rt := decimalHost) 1 1000 30000 RATE_LIMIT
       (JStr "Wed, 21 Oct 2026 07:28:00 GMT") None 1700000000000 (1 # 2)
     = Normal NaN.
Proof.
  assert (H1 : "Wed, 21 Oct 2026 07:28:00 GMT" <> "") by discriminate.
  split; [exact H1|]. split; [reflexivity|].
  exact (calculateRetryDelay_unreadable_hint decimalHost 1 1000 30000 RATE_LIMIT
           "Wed, 21 Oct 2026 07:28:00 GMT" None 1700000000000 (1 # 2) H1 eq_refl).
Defined.



(** ** The cost estimator *)

(** X19. [estimateRetryCost] charges a missing price as a price of 0,
    each of the two prices on its own, and omitted output tokens as 0
    tokens; with no tokens the cost is 0; and for prices that are not
    negative the cost is not negative and does not decrease when the
    token counts grow. *)
Theorem estimateRetryCost_properties :
  forall (modelInfo : ModelInfo.t) (input : Q) (output : option Q),
    estimateRetryCost modelInfo input output
    = estimateRetryCost
        {| ModelInfo.inputPrice := Some (orDefault (ModelInfo.inputPrice modelInfo) 0);
           ModelInfo.outputPrice := ModelInfo.outputPrice modelInfo |}
        input output
    /\ estimateRetryCost modelInfo input output
       = estimateRetryCost
           {| ModelInfo.inputPrice := ModelInfo.inputPrice modelInfo;
              ModelInfo.outputPrice :=
                Some (orDefault (ModelInfo.outputPrice modelInfo) 0) |}
           input output
    /\ estimateRetryCost modelInfo input None
       = estimateRetryCost modelInfo input (Some 0)
    /\ estimateRetryCost modelInfo 0 None == 0
    /\ (0 <= orDefault (ModelInfo.inputPrice modelInfo) 0 ->
        0 <= orDefault (ModelInfo.outputPrice modelInfo) 0 ->
        forall (input' : Q) (output' : option Q),
          0 <= input <= input' ->
          0 <= orDefault output 0 <= orDefault output' 0 ->
          0 <= estimateRetryCost modelInfo input output
          <= estimateRetryCost modelInfo input' output').
Proof.
  intros modelInfo input output. unfold estimateRetryCost. cbn [orDefault].
  split; [reflexivity|]. split; [reflexivity|]. split; [reflexivity|].
  split; [field|].
  cbn [ModelInfo.inputPrice ModelInfo.outputPrice].
  generalize (orDefault (ModelInfo.inputPrice modelInfo) 0)
             (orDefault (ModelInfo.outputPrice modelInfo) 0).
  intros pin pout Hin Hout input' output'.
  generalize (orDefault output 0) (orDefault output' 0). intros o o' Hi Ho.
  assert (H1 : 0 <= input / 1000000) by (apply Qle_shift_div_l; lra).
  assert (H2 : 0 <= o / 1000000) by (apply Qle_shift_div_l; lra).
  assert (H3 : input / 1000000 <= input' / 1000000)
    by (apply Qmult_le_compat_r; [lra|vm_compute; discriminate]).
  assert (H4 : o / 1000000 <= o' / 1000000)
    by (apply Qmult_le_compat_r; [lra|vm_compute; discriminate]).
  split; nra.
Qed.

Lemma estimateRetryCost_properties_witness :
  0 <= orDefault (Some 3) 0 /\ 0 <= orDefault None 0
  /\ 0 <= 1000 <= 2000 /\ 0 <= orDefault None 0 <= orDefault (Some 500) 0
  /\ 0 <= estimateRetryCost
            {| ModelInfo.inputPrice := Some 3; ModelInfo.outputPrice := None |}
            1000 None
     <= estimateRetryCost
          {| ModelInfo.inputPrice := Some 3; ModelInfo.outputPrice := None |}
          2000 (Some 500).
Proof.
  assert (H1 : 0 <= orDefault (Some 3) 0) by (cbn; lra).
  assert (H2 : 0 <= orDefault (@None Q) 0) by (cbn; lra).
  assert (H3 : 0 <= 1000 <= 2000) by lra.
  assert (H4 : 0 <= orDefault (@None Q) 0 <= orDefault (Some 500) 0) by (cbn; lra).
  split; [exact H1|]. split; [exact H2|]. split; [exact H3|]. split; [exact H4|].
  exact (proj2 (proj2 (proj2 (proj2 (estimateRetryCost_properties
                                       {| ModelInfo.inputPrice := Some 3;
                                          ModelInfo.outputPrice := None |}
                                       1000 None))))
           H1 H2 2000 (Some 500) H3 H4).
Defined.

(** ** The token estimate on strings *)

Lemma Qceiling_quarter (a : Z) :
  Qceiling (inject_Z a / 4) = (- ((- a) / 4))%Z.
Proof.
  unfold Qceiling, Qfloor, Qdiv, Qmult, Qinv, Qopp, inject_Z. cbn.
  rewrite Z.mul_1_r. reflexivity.
Qed.

Lemma estimateTokenCount_string_bounds (text : string) :
  (4 * (estimateTokenCount_string text - 1) < Z.of_nat (String.length text)
   <= 4 * estimateTokenCount_string text)%Z.
Proof.
  unfold estimateTokenCount_string. rewrite Qceiling_quarter.
  generalize (Z.of_nat (String.length text)). intro a.
  pose proof (Z.div_mod (- a) 4 ltac:(lia)) as E.
  pose proof (Z.mod_pos_bound (- a) 4 ltac:(lia)) as B.
  lia.
Qed.

Lemma estimateTokenCount_string_nonneg (text : string) :
  (0 <= estimateTokenCount_string text)%Z.
Proof.
  pose proof (estimateTokenCount_string_bounds text). lia.
Qed.

Lemma shouldCacheContent_string_length (content : string)
    (config : option CacheOptimizationConfig.t) :
  shouldCacheContent_string content config = true
  <-> (4 * (CacheOptimizationConfig.minTokensForCaching
              (orDefault config DEFAULT_CACHE_CONFIG) - 1)
       < Z.of_nat (String.length content))%Z.
Proof.
  unfold shouldCacheContent_string. cbv zeta.
  pose proof (estimateTokenCount_string_bounds content) as B.
  rewrite Z.leb_le. lia.
Qed.

Section TokenFacts.
Context (rt : JsRuntime).

(** X20. On a string the token estimate never throws: it is the least
    integer [n] with [4 * n >= text.length], so it is 0 exactly on the
    empty string and never negative. *)
Theorem estimateTokenCount_on_strings :
  forall text : string,
    let n := estimateTokenCount_string text in
    estimateTokenCount (JStr text) = Normal (Num (inject_Z n))
    /\ (4 * (n - 1) < Z.of_nat (String.length text) <= 4 * n)%Z
    /\ (n = 0%Z <-> text = "").
Proof.
  intros text n. split; [reflexivity|]. split.
  - apply estimateTokenCount_string_bounds.
  - pose proof (estimateTokenCount_string_bounds text) as B. fold n in B.
    split.
    + intro E. destruct text; [reflexivity|]. cbn [String.length] in B. lia.
    + intros ->. reflexivity.
Qed.

(** X21. On a string [shouldCacheContent] never throws, and content is
    cacheable exactly when its length exceeds
    [4 * (minTokensForCaching - 1)]; so content at least as long as
    cacheable content is cacheable. *)
Theorem shouldCacheContent_on_strings :
  forall (content : string) (config : option CacheOptimizationConfig.t),
    let minTokens :=
      CacheOptimizationConfig.minTokensForCaching
        (orDefault config DEFAULT_CACHE_CONFIG) in
    shouldCacheContent (JStr content) config
    = Normal (shouldCacheContent_string content config)
    /\ (shouldCacheContent_string content config = true
        <-> (4 * (minTokens - 1) < Z.of_nat (String.length content))%Z)
    /\ (forall longer : string,
          (String.length content <= String.length longer)%nat ->
          shouldCacheContent_string content config = true ->
          shouldCacheContent_string longer config = true).
Proof.
  intros content config minTokens. split; [|split].
  - unfold shouldCacheContent, shouldCacheContent_string, estimateTokenCount.
    cbn. unfold Qle_bool. cbn. rewrite !Z.mul_1_r. reflexivity.
  - apply shouldCacheContent_string_length.
  - intros longer Hlen. rewrite !shouldCacheContent_string_length. lia.
Qed.
End TokenFacts.

(** ** Substrings and letter case *)

Lemma prefix_app (needle s suffix : string) :
  String.prefix needle s = true -> String.prefix needle (s ++ suffix) = true.
Proof.
  revert s. induction needle as [|c needle IH]; intros s H.
  { destruct s; [destruct suffix|]; reflexivity. }
  destruct s as [|c' s]; [discriminate|]. cbn in *.
  destruct (Ascii.ascii_dec c c'); [auto|discriminate].
Qed.

Lemma includes_app_r (s needle suffix : string) :
  includes s needle = true -> includes (s ++ suffix) needle = true.
Proof.
  induction s as [|c s IH]; cbn [includes append]; intro H.
  - apply orb_true_iff in H. destruct H as [H|H]; [|discriminate].
    destruct needle; [|discriminate]. destruct suffix; reflexivity.
  - apply orb_true_iff in H. apply orb_true_iff. destruct H as [H|H].
    + left. exact (prefix_app needle (String c s) suffix H).
    + right. auto.
Qed.

Lemma includes_app_l (prefix s needle : string) :
  includes s needle = true -> includes (prefix ++ s) needle = true.
Proof.
  intro H. induction prefix as [|c prefix IH]; [exact H|].
  cbn [includes append]. rewrite IH. apply orb_true_r.
Qed.

Lemma toLowerCase_length (s : string) :
  String.length (toLowerCase s) = String.length s.
Proof.
  induction s as [|c s IH]; cbn; congruence.
Qed.

(** X22. Support for prompt caching is recognised inside a longer
    model id: a provider prefix or a version suffix around a supported
    id keeps it supported. *)
Theorem supportsPromptCaching_embedded :
  forall modelId prefix suffix : string,
    supportsPromptCaching modelId = true ->
    supportsPromptCaching (prefix ++ modelId ++ suffix) = true.
Proof.
  intros modelId prefix suffix. unfold supportsPromptCaching. cbv zeta.
  rewrite <- !existsb_app, !existsb_exists.
  intros (model & Hin & H). exists model. split; [exact Hin|].
  apply includes_app_l, includes_app_r, H.
Qed.

Lemma supportsPromptCaching_embedded_witness :
  supportsPromptCaching "claude-3-opus" = true
  /\ supportsPromptCaching ("anthropic/" ++ "claude-3-opus" ++ ":beta") = true.
Proof.
  assert (H : supportsPromptCaching "claude-3-opus" = true) by reflexivity.
  split; [exact H|].
  exact (supportsPromptCaching_embedded "claude-3-opus" "anthropic/" ":beta" H).
Defined.

(** X23. On prompts of ASCII characters the cost optimisation reads
    the system prompt without regard to letter case: two such prompts
    that agree once lower-cased get the same configuration, hence the
    same tier, fallback models and auto-router choice.  (Beyond ASCII
    lower-casing can change the length of a prompt, which the
    auto-router reads.) *)
Theorem getCostOptimizationConfig_case_insensitive :
  forall (primaryModel systemPrompt systemPrompt' : string) (messageCount : Z)
         (hasImages : option bool),
    isAscii systemPrompt = true ->
    isAscii systemPrompt' = true ->
    toLowerCase systemPrompt = toLowerCase systemPrompt' ->
    getCostOptimizationConfig primaryModel systemPrompt messageCount hasImages
    = getCostOptimizationConfig primaryModel systemPrompt' messageCount hasImages
    /\ shouldUseAutoRouter systemPrompt messageCount hasImages
       = shouldUseAutoRouter systemPrompt' messageCount hasImages.
Proof.
  intros primaryModel systemPrompt systemPrompt' messageCount hasImages _ _ E.
  assert (L : String.length systemPrompt = String.length systemPrompt').
  { rewrite <- (toLowerCase_length systemPrompt), E. apply toLowerCase_length. }
  unfold getCostOptimizationConfig, shouldUseAutoRouter, mentionsAny.
  rewrite E, L. split; reflexivity.
Qed.

Lemma getCostOptimizationConfig_case_insensitive_witness :
  isAscii "DEBUG the Parser" = true
  /\ isAscii "debug the parser" = true
  /\ toLowerCase "DEBUG the Parser" = toLowerCase "debug the parser"
  /\ getCostOptimizationConfig "openai/gpt-4o" "DEBUG the Parser" 2 None
     = getCostOptimizationConfig "openai/gpt-4o" "debug the parser" 2 None.
Proof.
  assert (H : toLowerCase "DEBUG the Parser" = toLowerCase "debug the parser")
    by reflexivity.
  split; [reflexivity|]. split; [reflexivity|]. split; [exact H|].
  exact (proj1 (getCostOptimizationConfig_case_insensitive
                  "openai/gpt-4o" "DEBUG the Parser" "debug the parser" 2 None
                  eq_refl eq_refl H)).
Defined.

(** ** Cache markers on a conversation *)

Module CachingFacts.
Local Open Scope list_scope.

Lemma combine_seq_map {A B} (g : nat * A -> B) (h : A -> B) (l : list A) :
  forall start,
    (forall i a, g (i, a) = h a) ->
    map g (combine (seq start (List.length l)) l) = map h l.
Proof.
  induction l as [|a l IH]; intros start H; [reflexivity|].
  cbn. rewrite H, (IH (S start) H). reflexivity.
Qed.

Lemma map_mapIndexed {A B C} (g : B -> C) (h : A -> C) (f : A -> nat -> B)
    (l : list A) :
  (forall a i, g (f a i) = h a) -> map g (mapIndexed f l) = map h l.
Proof.
  intro H. unfold mapIndexed, indexed. rewrite map_map.
  apply combine_seq_map. intros i a. apply H.
Qed.

Lemma combine_seq_nth {A B} (f : A -> nat -> B) (l : list A) :
  forall start k,
    nth_error (map (fun entry => f (snd entry) (fst entry))
                 (combine (seq start (List.length l)) l)) k
    = option_map (fun a => f a (start + k)%nat) (nth_error l k).
Proof.
  induction l as [|a l IH]; intros start k.
  - destruct k; reflexivity.
  - destruct k as [|k]; cbn.
    + rewrite Nat.add_0_r. reflexivity.
    + rewrite IH. rewrite Nat.add_succ_r. reflexivity.
Qed.

Lemma mapIndexed_nth {A B} (f : A -> nat -> B) (l : list A) (k : nat) :
  nth_error (mapIndexed f l) k = option_map (fun a => f a k) (nth_error l k).
Proof.
  unfold mapIndexed, indexed. apply combine_seq_nth.
Qed.

Lemma mapIndexed_length {A B} (f : A -> nat -> B) (l : list A) :
  List.length (mapIndexed f l) = List.length l.
Proof.
  rewrite <- (length_map (fun a => tt) l).
  rewrite <- (map_mapIndexed (fun _ => tt) (fun _ => tt) f l) by reflexivity.
  symmetry. apply length_map.
Qed.

(** Marking the element at [length - 1] marks the final element. *)
Lemma mapIndexed_final {A} (mark : A -> A) (init : list A) (z : A) :
  mapIndexed
    (fun a i => if (i =? List.length (init ++ [z]) - 1)%nat then mark a else a)
    (init ++ [z])
  = init ++ [mark z].
Proof.
  apply nth_error_ext. intro k. rewrite mapIndexed_nth.
  rewrite length_app. cbn [List.length].
  replace (List.length init + 1 - 1)%nat with (List.length init) by lia.
  destruct (Nat.lt_trichotomy k (List.length init)) as [H|[H|H]].
  - rewrite !nth_error_app1 by exact H.
    destruct (nth_error init k); [|reflexivity]. cbn.
    destruct (Nat.eqb_spec k (List.length init)); [lia|reflexivity].
  - subst k. rewrite !nth_error_app2 by lia. rewrite Nat.sub_diag. cbn.
    rewrite Nat.eqb_refl. reflexivity.
  - rewrite !nth_error_app2 by lia.
    destruct (k - List.length init)%nat as [|d] eqn:E; [lia|].
    cbn. destruct d; reflexivity.
Qed.

Lemma fromEnd_app {A} (front back : list A) (k : nat) :
  (0 < k <= List.length back)%nat -> fromEnd (front ++ back) k = fromEnd back k.
Proof.
  intro H. unfold fromEnd. rewrite length_app.
  destruct (Nat.ltb_spec (List.length front + List.length back) k); [lia|].
  destruct (Nat.ltb_spec (List.length back) k); [lia|].
  rewrite nth_error_app2 by lia. f_equal. lia.
Qed.

Lemma fromEnd_In {A} (l : list A) (k : nat) (a : A) :
  fromEnd l k = Some a -> In a l.
Proof.
  unfold fromEnd. destruct (List.length l <? k)%nat; [discriminate|].
  apply nth_error_In.
Qed.

Lemma lastOf_final {A} (init : list A) (z : A) : lastOf (init ++ [z]) = Some z.
Proof.
  unfold lastOf. rewrite fromEnd_app by (cbn; lia). reflexivity.
Qed.

Lemma lastOf_nonempty {A} (l : list A) (a : A) :
  lastOf l = Some a -> exists init z, l = init ++ [z].
Proof.
  intro H. destruct (exists_last (l := l)) as (init & z & E).
  - intros ->. discriminate.
  - exists init, z. exact E.
Qed.

(** *** The indices of the user messages *)

Lemma userMsgIndices_fold (messages : list Anthropic.MessageParam) :
  forall start acc,
    fold_left
      (fun acc entry =>
         if Anthropic.isUser (snd entry) then (acc ++ [fst entry])%list else acc)
      (combine (seq start (List.length messages)) messages) acc
    = (acc ++ userIndicesFrom start messages)%list.
Proof.
  induction messages as [|m rest IH]; intros start acc; cbn.
  - symmetry. apply app_nil_r.
  - rewrite IH. destruct (Anthropic.isUser m); [|reflexivity].
    rewrite <- app_assoc. reflexivity.
Qed.

Lemma userMsgIndices_spec (messages : list Anthropic.MessageParam) :
  userMsgIndices messages = userIndicesFrom 0 messages.
Proof.
  unfold userMsgIndices, indexed. apply userMsgIndices_fold.
Qed.

Lemma userIndicesFrom_app (front back : list Anthropic.MessageParam) :
  forall start,
    userIndicesFrom start (front ++ back)
    = (userIndicesFrom start front
       ++ userIndicesFrom (start + List.length front) back)%list.
Proof.
  induction front as [|m front IH]; intro start; cbn.
  - rewrite Nat.add_0_r. reflexivity.
  - rewrite IH, Nat.add_succ_r. destruct (Anthropic.isUser m); reflexivity.
Qed.

Lemma userIndicesFrom_ge (messages : list Anthropic.MessageParam) :
  forall start i, In i (userIndicesFrom start messages) -> (start <= i)%nat.
Proof.
  induction messages as [|m rest IH]; intros start i; cbn; [tauto|].
  destruct (Anthropic.isUser m); cbn; intro H.
  - destruct H as [<-|H]; [lia|]. apply IH in H. lia.
  - apply IH in H. lia.
Qed.

Lemma userIndicesFrom_length (messages : list Anthropic.MessageParam) :
  forall start,
    List.length (userIndicesFrom start messages)
    = List.length (filter Anthropic.isUser messages).
Proof.
  induction messages as [|m rest IH]; intro start; cbn; [reflexivity|].
  destruct (Anthropic.isUser m); cbn; rewrite IH; reflexivity.
Qed.

(** A conversation split at one of its messages. *)
Lemma split_at (messages : list Anthropic.MessageParam) (i : nat)
    (m : Anthropic.MessageParam) :
  nth_error messages i = Some m ->
  exists front,
    messages = (front ++ m :: skipn (S i) messages)%list /\ List.length front = i.
Proof.
  intro H. apply nth_error_split in H. destruct H as (front & back & E & L).
  exists front. split; [|exact L].
  rewrite E at 2. rewrite skipn_app, <- L.
  rewrite skipn_all2 by lia.
  replace (S (List.length front) - List.length front)%nat with 1%nat by lia.
  exact E.
Qed.

Lemma userMsgIndices_split (messages : list Anthropic.MessageParam) (i : nat)
    (m : Anthropic.MessageParam) :
  nth_error messages i = Some m ->
  exists front,
    userMsgIndices messages
    = ((front ++ (if Anthropic.isUser m then [i] else []))
       ++ userIndicesFrom (S i) (skipn (S i) messages))%list.
Proof.
  intro H. destruct (split_at messages i m H) as (front & E & L).
  exists (userIndicesFrom 0 front).
  rewrite userMsgIndices_spec. rewrite E at 1.
  rewrite userIndicesFrom_app. cbn [userIndicesFrom Nat.add]. rewrite L.
  rewrite <- app_assoc. destruct (Anthropic.isUser m); reflexivity.
Qed.

(** A message followed by two user messages or more is neither the
    last nor the one before the last of the user messages. *)
Lemma not_recent (messages : list Anthropic.MessageParam) (i : nat)
    (m : Anthropic.MessageParam) (k : nat) :
  nth_error messages i = Some m ->
  (2 <= usersAfter messages i)%nat ->
  (0 < k <= 2)%nat ->
  isIndex i (fromEnd (userMsgIndices messages) k) = false.
Proof.
  intros H Hafter Hk. destruct (userMsgIndices_split messages i m H) as (front & ->).
  unfold usersAfter in Hafter.
  rewrite fromEnd_app by (rewrite userIndicesFrom_length; lia).
  destruct (fromEnd _ k) as [j|] eqn:E; [|reflexivity]. cbn.
  apply fromEnd_In, userIndicesFrom_ge in E.
  destruct (Nat.eqb_spec i j); [lia|reflexivity].
Qed.

(** A user message followed by at most one user message is the last
    or the one before the last of the user messages. *)
Lemma recent (messages : list Anthropic.MessageParam) (i : nat)
    (m : Anthropic.MessageParam) :
  nth_error messages i = Some m ->
  Anthropic.isUser m = true ->
  (usersAfter messages i < 2)%nat ->
  (isIndex i (fromEnd (userMsgIndices messages) 1)
   || isIndex i (fromEnd (userMsgIndices messages) 2))%bool = true.
Proof.
  intros H Hu Hafter. destruct (userMsgIndices_split messages i m H) as (front & ->).
  rewrite Hu. unfold usersAfter in Hafter.
  rewrite <- (userIndicesFrom_length _ (S i)) in Hafter.
  destruct (userIndicesFrom (S i) (skipn (S i) messages)) as [|j [|j' later]].
  - rewrite app_nil_r. rewrite (fromEnd_app front [i] 1) by (cbn; lia).
    cbn. rewrite Nat.eqb_refl. reflexivity.
  - rewrite <- app_assoc. rewrite (fromEnd_app front ([i] ++ [j]) 2) by (cbn; lia).
    cbn. rewrite Nat.eqb_refl. apply orb_true_r.
  - cbn in Hafter. lia.
Qed.

(** *** One call of the callback *)

Section Callback.
Variable config : CacheOptimizationConfig.t.
Variables lastUser secondLastUser : option nat.

Lemma enhanceMessage_skips (cacheStats : CacheStats.t)
    (message : Anthropic.MessageParam) (index : nat) :
  ((isIndex index lastUser || isIndex index secondLastUser)
   && Anthropic.isUser message)%bool = false ->
  enhanceMessage config lastUser secondLastUser cacheStats message index
  = (cacheStats, message).
Proof.
  unfold enhanceMessage. cbv zeta. intros ->.
  destruct (Anthropic.content message); reflexivity.
Qed.

(** What one call does: nothing, or it counts a message that is a
    user message at one of the two indices, with at least the minimum
    number of tokens. *)
Lemma enhanceMessage_cases (cacheStats : CacheStats.t)
    (message : Anthropic.MessageParam) (index : nat) :
  let result :=
    enhanceMessage config lastUser secondLastUser cacheStats message index in
  result = (cacheStats, message)
  \/ ((isIndex index lastUser || isIndex index secondLastUser)%bool = true
      /\ Anthropic.isUser message = true
      /\ exists tokens,
          fst result = CacheStats.count cacheStats tokens
          /\ (CacheOptimizationConfig.minTokensForCaching config <= tokens)%Z).
Proof.
  cbv zeta. unfold enhanceMessage. cbv zeta.
  destruct ((isIndex index lastUser || isIndex index secondLastUser)%bool) eqn:Et;
    [|left; destruct (Anthropic.content message); reflexivity].
  destruct (Anthropic.isUser message) eqn:Eu;
    [|left; destruct (Anthropic.content message); reflexivity].
  cbn [andb]. destruct (Anthropic.content message) as [s|parts].
  - destruct (shouldCacheContent_string s (Some config)) eqn:Ec; [|left; reflexivity].
    right. repeat split. eexists. split; [reflexivity|].
    unfold shouldCacheContent_string in Ec. cbn in Ec. apply Z.leb_le. exact Ec.
  - destruct (lastOf (filter Anthropic.isText parts)) as [lastTextPart|];
      [|left; reflexivity].
    destruct (shouldCacheContent_string (Anthropic.text lastTextPart) (Some config))
      eqn:Ec; [|left; reflexivity].
    right. repeat split. eexists. split; [reflexivity|].
    unfold shouldCacheContent_string in Ec. cbn in Ec. apply Z.leb_le. exact Ec.
Qed.

Lemma enhanceMessage_role (cacheStats : CacheStats.t)
    (message : Anthropic.MessageParam) (index : nat) :
  Anthropic.role
    (snd (enhanceMessage config lastUser secondLastUser cacheStats message index))
  = Anthropic.role message.
Proof.
  unfold enhanceMessage. cbv zeta.
  destruct (Anthropic.content message);
    repeat match goal with
           | |- context [if ?c then _ else _] => destruct c
           | |- context [match lastOf ?l with _ => _ end] => destruct (lastOf l)
           end; reflexivity.
Qed.

Lemma enhanceMessage_textOf (cacheStats : CacheStats.t)
    (message : Anthropic.MessageParam) (index : nat) :
  textOf (snd (enhanceMessage config lastUser secondLastUser cacheStats message index))
  = textOf message.
Proof.
  unfold enhanceMessage. cbv zeta. unfold textOf at 2.
  destruct (Anthropic.content message) as [s|parts] eqn:Ec.
  - destruct (_ && _)%bool; cbn; [reflexivity|].
    unfold textOf. rewrite Ec. reflexivity.
  - destruct (_ && _)%bool; [|unfold textOf; cbn; rewrite Ec; reflexivity].
    destruct (lastOf _); [|unfold textOf; cbn; rewrite Ec; reflexivity].
    destruct (shouldCacheContent_string _ _);
      [|unfold textOf; cbn; rewrite Ec; reflexivity].
    unfold textOf. cbn [snd Anthropic.content]. f_equal.
    apply map_mapIndexed. intros a i. destruct (_ =? _)%nat; reflexivity.
Qed.
End Callback.

(** *** The whole map *)

Section Map.
Variable callback :
  CacheStats.t -> Anthropic.MessageParam -> nat -> CacheStats.t * Anthropic.MessageParam.

Lemma mapWithStats_cons (cacheStats : CacheStats.t) (index : nat)
    (message : Anthropic.MessageParam) (rest : list Anthropic.MessageParam) :
  mapWithStats callback cacheStats index (message :: rest)
  = (fst (mapWithStats callback (fst (callback cacheStats message index))
            (S index) rest),
     snd (callback cacheStats message index)
     :: snd (mapWithStats callback (fst (callback cacheStats message index))
               (S index) rest)).
Proof.
  cbn [mapWithStats].
  destruct (callback cacheStats message index) as [s1 m'].
  cbn [fst snd]. destruct (mapWithStats callback s1 (S index) rest). reflexivity.
Qed.

Lemma mapWithStats_map {B} (g : Anthropic.MessageParam -> B) :
  (forall cacheStats message index,
      g (snd (callback cacheStats message index)) = g message) ->
  forall messages cacheStats index,
    map g (snd (mapWithStats callback cacheStats index messages)) = map g messages.
Proof.
  intro H. induction messages as [|m rest IH]; intros cacheStats index;
    [reflexivity|].
  rewrite mapWithStats_cons. cbn [snd map]. rewrite H, IH. reflexivity.
Qed.

Lemma mapWithStats_nth :
  forall messages cacheStats start k message,
    nth_error messages k = Some message ->
    exists cacheStats',
      nth_error (snd (mapWithStats callback cacheStats start messages)) k
      = Some (snd (callback cacheStats' message (start + k)%nat)).
Proof.
  induction messages as [|m rest IH]; intros cacheStats start k message H.
  - destruct k; discriminate.
  - rewrite mapWithStats_cons. cbn [snd]. destruct k as [|k].
    + injection H as ->. exists cacheStats. rewrite Nat.add_0_r. reflexivity.
    + cbn [nth_error] in *. rewrite Nat.add_succ_r. apply (IH _ (S start)). exact H.
Qed.
End Map.

Lemma pending_step (start : nat) (found : option nat) :
  (0 <= pending (S start) found <= pending start found)%Z
  /\ (isIndex start found = true ->
      (pending (S start) found + 1 <= pending start found)%Z).
Proof.
  unfold pending, isIndex. destruct found as [i|]; [|split; [lia|discriminate]].
  destruct (Nat.eqb_spec start i), (Nat.leb_spec start i), (Nat.leb_spec (S start) i);
    split; try lia; intro; try discriminate; lia.
Qed.

Lemma pending_le_1 (start : nat) (found : option nat) :
  (0 <= pending start found <= 1)%Z.
Proof.
  unfold pending. destruct found as [i|]; [destruct (start <=? i)%nat|]; lia.
Qed.

(** The statistics over the whole map. *)
Lemma mapWithStats_stats (config : CacheOptimizationConfig.t)
    (lastUser secondLastUser : option nat) :
  forall messages cacheStats start,
    let out :=
      fst (mapWithStats (enhanceMessage config lastUser secondLastUser)
             cacheStats start messages) in
    let added :=
      (CacheStats.messagesCached out - CacheStats.messagesCached cacheStats)%Z in
    (0 <= added <= pending start lastUser + pending start secondLastUser)%Z
    /\ (added <= Z.of_nat (List.length (filter Anthropic.isUser messages)))%Z
    /\ CacheStats.systemCached out = CacheStats.systemCached cacheStats
    /\ (CacheStats.estimatedSavings cacheStats
        + CacheOptimizationConfig.minTokensForCaching config * added
        <= CacheStats.estimatedSavings out)%Z.
Proof.
  induction messages as [|m rest IH]; intros cacheStats start; cbv zeta.
  - cbn. pose proof (pending_le_1 start lastUser).
    pose proof (pending_le_1 start secondLastUser). repeat split; lia.
  - rewrite mapWithStats_cons. cbn [fst].
    pose proof (pending_step start lastUser) as [P1 Q1].
    pose proof (pending_step start secondLastUser) as [P2 Q2].
    destruct (enhanceMessage_cases config lastUser secondLastUser cacheStats m start)
      as [E|(Et & Eu & tokens & E & Htok)].
    + rewrite E. cbn [fst].
      specialize (IH cacheStats (S start)). cbv zeta in IH.
      destruct IH as (I1 & I2 & I3 & I4). repeat split; try lia.
      * cbn [filter]. destruct (Anthropic.isUser m); cbn [List.length]; lia.
      * exact I3.
    + rewrite E.
      specialize (IH (CacheStats.count cacheStats tokens) (S start)).
      cbv zeta in IH. cbn [CacheStats.count CacheStats.messagesCached
                             CacheStats.systemCached CacheStats.estimatedSavings] in IH.
      destruct IH as (I1 & I2 & I3 & I4).
      assert (Hp : (pending (S start) lastUser + pending (S start) secondLastUser + 1
                    <= pending start lastUser + pending start secondLastUser)%Z).
      { apply orb_true_iff in Et. destruct Et as [Et|Et];
          [apply Q1 in Et|apply Q2 in Et]; lia. }
      cbn [filter]. rewrite Eu. cbn [List.length].
      repeat split; try lia; exact I3.
Qed.

End CachingFacts.

Section EnhancedCachingFacts.
Variable messages : list Anthropic.MessageParam.
Variable systemPrompt : string.
Variable config : option CacheOptimizationConfig.t.

(** The callback as [enhanceAnthropicCaching] instantiates it. *)
Let callback :=
  enhanceMessage (orDefault config DEFAULT_CACHE_CONFIG)
    (fromEnd (userMsgIndices messages) 1) (fromEnd (userMsgIndices messages) 2).

(** The statistics after the system prompt has been looked at. *)
Let afterSystemPrompt : CacheStats.t :=
  {| CacheStats.systemCached := shouldCacheContent_string systemPrompt config;
     CacheStats.messagesCached := 0;
     CacheStats.estimatedSavings :=
       if shouldCacheContent_string systemPrompt config
       then 0 + estimateTokenCount_string systemPrompt else 0 |}.

Lemma shouldCacheContent_string_resolved (content : string) :
  shouldCacheContent_string content (Some (orDefault config DEFAULT_CACHE_CONFIG))
  = shouldCacheContent_string content config.
Proof. reflexivity. Qed.

Lemma enhanceAnthropicCaching_unfold :
  enhanceAnthropicCaching messages systemPrompt config
  = {| EnhancedCaching.enhancedSystemPrompt :=
         [ {| Anthropic.type := "text"; Anthropic.text := systemPrompt;
              Anthropic.fields := [];
              Anthropic.cache_control :=
                if shouldCacheContent_string systemPrompt config
                then Some Anthropic.ephemeral else None |} ];
       EnhancedCaching.enhancedMessages :=
         snd (mapWithStats callback afterSystemPrompt 0 messages);
       EnhancedCaching.cacheStats :=
         fst (mapWithStats callback afterSystemPrompt 0 messages) |}.
Proof.
  unfold enhanceAnthropicCaching, callback, afterSystemPrompt. cbv zeta.
  rewrite shouldCacheContent_string_resolved.
  destruct (shouldCacheContent_string systemPrompt config);
    cbn [CacheStats.messagesCached CacheStats.estimatedSavings];
    match goal with
    | |- context [mapWithStats ?f ?s ?i ?l] => destruct (mapWithStats f s i l)
    end; reflexivity.
Qed.

Lemma enhanceMessage_below (cacheStats : CacheStats.t)
    (message : Anthropic.MessageParam) (index : nat) :
  (Anthropic.isUser message = true -> belowThreshold config message) ->
  callback cacheStats message index = (cacheStats, message).
Proof.
  intro H. unfold callback.
  destruct (Anthropic.isUser message) eqn:Eu;
    [|apply CachingFacts.enhanceMessage_skips; rewrite Eu; apply andb_false_r].
  specialize (H eq_refl). unfold belowThreshold in H.
  unfold enhanceMessage. cbv zeta.
  destruct (Anthropic.content message) as [s|parts].
  - rewrite shouldCacheContent_string_resolved, H, andb_false_r. reflexivity.
  - destruct (_ && _)%bool; [|reflexivity].
    destruct (lastOf (filter Anthropic.isText parts)) as [p|] eqn:E; [|reflexivity].
    apply CachingFacts.fromEnd_In, filter_In in E. destruct E as [Hin Ht].
    rewrite shouldCacheContent_string_resolved, (H p Hin Ht). reflexivity.
Qed.

Lemma mapWithStats_below :
  forall (conversation : list Anthropic.MessageParam) cacheStats start,
    (forall m, In m conversation -> Anthropic.isUser m = true ->
               belowThreshold config m) ->
    mapWithStats callback cacheStats start conversation = (cacheStats, conversation).
Proof.
  induction conversation as [|m rest IH]; intros cacheStats start H; [reflexivity|].
  rewrite CachingFacts.mapWithStats_cons.
  rewrite (enhanceMessage_below cacheStats m start (H m (or_introl eq_refl))).
  cbn [fst snd]. rewrite IH by (intros; apply H; [right|]; assumption).
  reflexivity.
Qed.

(** X24. Caching changes neither who speaks nor what is said: the
    enhanced conversation has the same roles and the same texts,
    message by message (so the same number of messages), and the
    enhanced system prompt is one text block holding the system
    prompt. *)
Theorem enhanceAnthropicCaching_preserves_conversation :
  let result := enhanceAnthropicCaching messages systemPrompt config in
  map Anthropic.role (EnhancedCaching.enhancedMessages result)
  = map Anthropic.role messages
  /\ map textOf (EnhancedCaching.enhancedMessages result) = map textOf messages
  /\ List.length (EnhancedCaching.enhancedMessages result) = List.length messages
  /\ map Anthropic.text (EnhancedCaching.enhancedSystemPrompt result) = [systemPrompt]
  /\ map Anthropic.type (EnhancedCaching.enhancedSystemPrompt result) = ["text"].
Proof.
  cbv zeta. rewrite enhanceAnthropicCaching_unfold.
  cbn [EnhancedCaching.enhancedMessages EnhancedCaching.enhancedSystemPrompt].
  assert (R : map Anthropic.role (snd (mapWithStats callback afterSystemPrompt 0 messages))
              = map Anthropic.role messages).
  { apply CachingFacts.mapWithStats_map. intros. apply CachingFacts.enhanceMessage_role. }
  split; [exact R|]. split; [|split].
  - apply CachingFacts.mapWithStats_map. intros.
    apply CachingFacts.enhanceMessage_textOf.
  - rewrite <- (length_map Anthropic.role), R. apply length_map.
  - split; reflexivity.
Qed.

(** X25. When the system prompt and every text of every user message
    are below the caching threshold, nothing is marked: the messages
    come back as they were, the system prompt as a plain text block,
    and the statistics are all zero. *)
Theorem enhanceAnthropicCaching_below_threshold :
  shouldCacheContent_string systemPrompt config = false ->
  (forall m, In m messages -> Anthropic.isUser m = true -> belowThreshold config m) ->
  enhanceAnthropicCaching messages systemPrompt config
  = {| EnhancedCaching.enhancedSystemPrompt := [textBlock systemPrompt];
       EnhancedCaching.enhancedMessages := messages;
       EnhancedCaching.cacheStats :=
         {| CacheStats.systemCached := false; CacheStats.messagesCached := 0;
            CacheStats.estimatedSavings := 0 |} |}.
Proof.
  intros Hs Hm. rewrite enhanceAnthropicCaching_unfold.
  rewrite (mapWithStats_below messages afterSystemPrompt 0 Hm).
  unfold afterSystemPrompt. rewrite Hs. reflexivity.
Qed.

(** X26. The statistics of a run: at most two messages are counted,
    never more than there are user messages; the system prompt is
    counted exactly when it is cacheable; and every counted item
    contributes at least [minTokensForCaching] tokens to the estimated
    savings. *)
Theorem enhanceAnthropicCaching_stats :
  let cacheStats :=
    EnhancedCaching.cacheStats (enhanceAnthropicCaching messages systemPrompt config) in
  let minTokens :=
    CacheOptimizationConfig.minTokensForCaching
      (orDefault config DEFAULT_CACHE_CONFIG) in
  (0 <= CacheStats.messagesCached cacheStats <= 2)%Z
  /\ (CacheStats.messagesCached cacheStats
      <= Z.of_nat (List.length (filter Anthropic.isUser messages)))%Z
  /\ CacheStats.systemCached cacheStats
     = shouldCacheContent_string systemPrompt config
  /\ (minTokens * (CacheStats.messagesCached cacheStats
                   + (if CacheStats.systemCached cacheStats then 1 else 0))
      <= CacheStats.estimatedSavings cacheStats)%Z.
Proof.
  cbv zeta. rewrite enhanceAnthropicCaching_unfold. cbn [EnhancedCaching.cacheStats].
  pose proof (CachingFacts.mapWithStats_stats (orDefault config DEFAULT_CACHE_CONFIG)
                (fromEnd (userMsgIndices messages) 1)
                (fromEnd (userMsgIndices messages) 2)
                messages afterSystemPrompt 0) as H.
  cbv zeta in H. fold callback in H. destruct H as (H1 & H2 & H3 & H4).
  pose proof (CachingFacts.pending_le_1 0 (fromEnd (userMsgIndices messages) 1)).
  pose proof (CachingFacts.pending_le_1 0 (fromEnd (userMsgIndices messages) 2)).
  cbn [afterSystemPrompt CacheStats.messagesCached CacheStats.systemCached
         CacheStats.estimatedSavings] in *.
  unfold afterSystemPrompt in *. cbn [CacheStats.messagesCached CacheStats.systemCached
         CacheStats.estimatedSavings] in *.
  rewrite H3. repeat split; try lia.
  destruct (shouldCacheContent_string systemPrompt config) eqn:Ec; [|lia].
  unfold shouldCacheContent_string in Ec. cbv zeta in Ec. apply Z.leb_le in Ec. lia.
Qed.

(** X27. Only the two most recent user messages can change: an
    assistant message, and a message followed by two user messages or
    more, come back as they were. *)
Theorem enhanceAnthropicCaching_leaves_older_messages :
  forall (i : nat) (m : Anthropic.MessageParam),
    nth_error messages i = Some m ->
    Anthropic.isUser m = false \/ (2 <= usersAfter messages i)%nat ->
    nth_error
      (EnhancedCaching.enhancedMessages
         (enhanceAnthropicCaching messages systemPrompt config)) i
    = Some m.
Proof.
  intros i m H Hold. rewrite enhanceAnthropicCaching_unfold.
  cbn [EnhancedCaching.enhancedMessages].
  destruct (CachingFacts.mapWithStats_nth callback messages afterSystemPrompt 0 i m H)
    as (cacheStats' & ->).
  cbn [Nat.add]. unfold callback.
  rewrite CachingFacts.enhanceMessage_skips; [reflexivity|].
  destruct Hold as [Hu|Hafter].
  - rewrite Hu. apply andb_false_r.
  - rewrite (CachingFacts.not_recent messages i m 1 H Hafter) by lia.
    rewrite (CachingFacts.not_recent messages i m 2 H Hafter) by lia.
    reflexivity.
Qed.

(** X28. A recent user message given as a string: when at most one
    user message follows it, it becomes one marked text block with the
    same text if the text is cacheable, and comes back as it was if
    not. *)
Theorem enhanceAnthropicCaching_marks_recent_text :
  forall (i : nat) (s : string),
    nth_error messages i = Some (says Anthropic.user (Anthropic.Text s)) ->
    (usersAfter messages i < 2)%nat ->
    nth_error
      (EnhancedCaching.enhancedMessages
         (enhanceAnthropicCaching messages systemPrompt config)) i
    = Some
        (if shouldCacheContent_string s config
         then says Anthropic.user
                (Anthropic.Blocks [Anthropic.withCacheControl (textBlock s)])
         else says Anthropic.user (Anthropic.Text s)).
Proof.
  intros i s H Hafter. rewrite enhanceAnthropicCaching_unfold.
  cbn [EnhancedCaching.enhancedMessages].
  destruct (CachingFacts.mapWithStats_nth callback messages afterSystemPrompt 0 i _ H)
    as (cacheStats' & ->).
  f_equal. cbn [Nat.add]. unfold callback, enhanceMessage. cbv zeta.
  rewrite (CachingFacts.recent messages i _ H eq_refl Hafter).
  cbn [says Anthropic.content Anthropic.isUser Anthropic.role andb Nat.add].
  rewrite shouldCacheContent_string_resolved.
  destruct (shouldCacheContent_string s config); reflexivity.
Qed.

(** X29. A recent user message given as blocks: when its last text
    block is cacheable, the marker goes on the final block of the
    message, whatever its type, and every other block comes back as it
    was; so the text block that was measured stays unmarked when
    another block follows it. *)
Theorem enhanceAnthropicCaching_marks_final_block :
  forall (i : nat) (init : list Anthropic.ContentBlock)
         (final lastTextPart : Anthropic.ContentBlock),
    nth_error messages i
    = Some (says Anthropic.user (Anthropic.Blocks (init ++ [final])%list)) ->
    (usersAfter messages i < 2)%nat ->
    lastOf (filter Anthropic.isText (init ++ [final])%list) = Some lastTextPart ->
    shouldCacheContent_string (Anthropic.text lastTextPart) config = true ->
    nth_error
      (EnhancedCaching.enhancedMessages
         (enhanceAnthropicCaching messages systemPrompt config)) i
    = Some (says Anthropic.user
              (Anthropic.Blocks (init ++ [Anthropic.withCacheControl final])%list)).
Proof.
  intros i init final lastTextPart H Hafter Hlast Hc.
  rewrite enhanceAnthropicCaching_unfold. cbn [EnhancedCaching.enhancedMessages].
  destruct (CachingFacts.mapWithStats_nth callback messages afterSystemPrompt 0 i _ H)
    as (cacheStats' & ->).
  f_equal. cbn [Nat.add]. unfold callback, enhanceMessage. cbv zeta.
  rewrite (CachingFacts.recent messages i _ H eq_refl Hafter).
  cbn [says Anthropic.content Anthropic.isUser Anthropic.role andb Nat.add].
  rewrite Hlast, shouldCacheContent_string_resolved, Hc. cbn [snd].
  rewrite CachingFacts.mapIndexed_final. reflexivity.
Qed.
End EnhancedCachingFacts.

Lemma enhanceAnthropicCaching_below_threshold_witness :
  shouldCacheContent_string "You are a build assistant." None = false
  /\ (forall m, In m exampleConversation -> Anthropic.isUser m = true ->
                belowThreshold None m)
  /\ EnhancedCaching.enhancedMessages
       (enhanceAnthropicCaching exampleConversation "You are a build assistant." None)
     = exampleConversation.
Proof.
  assert (H1 : shouldCacheContent_string "You are a build assistant." None = false)
    by reflexivity.
  assert (H2 : forall m, In m exampleConversation -> Anthropic.isUser m = true ->
                         belowThreshold None m).
  { intros m Hin _. cbn in Hin.
    destruct Hin as [<-|[<-|[<-|[<-|[<-|[]]]]]]; try reflexivity.
    intros part Hpart _. cbn in Hpart. destruct Hpart as [<-|[<-|[]]]; reflexivity. }
  split; [exact H1|]. split; [exact H2|].
  rewrite (enhanceAnthropicCaching_below_threshold exampleConversation
             "You are a build assistant." None H1 H2).
  reflexivity.
Defined.

Lemma enhanceAnthropicCaching_leaves_older_messages_witness :
  nth_error exampleConversation 0
  = Some (says Anthropic.user (Anthropic.Text "why does the build fail?"))
  /\ (2 <= usersAfter exampleConversation 0)%nat
  /\ nth_error
       (EnhancedCaching.enhancedMessages
          (enhanceAnthropicCaching exampleConversation "" (Some zeroThresholdConfig))) 0
     = Some (says Anthropic.user (Anthropic.Text "why does the build fail?")).
Proof.
  assert (H1 : nth_error exampleConversation 0
               = Some (says Anthropic.user (Anthropic.Text "why does the build fail?")))
    by reflexivity.
  assert (H2 : (2 <= usersAfter exampleConversation 0)%nat) by (vm_compute; lia).
  split; [exact H1|]. split; [exact H2|].
  exact (enhanceAnthropicCaching_leaves_older_messages exampleConversation ""
           (Some zeroThresholdConfig) 0 _ H1 (or_intror H2)).
Defined.

Lemma enhanceAnthropicCaching_marks_recent_text_witness :
  nth_error exampleConversation 4 = Some (says Anthropic.user (Anthropic.Text "thanks"))
  /\ (usersAfter exampleConversation 4 < 2)%nat
  /\ nth_error
       (EnhancedCaching.enhancedMessages
          (enhanceAnthropicCaching exampleConversation "" (Some zeroThresholdConfig))) 4
     = Some (says Anthropic.user
               (Anthropic.Blocks [Anthropic.withCacheControl (textBlock "thanks")])).
Proof.
  assert (H1 : nth_error exampleConversation 4
               = Some (says Anthropic.user (Anthropic.Text "thanks"))) by reflexivity.
  assert (H2 : (usersAfter exampleConversation 4 < 2)%nat) by (vm_compute; lia).
  split; [exact H1|]. split; [exact H2|].
  exact (enhanceAnthropicCaching_marks_recent_text exampleConversation ""
           (Some zeroThresholdConfig) 4 "thanks" H1 H2).
Defined.

Lemma enhanceAnthropicCaching_marks_final_block_witness :
  nth_error exampleConversation 2
  = Some (says Anthropic.user
            (Anthropic.Blocks
               ([textBlock "the link step, see the log"] ++ [imageBlock "log.png"])%list))
  /\ (usersAfter exampleConversation 2 < 2)%nat
  /\ lastOf (filter Anthropic.isText
               ([textBlock "the link step, see the log"] ++ [imageBlock "log.png"])%list)
     = Some (textBlock "the link step, see the log")
  /\ shouldCacheContent_string "the link step, see the log" (Some zeroThresholdConfig)
     = true
  /\ nth_error
       (EnhancedCaching.enhancedMessages
          (enhanceAnthropicCaching exampleConversation "" (Some zeroThresholdConfig))) 2
     = Some (says Anthropic.user
               (Anthropic.Blocks
                  [textBlock "the link step, see the log";
                   Anthropic.withCacheControl (imageBlock "log.png")])).
Proof.
  assert (H1 : nth_error exampleConversation 2
               = Some (says Anthropic.user
                         (Anthropic.Blocks
                            ([textBlock "the link step, see the log"]
                             ++ [imageBlock "log.png"])%list))) by reflexivity.
  assert (H2 : (usersAfter exampleConversation 2 < 2)%nat) by (vm_compute; lia).
  assert (H3 : lastOf (filter Anthropic.isText
                         ([textBlock "the link step, see the log"]
                          ++ [imageBlock "log.png"])%list)
               = Some (textBlock "the link step, see the log")) by reflexivity.
  assert (H4 : shouldCacheContent_string
                 (Anthropic.text (textBlock "the link step, see the log"))
                 (Some zeroThresholdConfig) = true) by reflexivity.
  split; [exact H1|]. split; [exact H2|]. split; [exact H3|]. split; [exact H4|].
  exact (enhanceAnthropicCaching_marks_final_block exampleConversation ""
           (Some zeroThresholdConfig) 2 _ _ _ H1 H2 H3 H4).
Defined.

(** ** The caching analysis *)

Lemma totalUserTokens_nonneg (conversation : list Anthropic.MessageParam) :
  forall total : Z,
    (0 <= total)%Z ->
    (0 <= fold_left
            (fun total msg => (total + estimateTokenCount_string (textOf msg))%Z)
            conversation total)%Z.
Proof.
  induction conversation as [|m rest IH]; intros total H; [exact H|].
  cbn. apply IH. pose proof (estimateTokenCount_string_nonneg (textOf m)). lia.
Qed.

(** X30. The caching analysis always gives between one and three
    recommendations; its potential savings are never negative and are
    positive only with a second recommendation; for a model without
    prompt caching the strategy is "none" whatever the sizes, and for a
    model with prompt caching the strategy is "none" exactly when the
    potential savings are zero. *)
Theorem analyzeCachingOpportunities_properties :
  forall (rt : JsRuntime) (systemPrompt : string)
         (messages : list Anthropic.MessageParam) (supportsPromptCache : bool),
    let analysis := analyzeCachingOpportunities systemPrompt messages supportsPromptCache in
    (1 <= List.length (CachingAnalysis.recommendations analysis) <= 3)%nat
    /\ 0 <= CachingAnalysis.potentialSavings analysis
    /\ (0 < CachingAnalysis.potentialSavings analysis ->
        (2 <= List.length (CachingAnalysis.recommendations analysis))%nat)
    /\ (supportsPromptCache = false ->
        CachingAnalysis.optimalStrategy analysis = strategy_none)
    /\ (supportsPromptCache = true ->
        (CachingAnalysis.optimalStrategy analysis = strategy_none
         <-> CachingAnalysis.potentialSavings analysis == 0)).
Proof.
  intros rt systemPrompt messages supportsPromptCache. cbv zeta.
  unfold analyzeCachingOpportunities. cbv zeta.
  pose proof (totalUserTokens_nonneg (filter Anthropic.isUser messages) 0 ltac:(lia))
    as Hu.
  set (userTokens := fold_left _ (filter Anthropic.isUser messages) 0%Z) in *.
  set (systemTokens := estimateTokenCount_string systemPrompt).
  destruct (Z.leb_spec 1024 systemTokens) as [Hs|Hs];
    destruct (Z.leb_spec 2048 userTokens) as [Hm|Hm];
    destruct supportsPromptCache;
    cbn [CachingAnalysis.recommendations CachingAnalysis.potentialSavings
           CachingAnalysis.optimalStrategy app List.length].
  all: try (rewrite Zle_Qle in Hs; change (inject_Z 1024) with 1024 in Hs).
  all: try (rewrite Zle_Qle in Hm; change (inject_Z 2048) with 2048 in Hm).
  all: clearbody userTokens systemTokens.
  all: generalize dependent (inject_Z systemTokens);
    generalize dependent (inject_Z userTokens); intros.
  all: repeat split; try lia; try discriminate; try congruence; intros; try lra.
Qed.
